(** * Contrarian trading pipeline: pool-delta classifier, per-trade engine,
    retry wrapper, trade ledger and batch aggregator.

    Shallow embedding of
      - src/trading_dev/contrarian/detectlast.ts
      - src/pump_getPrice/market_maker.ts
      - the order watcher (writeTradestoCSV, exponentialBackoff, fetchWithRetry)

    JavaScript numbers are IEEE-754 binary64 values: they are modelled by the
    kernel's primitive floats, whose operations round exactly as the
    JavaScript ones do.  Millisecond clocks ([Date.now()]) and retry delays are
    integers far below 2^53 and are modelled in [Z]. *)

From Stdlib Require Import ZArith List Bool Lia Ascii String.
From Stdlib Require Import Floats.
From stdpp Require Import base option list strings pretty gmap.

Local Open Scope Z_scope.

(** How an [async] function ends: its promise resolves or rejects. *)
Inductive Completion := Returned | Threw.

(* ===================================================================== *)
(** ** JavaScript numbers *)
(* ===================================================================== *)

Module JS.

Definition number := float.

(** A value typed [number | null] (the RPC's [uiAmount]). *)
Definition nullable := option number.

(** [ToNumber]: [null] converts to [+0]. *)
Definition toNumber (v : nullable) : number :=
  match v with
  | Some x => x
  | None => 0%float
  end.

(** [a < b] and [a > b] on numbers; both are false when an operand is NaN. *)
Definition lt (a b : number) : bool := PrimFloat.ltb a b.
Definition gt (a b : number) : bool := PrimFloat.ltb b a.

(** [a === b] and [a !== b] on numbers ([-0 === 0], [NaN !== NaN]). *)
Definition strict_eq (a b : number) : bool := PrimFloat.eqb a b.
Definition strict_ne (a b : number) : bool := negb (PrimFloat.eqb a b).

(** [v !== 0] for [v : number | null]: [null] is never strictly equal to a
    number. *)
Definition ne_zero (v : nullable) : bool :=
  match v with
  | Some x => strict_ne x 0%float
  | None => true
  end.

(** Relational operators and [-] convert [null] operands with [ToNumber]. *)
Definition gt_v (a b : nullable) : bool := gt (toNumber a) (toNumber b).
Definition lt_v (a b : nullable) : bool := lt (toNumber a) (toNumber b).
Definition sub_v (a b : nullable) : number :=
  PrimFloat.sub (toNumber a) (toNumber b).

(** [Math.abs]. *)
Definition Math_abs (x : number) : number := PrimFloat.abs x.

(** [BigInt(Math.floor(x))]: the integer part, rounded down, of a finite
    number; [None] stands for the [RangeError] thrown on NaN and on the
    infinities. *)
Definition floorToBigInt (x : number) : option Z :=
  match Prim2SF x with
  | S754_zero _ => Some 0
  | S754_finite s m e =>
      Some (Z.shiftl (if s then Z.neg m else Z.pos m) e)
  | S754_infinity _ | S754_nan => None
  end.

End JS.


(* ===================================================================== *)
(** ** JavaScript strings and arrays of strings *)
(* ===================================================================== *)

(** Strings are sequences of one-byte code units; only the comma, the line
    feed and the white-space units matter to the code below. *)
Module JSString.

Local Open Scope string_scope.

Definition comma : ascii := ","%char.
Definition newline : ascii := "010"%char.

(** [s.split(sep)] for a one-character separator: never empty, an empty
    string splits into one empty piece. *)
Fixpoint split (sep : ascii) (s : string) : list string :=
  match s with
  | EmptyString => [EmptyString]
  | String c s' =>
      if Ascii.eqb c sep then EmptyString :: split sep s'
      else
        match split sep s' with
        | [] => [String c EmptyString]
        | piece :: pieces => String c piece :: pieces
        end
  end.

(** A value that may be [undefined]. *)
Definition maybe := option string.

(** How [Array.prototype.join] and a template literal render a value. *)
Definition join_item (v : maybe) : string :=
  match v with Some s => s | None => "" end.
Definition template_item (v : maybe) : string :=
  match v with Some s => s | None => "undefined" end.

(** [parts.join(sep)] *)
Definition join (sep : string) (parts : list string) : string :=
  String.concat sep parts.

(** White space and line terminators removed by [trim]. *)
Definition is_space (c : ascii) : bool :=
  let n := nat_of_ascii c in
  ((9 <=? n)%nat && (n <=? 13)%nat) || (n =? 32)%nat || (n =? 160)%nat.

Fixpoint all_space (s : string) : bool :=
  match s with
  | EmptyString => true
  | String c s' => is_space c && all_space s'
  end.

(** [line.trim() !== ''] *)
Definition not_blank (line : string) : bool := negb (all_space line).

(** [s.slice(0, n)] *)
Fixpoint take (n : nat) (s : string) : string :=
  match n, s with
  | S n', String c s' => String c (take n' s')
  | _, _ => EmptyString
  end.

(** [s.includes(needle)] *)
Fixpoint includes (needle s : string) : bool :=
  String.prefix needle s
  || match s with
     | EmptyString => false
     | String _ s' => includes needle s'
     end.

(** No occurrence of the character [c] in [s]. *)
Fixpoint free_of (c : ascii) (s : string) : bool :=
  match s with
  | EmptyString => true
  | String c' s' => negb (Ascii.eqb c' c) && free_of c s'
  end.

(** [lines.shift()]: the array without its first element. *)
Definition shift {A} (l : list A) : list A := List.tl l.

(** [arr.slice(-n)]: the last [n] elements (all of them when fewer). *)
Definition lastN {A} (n : nat) (l : list A) : list A :=
  skipn (length l - n) l.

End JSString.

(* ===================================================================== *)
(** ** detectlast.ts: the pool-delta classifier and the per-trade engine *)
(* ===================================================================== *)

Module DetectLast.

(** ['buy' | 'sell']; the [null] side is [None]. *)
Inductive Side := buy | sell.

Record TradeState := {
  lastTradeDirection : option Side;
  lastTradeSizeInSOL : JS.number;
  lastTradeTimestamp : Z
}.

(** [0.1], that is the binary64 number nearest to one tenth. *)
Definition OPPOSITE_TRADE_PERCENTAGE : JS.number := 0x1.999999999999ap-4%float.
Definition WSOL_ADDRESS : string := "So11111111111111111111111111111111111111112".
Definition RAYDIUM_AUTHORITY : string := "5Q544fKrFoe6tsEbD7S8FxcJPMeVpkEgPWjCzGw3ZNzo".

(** One entry of [meta.preTokenBalances] / [meta.postTokenBalances];
    [uiAmount] stands for [account.uiTokenAmount.uiAmount]. *)
Record TokenBalance := {
  owner : string;
  mint : string;
  uiAmount : JS.nullable
}.

(** [data.transaction.transaction.meta]. *)
Record TxData := {
  preTokenBalances : list TokenBalance;
  postTokenBalances : list TokenBalance
}.

Record DetectResult := {
  side : option Side;
  swappedSOLAmount : JS.number
}.

(** [account.owner === RAYDIUM_AUTHORITY && account.mint === m]. *)
Definition poolEntry (m : string) (account : TokenBalance) : bool :=
  String.eqb (owner account) RAYDIUM_AUTHORITY && String.eqb (mint account) m.

(** One [for (const account of ...)] loop of [detectLatestTrade], started
    with the two accumulators [poolSOL] and [poolToken]. *)
Fixpoint scanFrom (targetTokenMint : string) (balances : list TokenBalance)
    (poolSOL poolToken : JS.nullable) : JS.nullable * JS.nullable :=
  match balances with
  | [] => (poolSOL, poolToken)
  | account :: rest =>
      if JS.ne_zero poolSOL && JS.ne_zero poolToken then (poolSOL, poolToken)
      else
        let poolSOL' :=
          if poolEntry WSOL_ADDRESS account then uiAmount account else poolSOL in
        let poolToken' :=
          if poolEntry targetTokenMint account then uiAmount account
          else poolToken in
        scanFrom targetTokenMint rest poolSOL' poolToken'
  end.

(** The loop with its accumulators initialised to [0]. *)
Definition scanPool (targetTokenMint : string) (balances : list TokenBalance)
    : JS.nullable * JS.nullable :=
  scanFrom targetTokenMint balances (Some 0%float) (Some 0%float).

Definition detectLatestTrade (data : TxData) (targetTokenMint : string)
    : DetectResult :=
  let '(prePoolSOL, prePoolToken) :=
    scanPool targetTokenMint (preTokenBalances data) in
  let '(postPoolSOL, postPoolToken) :=
    scanPool targetTokenMint (postTokenBalances data) in
  if JS.gt_v postPoolSOL prePoolSOL then
    {| side := Some buy; swappedSOLAmount := JS.sub_v postPoolSOL prePoolSOL |}
  else if JS.lt_v postPoolSOL prePoolSOL then
    {| side := Some sell; swappedSOLAmount := JS.sub_v prePoolSOL postPoolSOL |}
  else
    {| side := None; swappedSOLAmount := 0%float |}.

(** *** The per-trade contrarian engine *)

(** A call of the execution gateway: [sell(token, amount, slippage)] or
    [buy(token, amount, slippage)]. *)
Inductive GatewayCall :=
| CallSell (tokenAddress : string) (amount : JS.number) (slippage : Z)
| CallBuy (tokenAddress : string) (amount : JS.number) (slippage : Z).

(** What one run of [handleTradeDetection] leaves behind: the
    [tradeStates] table (an object used as a map from token address to
    state), the gateway calls it made, and how it ended. *)
Record Outcome := {
  states : gmap string TradeState;
  placed : list GatewayCall;
  completion : Completion
}.

(** [tradeStates] is a plain object ([{}]) used as a map, so reading a key
    that is not an own property goes on to [Object.prototype].  These are
    the names of the properties of [Object.prototype] (ECMAScript 20.1.3
    and B.2.2). *)
Definition objectPrototypeKeys : list string :=
  [ "constructor"; "hasOwnProperty"; "isPrototypeOf";
    "propertyIsEnumerable"; "toLocaleString"; "toString"; "valueOf";
    "__proto__"; "__defineGetter__"; "__defineSetter__";
    "__lookupGetter__"; "__lookupSetter__" ].

Definition inherited (key : string) : bool :=
  existsb (String.eqb key) objectPrototypeKeys.

(** What [tradeStates[tokenAddress] || null] evaluates to: a state the
    engine stored under that key (an own property), a value inherited from
    the prototype (a function, or the prototype itself for [__proto__]:
    truthy, and without a [lastTradeTimestamp]), or [null]. *)
Inductive LastState :=
| Stored (st : TradeState)
| Inherited
| Null.

Definition lastStateOf (tradeStates : gmap string TradeState)
    (tokenAddress : string) : LastState :=
  match tradeStates !! tokenAddress with
  | Some st => Stored st
  | None => if inherited tokenAddress then Inherited else Null
  end.

(** [!lastState || currentTimestamp - lastState.lastTradeTimestamp > 1000].
    For an inherited value [lastState.lastTradeTimestamp] is [undefined],
    the difference is NaN and the comparison is false. *)
Definition cooledDown (lastState : LastState) (currentTimestamp : Z)
    : bool :=
  match lastState with
  | Null => true
  | Inherited => false
  | Stored st => 1000 <? currentTimestamp - lastTradeTimestamp st
  end.

(** [handleTradeDetection].  [gateway] tells, for each call, whether the
    awaited order resolves ([true]) or rejects ([false]);
    [currentTimestamp] is the value of [Date.now()].  The assignment to
    [tradeStates[tokenAddress]] is reached only when the key is an own
    property or is not inherited, where it sets an own property. *)
Definition handleTradeDetection (gateway : GatewayCall -> bool)
    (currentTimestamp : Z) (tradeStates : gmap string TradeState)
    (tokenAddress : string) (data : TxData) : Outcome :=
  let lastState := lastStateOf tradeStates tokenAddress in
  let tradeResult := detectLatestTrade data tokenAddress in
  let swapped := swappedSOLAmount tradeResult in
  match side tradeResult with
  | Some tradeDirection =>
      if cooledDown lastState currentTimestamp then
        let oppositeSizeInSOL := (swapped * OPPOSITE_TRADE_PERCENTAGE)%float in
        let call :=
          match tradeDirection with
          | buy => CallSell tokenAddress oppositeSizeInSOL 1
          | sell => CallBuy tokenAddress oppositeSizeInSOL 1
          end in
        if gateway call then
          {| states :=
               <[tokenAddress :=
                   {| lastTradeDirection := Some tradeDirection;
                      lastTradeSizeInSOL := oppositeSizeInSOL;
                      lastTradeTimestamp := currentTimestamp |}]> tradeStates;
             placed := [call];
             completion := Returned |}
        else
          {| states := tradeStates; placed := [call]; completion := Threw |}
      else
        {| states := tradeStates; placed := []; completion := Returned |}
  | None =>
      {| states := tradeStates; placed := []; completion := Returned |}
  end.

(** The order the engine places against a detected trade: a sell against
    a buy, a buy against a sell, for a tenth of the detected magnitude and
    with slippage argument 1. *)
Definition counterOrder (detected : Side) (tokenAddress : string)
    (magnitude : JS.number) : GatewayCall :=
  let size := (magnitude * OPPOSITE_TRADE_PERCENTAGE)%float in
  match detected with
  | buy => CallSell tokenAddress size 1
  | sell => CallBuy tokenAddress size 1
  end.

(** The state written after an accepted detection. *)
Definition recorded (detected : Side) (magnitude : JS.number) (now : Z)
    : TradeState :=
  {| lastTradeDirection := Some detected;
     lastTradeSizeInSOL := (magnitude * OPPOSITE_TRADE_PERCENTAGE)%float;
     lastTradeTimestamp := now |}.

(** *** Reference notions used to describe the scan *)

(** Amount of the first entry of [l] held by the pool authority for mint
    [m]; [0] when there is none. *)
Definition firstMatch (m : string) (l : list TokenBalance) : JS.nullable :=
  match List.find (poolEntry m) l with
  | Some account => uiAmount account
  | None => Some 0%float
  end.

(** Amount of the last such entry of [l]; [0] when there is none. *)
Definition lastMatch (m : string) (l : list TokenBalance) : JS.nullable :=
  fold_left (fun acc account =>
               if poolEntry m account then uiAmount account else acc)
            l (Some 0%float).

(** Both quantities read off the entries [l] are non-zero. *)
Definition bothFound (targetTokenMint : string) (l : list TokenBalance) : bool :=
  JS.ne_zero (lastMatch WSOL_ADDRESS l)
  && JS.ne_zero (lastMatch targetTokenMint l).

(** The shortest prefix of [seen ++ rest] that extends [seen] and on which
    both quantities are non-zero; the whole list when there is none. *)
Fixpoint stopPrefix (targetTokenMint : string)
    (seen rest : list TokenBalance) : list TokenBalance :=
  match rest with
  | [] => seen
  | account :: rest' =>
      if bothFound targetTokenMint seen then seen
      else stopPrefix targetTokenMint (seen ++ [account]) rest'
  end.

Definition visited (targetTokenMint : string) (l : list TokenBalance)
    : list TokenBalance :=
  stopPrefix targetTokenMint [] l.

(** *** The two scenarios of test-detect-trade.ts *)

Definition TEST_TOKEN_ADDRESS : string := "TEST_TOKEN_ADDRESS".

Definition entry (o m : string) (a : JS.number) : TokenBalance :=
  {| owner := o; mint := m; uiAmount := Some a |}.

Definition buyTransactionData : TxData :=
  {| preTokenBalances :=
       [ entry RAYDIUM_AUTHORITY WSOL_ADDRESS 100%float;
         entry RAYDIUM_AUTHORITY TEST_TOKEN_ADDRESS 1000%float ];
     postTokenBalances :=
       [ entry RAYDIUM_AUTHORITY WSOL_ADDRESS 101%float;
         entry RAYDIUM_AUTHORITY TEST_TOKEN_ADDRESS 990%float ] |}.

Definition sellTransactionData : TxData :=
  {| preTokenBalances :=
       [ entry RAYDIUM_AUTHORITY WSOL_ADDRESS 100%float;
         entry RAYDIUM_AUTHORITY TEST_TOKEN_ADDRESS 1000%float ];
     postTokenBalances :=
       [ entry RAYDIUM_AUTHORITY WSOL_ADDRESS 99%float;
         entry RAYDIUM_AUTHORITY TEST_TOKEN_ADDRESS 1010%float ] |}.

(** A transaction in which the pool's native balance grows by 10. *)
Definition buy10TransactionData : TxData :=
  {| preTokenBalances :=
       [ entry RAYDIUM_AUTHORITY WSOL_ADDRESS 100%float;
         entry RAYDIUM_AUTHORITY TEST_TOKEN_ADDRESS 1000%float ];
     postTokenBalances :=
       [ entry RAYDIUM_AUTHORITY WSOL_ADDRESS 110%float;
         entry RAYDIUM_AUTHORITY TEST_TOKEN_ADDRESS 900%float ] |}.

(** A pre-balance list in which the pool authority holds two
    native-currency accounts. *)
Definition duplicateBalances : list TokenBalance :=
  [ entry RAYDIUM_AUTHORITY WSOL_ADDRESS 100%float;
    entry RAYDIUM_AUTHORITY WSOL_ADDRESS 200%float;
    entry RAYDIUM_AUTHORITY TEST_TOKEN_ADDRESS 1000%float ].

End DetectLast.


(* ===================================================================== *)
(** ** The order watcher: retry wrapper and trade ledger *)
(* ===================================================================== *)

Module OrderWatcher.

Local Open Scope string_scope.

Definition BATCH_SIZE : nat := 5.
Definition MAX_RETRIES : nat := 5.
Definition BASE_DELAY : Z := 2000.

(** *** fetchWithRetry *)

(** [interface RpcError extends Error { code?: number }]; the message of a
    thrown value may be missing. *)
Record RpcError := {
  message : JSString.maybe;
  code : option Z
}.

(** How one call of the awaited operation ends. *)
Inductive Attempt (T : Type) :=
| Resolved (value : T)
| Rejected (err : RpcError).
Arguments Resolved {T} value.
Arguments Rejected {T} err.

(** What the wrapper does, in order. *)
Inductive Event :=
| Called (attempt : nat)
    (** [operation()] is invoked for the [attempt]-th time (from 0) *)
| LogRateLimited (context : string) (retry max : nat)
    (** [Rate limited while <context>. Retry <retry>/<max>] *)
| LogWaiting (delay : Z)
    (** [Waiting <delay/1000> seconds before retry...] *)
| Slept (ms : Z).
    (** [await sleep(ms)] *)

(** [rpcError.message?.includes('429')] *)
Definition isRateLimited (err : RpcError) : bool :=
  match message err with
  | Some msg => JSString.includes "429" msg
  | None => false
  end.

(** [exponentialBackoff(retryCount)]: the delay, and what it does. *)
Definition backoffDelay (retryCount : nat) : Z :=
  BASE_DELAY * 2 ^ Z.of_nat retryCount.

Definition exponentialBackoff (retryCount : nat) : list Event :=
  [LogWaiting (backoffDelay retryCount); Slept (backoffDelay retryCount)].

(** [new Error(`Failed after ${MAX_RETRIES} retries while ${context}`)] *)
Definition exhaustedRetries (context : string) : RpcError :=
  {| message := Some ("Failed after " ++ pretty MAX_RETRIES
                      ++ " retries while " ++ context);
     code := None |}.

(** The [for] loop of [fetchWithRetry] from index [i] on, with
    [remaining = MAX_RETRIES - i] iterations left.  [operation n] is how
    the [n]-th call of the operation ends. *)
Fixpoint retryLoop {T : Type} (operation : nat -> Attempt T)
    (context : string) (remaining i : nat) : list Event * Attempt T :=
  match remaining with
  | O => ([], Rejected (exhaustedRetries context))
  | S remaining' =>
      match operation i with
      | Resolved value => ([Called i], Resolved value)
      | Rejected err =>
          if isRateLimited err then
            let '(events, outcome) :=
              retryLoop operation context remaining' (S i) in
            (Called i :: LogRateLimited context (i + 1) MAX_RETRIES
               :: (exponentialBackoff i ++ events)%list,
             outcome)
          else ([Called i], Rejected err)
      end
  end.

Definition fetchWithRetry {T : Type} (operation : nat -> Attempt T)
    (context : string) : list Event * Attempt T :=
  retryLoop operation context MAX_RETRIES 0.

(** Observations on a trace. *)
Definition sleeps (events : list Event) : list Z :=
  omap (fun e => match e with Slept ms => Some ms | _ => None end) events.

Definition calls (events : list Event) : list nat :=
  omap (fun e => match e with Called n => Some n | _ => None end) events.

(** One rate-limited round: the call, the two log lines and the sleep. *)
Definition retryRound (context : string) (n : nat) : list Event :=
  [Called n; LogRateLimited context (n + 1) MAX_RETRIES;
   LogWaiting (backoffDelay n); Slept (backoffDelay n)].

Definition rounds (context : string) (i k : nat) : list Event :=
  flat_map (retryRound context) (seq i k).

(** The calls [i], ..., [i + k - 1] of the operation are all rejected with
    a rate-limit error. *)
Definition rateLimitedFrom {T} (operation : nat -> Attempt T) (i k : nat)
    : Prop :=
  forall j, (j < k)%nat ->
    exists err, operation (i + j)%nat = Rejected err
                /\ isRateLimited err = true.

(** *** writeTradestoCSV *)

(** [interface TradeInfo]; a field read back from a short line is
    [undefined]. *)
Record TradeInfo := {
  timestamp : JSString.maybe;
  type : JSString.maybe;
  solAmount : JSString.maybe;
  tokenAmount : JSString.maybe;
  txHash : JSString.maybe
}.

Definition headers : list string :=
  ["TIMESTAMP"; "TYPE"; "SOL_AMOUNT"; "TOKEN_AMOUNT"; "TX_HASH"].

(** [[trade.timestamp, ..., trade.txHash].join(",")] *)
Definition csvLine (trade : TradeInfo) : string :=
  JSString.join ","
    (map JSString.join_item
         [timestamp trade; type trade; solAmount trade; tokenAmount trade;
          txHash trade]).

(** [[headers.join(","), ...trades.map(...)].join("\n")] *)
Definition csvContent (trades : list TradeInfo) : string :=
  JSString.join (String JSString.newline "")
    (JSString.join "," headers :: map csvLine trades).

(** [const [timestamp, type, solAmount, tokenAmount, txHash] =
     line.split(',')] *)
Definition parseLine (line : string) : TradeInfo :=
  let fields := JSString.split JSString.comma line in
  {| timestamp := fields !! 0%nat;
     type := fields !! 1%nat;
     solAmount := fields !! 2%nat;
     tokenAmount := fields !! 3%nat;
     txHash := fields !! 4%nat |}.

(** The records of an existing ledger: split into lines, drop the header,
    drop blank lines, parse each line. *)
Definition readExisting (content : string) : list TradeInfo :=
  let lines := JSString.split JSString.newline content in
  let lines := JSString.shift lines in
  map parseLine (List.filter JSString.not_blank lines).

(** The file system, as far as the watcher is concerned: file name to
    content. *)
Definition fileName (mint : string) : string := mint ++ "_trades.csv".

(** [writeTradestoCSV(mint, trades)], reading the flag [isInitialFetch]. *)
Definition writeTradestoCSV (isInitialFetch : bool)
    (fs : gmap string string) (mint : string) (trades : list TradeInfo)
    : gmap string string :=
  if isInitialFetch then
    <[fileName mint := csvContent trades]> fs
  else
    let existingTrades :=
      match fs !! fileName mint with
      | Some content => readExisting content
      | None => []
      end in
    let allTrades := (existingTrades ++ trades)%list in
    <[fileName mint := csvContent allTrades]> fs.

(** A record as the watcher produces them: every field present and free of
    commas and line feeds. *)
Definition cleanField (v : JSString.maybe) : bool :=
  match v with
  | Some s => JSString.free_of JSString.comma s
              && JSString.free_of JSString.newline s
  | None => false
  end.

Definition wellFormed (trade : TradeInfo) : bool :=
  cleanField (timestamp trade) && cleanField (type trade)
  && cleanField (solAmount trade) && cleanField (tokenAmount trade)
  && cleanField (txHash trade).

(** *** Sample data *)

Definition rateLimit : RpcError :=
  {| message := Some "429 Too Many Requests"; code := Some 429 |}.
Definition notFound : RpcError :=
  {| message := Some "Transaction not found"; code := None |}.

(** An operation that is rate limited twice and then answers 7. *)
Definition flaky (n : nat) : Attempt Z :=
  match n with
  | 0%nat | 1%nat => Rejected rateLimit
  | _ => Resolved 7
  end.

Definition trade1 : TradeInfo :=
  {| timestamp := Some "2024-05-01T10:00:00.000Z"; type := Some "BUY";
     solAmount := Some "1"; tokenAmount := Some "35000.5";
     txHash := Some "5hG7aaaaQ" |}.
Definition trade2 : TradeInfo :=
  {| timestamp := Some "2024-05-01T10:00:05.000Z"; type := Some "SELL";
     solAmount := Some "0.5"; tokenAmount := Some "17000";
     txHash := Some "3kP9bbbbR" |}.
Definition trade3 : TradeInfo :=
  {| timestamp := Some "2024-05-01T10:00:09.000Z"; type := Some "BUY";
     solAmount := Some "0.25"; tokenAmount := Some "8000";
     txHash := Some "9xZ2ccccS" |}.

End OrderWatcher.

(* ===================================================================== *)
(** ** market_maker.ts: the batch aggregator *)
(* ===================================================================== *)

Module MarketMaker.

Import JSString.
Local Open Scope string_scope.

Definition UPDATE_INTERVAL : Z := 1000.
Definition BATCH_SIZE : nat := 5.
Definition LAMPORTS_PER_SOL : JS.number := 1000000000%float.

(** A parsed ledger line: [solAmount] went through [parseFloat], the other
    fields are the pieces of the line ([undefined] on a short line). *)
Record Trade := {
  timestamp : maybe;
  type : maybe;
  solAmount : JS.number;
  tokenAmount : maybe;
  txHash : maybe
}.

(** Set at start-up: the command-line argument and the two prompted
    percentages (already divided by 100). *)
Record Config := {
  tokenAddress : string;
  buyPercentage : JS.number;
  sellPercentage : JS.number
}.

(** The module-level variables the polling step reads and writes.
    [processedBatches] is a [Set<string>]: its elements in insertion order,
    without repetition. *)
Record State := {
  processedBatches : list string;
  isProcessingTrade : bool
}.

Definition initialState : State :=
  {| processedBatches := []; isProcessingTrade := false |}.

(** [set.has(x)] and [set.add(x)]. *)
Definition Set_has (x : string) (s : list string) : bool :=
  existsb (String.eqb x) s.
Definition Set_add (x : string) (s : list string) : list string :=
  if Set_has x s then s else (s ++ [x])%list.

(** What the SDK answers. *)
Inductive CurveReply :=
| CurveFound     (** [getBondingCurveAccount] resolves to an account *)
| CurveAbsent    (** it resolves to [null] *)
| CurveThrows.   (** it rejects *)

Inductive SdkCall :=
| SdkBuy (mint : string) (lamports : Z)
| SdkSell (mint : string) (lamports : Z).

(** The surroundings of one polling step: the ledger file ([None] when it
    does not exist), whether building the wallet, provider, SDK and mint
    key succeeds, and the SDK's answers. *)
Record World := {
  fileContent : option string;
  sdkSetup : bool;
  bondingCurve : CurveReply;
  orderResolves : SdkCall -> bool
}.

(** What a step does, in order (informational log lines are left out). *)
Inductive Event :=
| ExecuteTrade (isBuy : bool) (amount : JS.number)
    (** [executeTrade(isBuy, amount)] is called *)
| Order (call : SdkCall)
    (** [sdk.buy] or [sdk.sell] is called *)
| LogError (msg : string).

(** The [try] block of [executeTrade]. *)
Definition executeTradeBody (cfg : Config) (w : World) (isBuy : bool)
    (amount : JS.number) : list Event * Completion :=
  if negb (sdkSetup w) then ([], Threw)
  else
    match bondingCurve w with
    | CurveThrows => ([], Threw)
    | CurveAbsent => ([LogError "Bonding curve account not found"], Returned)
    | CurveFound =>
        let percentage :=
          if isBuy then buyPercentage cfg else sellPercentage cfg in
        let tradeAmount := JS.Math_abs (amount * percentage)%float in
        match JS.floorToBigInt (tradeAmount * LAMPORTS_PER_SOL)%float with
        | None => ([], Threw)
        | Some lamports =>
            let call :=
              if isBuy then SdkBuy (tokenAddress cfg) lamports
              else SdkSell (tokenAddress cfg) lamports in
            ([Order call], if orderResolves w call then Returned else Threw)
        end
    end.

(** [executeTrade]: the in-flight guard, then [try] / [catch] / [finally]
    around the body. *)
Definition executeTrade (cfg : Config) (w : World) (st : State)
    (isBuy : bool) (amount : JS.number) : State * list Event * Completion :=
  if isProcessingTrade st then (st, [ExecuteTrade isBuy amount], Returned)
  else
    let '(events, body) := executeTradeBody cfg w isBuy amount in
    let caught :=
      match body with
      | Returned => []
      | Threw =>
          [LogError ("Error executing " ++ (if isBuy then "buy" else "sell")
                     ++ " trade:")]
      end in
    ({| processedBatches := processedBatches st;
        isProcessingTrade := false |},
     (ExecuteTrade isBuy amount :: events ++ caught)%list,
     Returned).

(** [trade.type === 'SELL' ? -trade.solAmount : trade.solAmount] *)
Definition signedAmount (trade : Trade) : JS.number :=
  match type trade with
  | Some t => if String.eqb t "SELL" then (- solAmount trade)%float
              else solAmount trade
  | None => solAmount trade
  end.

(** [let netVolume = 0; for (...) netVolume += ...] *)
Definition netVolumeOf (window : list Trade) : JS.number :=
  fold_left (fun netVolume trade => (netVolume + signedAmount trade)%float)
            window 0%float.

(** The template literal that builds [batchId]; [None] is the [TypeError]
    raised when a boundary record or its [txHash] is [undefined]. *)
Definition batchIdOf (first last : Trade) : option string :=
  match txHash first, txHash last with
  | Some firstHash, Some lastHash =>
      Some (template_item (timestamp first) ++ "-"
            ++ template_item (timestamp last) ++ "-"
            ++ take 8 firstHash ++ "-" ++ take 8 lastHash)
  | _, _ => None
  end.

Definition batchIdentity (window : list Trade) : option string :=
  match window !! 0%nat, window !! 4%nat with
  | Some first, Some last => batchIdOf first last
  | _, _ => None
  end.

(** [processedBatches.add(batchId)] followed by the size check. *)
Definition recordBatch (batchId : string) (batches : list string)
    : list string :=
  let batches := Set_add batchId batches in
  if (100 <? length batches)%nat then lastN 50 batches else batches.



Section WithParseFloat.

(** The global [parseFloat], applied to a piece of a line. *)
Variable parseFloat : maybe -> JS.number.

Definition parseTrade (line : string) : Trade :=
  let fields := split comma line in
  {| timestamp := fields !! 0%nat;
     type := fields !! 1%nat;
     solAmount := parseFloat (fields !! 2%nat);
     tokenAmount := fields !! 3%nat;
     txHash := fields !! 4%nat |}.

Definition readTrades (content : string) : list Trade :=
  map parseTrade (List.filter not_blank (shift (split newline content))).

(** One run of [watchTradeFile]. *)
Definition watchTradeFile (cfg : Config) (w : World) (st : State)
    : State * list Event :=
  match fileContent w with
  | None =>
      (st, [LogError
              "No trade history found. Please run order_watcher.ts first."])
  | Some content =>
      let trades := readTrades content in
      let lastFiveTrades := lastN 5 trades in
      if (length lastFiveTrades <? 5)%nat then (st, [])
      else
        match batchIdentity lastFiveTrades with
        | None => (st, [LogError "Error watching trade file:"])
        | Some batchId =>
            if Set_has batchId (processedBatches st) then (st, [])
            else
              let netVolume := netVolumeOf lastFiveTrades in
              let '(st1, events, executed) :=
                if JS.strict_ne netVolume 0%float then
                  if JS.gt netVolume 0%float then
                    executeTrade cfg w st false netVolume
                  else
                    executeTrade cfg w st true (JS.Math_abs netVolume)
                else (st, [], Returned) in
              match executed with
              | Threw =>
                  (st1,
                   (events ++ [LogError "Error watching trade file:"])%list)
              | Returned =>
                  ({| processedBatches :=
                        recordBatch batchId (processedBatches st1);
                      isProcessingTrade := isProcessingTrade st1 |},
                   events)
              end
        end
  end.

(** Successive polls, each in its own surroundings. *)
Fixpoint poll (cfg : Config) (worlds : list World) (st : State)
    : State * list Event :=
  match worlds with
  | [] => (st, [])
  | w :: worlds' =>
      let '(st1, events1) := watchTradeFile cfg w st in
      let '(st2, events2) := poll cfg worlds' st1 in
      (st2, (events1 ++ events2)%list)
  end.

(** *** Notions used to describe a step *)

(** The window a ledger presents, and its identity. *)
Definition windowOf (content : string) : list Trade :=
  lastN 5 (readTrades content).

(** What the step does for a window of net volume [netVolume] that it
    has not seen. *)
Definition execution (cfg : Config) (w : World) (st : State) (netVolume : JS.number)
    : State * list Event * Completion :=
  if JS.strict_ne netVolume 0%float then
    if JS.gt netVolume 0%float then executeTrade cfg w st false netVolume
    else executeTrade cfg w st true (JS.Math_abs netVolume)
  else (st, [], Returned).

(** The ledger of [w] presents a window of identity [id]. *)
Definition presents (id : string) (w : World) : Prop :=
  exists content,
    fileContent w = Some content
    /\ batchIdentity (lastN 5 (readTrades content)) = Some id.

(** [id] is among the [k] most recent elements of the set. *)
Definition retained (k : nat) (id : string) (batches : list string) : Prop :=
  Set_has id (lastN k batches) = true.

End WithParseFloat.

(** A sample parser for the ledgers written out below.  It reads an
    unsigned literal [digits] or [digits.digits] at the head of the field:
    the digits as an integer divided by the power of ten, and NaN when
    there is no leading digit or no value at all.  It agrees with
    [parseFloat] on such literals of at most 15 digits in all, where the
    result is one correctly rounded division of two exactly represented
    numbers; it does not read signs, exponents, a leading dot, leading
    blanks or [Infinity], and it is not correctly rounded on longer
    literals.  The general statements take [parseFloat] as a parameter;
    this parser serves the sample ledgers only. *)
Definition digit (c : ascii) : option Z :=
  let n := Z.of_nat (nat_of_ascii c) in
  if ((48 <=? n) && (n <=? 57))%Z then Some (n - 48)%Z else None.

Fixpoint digits (s : string) (acc : Z) (count : nat) : Z * nat * string :=
  match s with
  | EmptyString => (acc, count, s)
  | String c s' =>
      match digit c with
      | Some d => digits s' (10 * acc + d)%Z (S count)
      | None => (acc, count, s)
      end
  end.

Definition ofZ (z : Z) : JS.number := PrimFloat.of_uint63 (Uint63.of_Z z).

Definition parseDecimal (v : maybe) : JS.number :=
  match v with
  | None => PrimFloat.nan
  | Some s =>
      let '(whole, n, rest) := digits s 0 0 in
      match n, rest with
      | O, _ => PrimFloat.nan
      | _, String "." frac =>
          let '(all, m, _) := digits frac whole 0 in
          (ofZ all / ofZ (10 ^ Z.of_nat m))%float
      | _, _ => ofZ whole
      end
  end.

(** *** Sample data *)

Definition sampleConfig : Config :=
  {| tokenAddress := "MINT";
     buyPercentage := 0.5%float;
     sellPercentage := 0.25%float |}.

Definition calm (content : string) : World :=
  {| fileContent := Some content; sdkSetup := true;
     bondingCurve := CurveFound; orderResolves := fun _ => true |}.

(** Surroundings in which every order is rejected by the SDK. *)
Definition stormy (content : string) : World :=
  {| fileContent := Some content; sdkSetup := true;
     bondingCurve := CurveFound; orderResolves := fun _ => false |}.


(** Net buying of 2 SOL. *)
Definition buyingLedger : string :=
  "TIMESTAMP,TYPE,SOL_AMOUNT,TOKEN_AMOUNT,TX_HASH
2024-05-01T10:00:00.000Z,BUY,1,35000,aaaaaaaa1
2024-05-01T10:00:01.000Z,SELL,0.5,17000,bbbbbbbb2
2024-05-01T10:00:02.000Z,BUY,0.5,17000,cccccccc3
2024-05-01T10:00:03.000Z,BUY,0.5,70000,dddddddd4
2024-05-01T10:00:04.000Z,BUY,0.5,35000,eeeeeeee5".


(** Four records only. *)
Definition shortLedger : string :=
  "TIMESTAMP,TYPE,SOL_AMOUNT,TOKEN_AMOUNT,TX_HASH
2024-05-01T10:00:00.000Z,BUY,1,35000,aaaaaaaa1
2024-05-01T10:00:01.000Z,SELL,0.5,17000,bbbbbbbb2
2024-05-01T10:00:02.000Z,BUY,0.5,17000,cccccccc3
2024-05-01T10:00:03.000Z,SELL,2,70000,dddddddd4".

(** The same boundary records as [buyingLedger] (same timestamps, same
    first eight characters of the signatures), different records. *)
Definition lookalikeLedger : string :=
  "TIMESTAMP,TYPE,SOL_AMOUNT,TOKEN_AMOUNT,TX_HASH
2024-05-01T10:00:00.000Z,SELL,4,35000,aaaaaaaa9
2024-05-01T10:00:01.500Z,SELL,3,17000,ffffffff2
2024-05-01T10:00:02.500Z,SELL,2,17000,gggggggg3
2024-05-01T10:00:03.500Z,SELL,1,70000,hhhhhhhh4
2024-05-01T10:00:04.000Z,SELL,1,35000,eeeeeeee7".

End MarketMaker.

(* ===================================================================== *)
(** ** The order watcher: classifying a transaction, collecting trades *)
(* ===================================================================== *)

Module Watcher.

Import OrderWatcher JSString.
Local Open Scope string_scope.

(** [0.001], that is the binary64 number nearest to it. *)
Definition MIN_SOL_AMOUNT : JS.number := 0x1.0624dd2f1a9fcp-10%float.
Definition LAMPORTS_PER_SOL : JS.number := 1000000000%float.
Definition RATE_LIMIT_DELAY : Z := 500.
Definition PUMP_PROGRAM_ID : string :=
  "6EF8rrecthR5Dkzon8Nwu78hRvfCKubJ14M5uBEwF6P".
Definition PUMP_FEE_ACCOUNT : string :=
  "CebN5WGQ4jvEPvsVU4EoHEpgzq1VV7AbicfhtW4xC9iM".

(** *** JavaScript values *)

(** A number taken as a condition is false when it is 0 or NaN. *)
Definition truthy (x : JS.number) : bool :=
  negb (PrimFloat.eqb x 0) && PrimFloat.eqb x x.

(** [Number(v || 0)] for [v : number | null]. *)
Definition orZero (v : JS.nullable) : JS.number :=
  match v with
  | Some x => if truthy x then x else 0%float
  | None => 0%float
  end.

(** [arr[i]] used in arithmetic: [undefined] past the end, which
    arithmetic turns into NaN. *)
Definition at_ (arr : list JS.number) (i : nat) : JS.number :=
  nth i arr PrimFloat.nan.

(** [arr.findIndex(p)]; [None] stands for [-1]. *)
Fixpoint findIndexFrom {A} (p : A -> bool) (arr : list A) (i : nat)
    : option nat :=
  match arr with
  | [] => None
  | x :: arr' => if p x then Some i else findIndexFrom p arr' (S i)
  end.
Definition findIndex {A} (p : A -> bool) (arr : list A) : option nat :=
  findIndexFrom p arr 0.

(** *** Transactions *)

(** [interface TokenBalance], as far as it is read. *)
Record TokenBalance := {
  accountIndex : nat;
  mint : string;
  uiAmount : JS.nullable
}.

(** [tx.meta]; the two token-balance lists may be missing. *)
Record Meta := {
  preBalances : list JS.number;
  postBalances : list JS.number;
  preTokenBalances : option (list TokenBalance);
  postTokenBalances : option (list TokenBalance)
}.

(** A parsed transaction: [accountKeys] holds [key.pubkey.toString()] for
    each key of [tx.transaction.message.accountKeys]. *)
Record Tx := {
  meta : option Meta;
  blockTime : option JS.number;
  accountKeys : list string;
  signatures : list string
}.

(** The debug counters and the progress counter. *)
Record Counters := {
  processedCount : nat;
  skippedByAmount : nat;
  skippedByPump : nat;
  skippedByToken : nat;
  tradeCounter : nat
}.

(** What [processTransaction] ends with: a record, [null], or an
    exception. *)
Inductive Processed :=
| Found (trade : TradeInfo)
| Skip
| Raised.

(** [Math.abs(post[i] - pre[i]) / LAMPORTS_PER_SOL] *)
Definition solChangeAt (m : Meta) (i : nat) : JS.number :=
  (abs (at_ (postBalances m) i - at_ (preBalances m) i)
   / LAMPORTS_PER_SOL)%float.

(** The loop that looks for the account with the largest change, from
    index [i] on; [remaining] is the number of indices left. *)
Fixpoint findUserFrom (m : Meta) (remaining i : nat)
    (maxSolChange : JS.number) (userAccountIndex : option nat)
    : JS.number * option nat :=
  match remaining with
  | O => (maxSolChange, userAccountIndex)
  | S remaining' =>
      let solChange := solChangeAt m i in
      if JS.gt solChange maxSolChange then
        findUserFrom m remaining' (S i) solChange (Some i)
      else
        findUserFrom m remaining' (S i) maxSolChange userAccountIndex
  end.

Definition findUser (m : Meta) : option nat :=
  snd (findUserFrom m (length (preBalances m)) 0 0%float None).

(** [postTokenBalances?.filter(b => b.mint === mint &&
     preTokenBalances?.some(pre => pre.accountIndex === b.accountIndex))
    || []] *)
Definition userTokenAccounts (m : Meta) (mintAddress : string)
    : list TokenBalance :=
  match postTokenBalances m with
  | None => []
  | Some post =>
      List.filter
        (fun b =>
           String.eqb (mint b) mintAddress
           && match preTokenBalances m with
              | None => false
              | Some pre =>
                  existsb (fun p => (accountIndex p =? accountIndex b)%nat)
                          pre
              end)
        post
  end.

(** [preTokenBalances?.find(b => b.accountIndex === i)] *)
Definition preTokenBalanceOf (m : Meta) (i : nat) : option TokenBalance :=
  match preTokenBalances m with
  | None => None
  | Some pre => List.find (fun b => (accountIndex b =? i)%nat) pre
  end.

Section WithHost.

(** [Number.prototype.toString]. *)
Variable numberToString : JS.number -> string.

(** From the block time to the time stamp written in the record:
    [new Date(blockTime * 1000)], brought back to the current year when
    its year is later, then [toISOString()], which throws on a date out
    of range ([None]). *)
Variable isoTimestamp : JS.number -> option string.

(** [new Date(s).getTime()]. *)
Variable timeOf : JSString.maybe -> JS.number.

(** [trades.sort((a, b) => time(a) - time(b))]. *)
Variable sortByTime : list TradeInfo -> list TradeInfo.

Definition countProcessed (c : Counters) : Counters :=
  {| processedCount := S (processedCount c);
     skippedByAmount := skippedByAmount c;
     skippedByPump := skippedByPump c;
     skippedByToken := skippedByToken c;
     tradeCounter := tradeCounter c |}.
Definition countPump (c : Counters) : Counters :=
  {| processedCount := processedCount c;
     skippedByAmount := skippedByAmount c;
     skippedByPump := S (skippedByPump c);
     skippedByToken := skippedByToken c;
     tradeCounter := tradeCounter c |}.
Definition countToken (c : Counters) : Counters :=
  {| processedCount := processedCount c;
     skippedByAmount := skippedByAmount c;
     skippedByPump := skippedByPump c;
     skippedByToken := S (skippedByToken c);
     tradeCounter := tradeCounter c |}.
Definition countAmount (c : Counters) : Counters :=
  {| processedCount := processedCount c;
     skippedByAmount := S (skippedByAmount c);
     skippedByPump := skippedByPump c;
     skippedByToken := skippedByToken c;
     tradeCounter := tradeCounter c |}.
Definition countTrade (c : Counters) : Counters :=
  {| processedCount := processedCount c;
     skippedByAmount := skippedByAmount c;
     skippedByPump := skippedByPump c;
     skippedByToken := skippedByToken c;
     tradeCounter := S (tradeCounter c) |}.
Definition resetTradeCounter (c : Counters) : Counters :=
  {| processedCount := processedCount c;
     skippedByAmount := skippedByAmount c;
     skippedByPump := skippedByPump c;
     skippedByToken := skippedByToken c;
     tradeCounter := 0 |}.

(** The amount of native currency of the trade: the user's change, less
    the fee account's gain when the user bought and the fee account is
    among the keys. *)
Definition actualSolChangeOf (m : Meta) (userAccountIndex : nat)
    (isBuy : bool) (pumpFunFeeAccount : option nat) : JS.number :=
  let userSolChange :=
    ((at_ (preBalances m) userAccountIndex
      - at_ (postBalances m) userAccountIndex) / LAMPORTS_PER_SOL)%float in
  let actualSolChange := abs userSolChange in
  match isBuy, pumpFunFeeAccount with
  | true, Some fee =>
      let pumpFunFee :=
        ((at_ (postBalances m) fee - at_ (preBalances m) fee)
         / LAMPORTS_PER_SOL)%float in
      (actualSolChange - pumpFunFee)%float
  | _, _ => actualSolChange
  end.

(** [processTransaction(tx, mint)], threading the counters. *)
Definition processTransaction (c : Counters) (tx : option Tx)
    (mintAddress : string) : Counters * Processed :=
  match tx with
  | None => (c, Skip)
  | Some tx =>
    match meta tx, blockTime tx with
    | Some m, Some time =>
      if negb (truthy time) then (c, Skip)
      else
        let c := countProcessed c in
        if negb (existsb (fun key => String.eqb key PUMP_PROGRAM_ID)
                         (accountKeys tx))
        then (countPump c, Skip)
        else
          let pumpFunFeeAccount :=
            findIndex (fun key => String.eqb key PUMP_FEE_ACCOUNT)
                      (accountKeys tx) in
          match findUser m with
          | None => (c, Skip)
          | Some userAccountIndex =>
            match userTokenAccounts m mintAddress with
            | [] => (countToken c, Skip)
            | postTokenBalance :: _ =>
              match preTokenBalanceOf m (accountIndex postTokenBalance) with
              | None => (c, Skip)
              | Some preTokenBalance =>
                let preAmount := orZero (uiAmount preTokenBalance) in
                let postAmount := orZero (uiAmount postTokenBalance) in
                let tokenChange := abs (postAmount - preAmount)%float in
                if JS.strict_eq tokenChange 0%float then (c, Skip)
                else
                  let isBuy := JS.gt postAmount preAmount in
                  let actualSolChange :=
                    actualSolChangeOf m userAccountIndex isBuy
                                      pumpFunFeeAccount in
                  if JS.lt actualSolChange MIN_SOL_AMOUNT
                  then (countAmount c, Skip)
                  else
                    let c := countTrade c in
                    match isoTimestamp time with
                    | None => (c, Raised)
                    | Some stamp =>
                        (c,
                         Found
                           {| timestamp := Some stamp;
                              type := Some (if isBuy then "SELL" else "BUY");
                              solAmount :=
                                Some (numberToString actualSolChange);
                              tokenAmount :=
                                Some (numberToString tokenChange);
                              txHash := head (signatures tx) |})
                    end
              end
            end
          end
    | _, _ => (c, Skip)
    end
  end.

(** *** The watch session *)

(** An entry of [getSignaturesForAddress]. *)
Record SignatureInfo := {
  signature : string;
  sigBlockTime : option JS.number
}.

(** The node, as one pass sees it: how the successive calls that list
    the signatures end, and how the successive calls that fetch the
    transaction of a signature end. *)
Record Rpc := {
  listSignatures : nat -> Attempt (list SignatureInfo);
  getTransaction : string -> nat -> Attempt (option Tx)
}.

(** The module-level variables of the watcher, and the files. *)
Record Session := {
  processedSignatures : gset string;
  pendingTrades : list TradeInfo;
  lastProcessedTime : JS.number;
  isInitialFetch : bool;
  counters : Counters;
  files : gmap string string
}.

(** What a pass does, as far as the ledger is concerned. *)
Inductive Step :=
| FetchedTx (sig : string)
    (** the transaction of [sig] was asked for *)
| FoundTrade (trade : TradeInfo)
    (** [processTransaction] returned a record *)
| WroteBatch (trades : list TradeInfo).
    (** [writeTradestoCSV] was called *)

Definition fetchedOf (steps : list Step) : list string :=
  omap (fun s => match s with FetchedTx sig => Some sig | _ => None end)
       steps.
Definition foundOf (steps : list Step) : list TradeInfo :=
  omap (fun s => match s with FoundTrade t => Some t | _ => None end)
       steps.
Definition writtenOf (steps : list Step) : list (list TradeInfo) :=
  omap (fun s => match s with WroteBatch b => Some b | _ => None end)
       steps.

(** The session a watcher starts from. *)
Definition freshSession (fs : gmap string string) : Session :=
  {| processedSignatures := ∅;
     pendingTrades := [];
     lastProcessedTime := 0%float;
     isInitialFetch := true;
     counters :=
       {| processedCount := 0; skippedByAmount := 0; skippedByPump := 0;
          skippedByToken := 0; tradeCounter := 0 |};
     files := fs |}.

Definition has (sig : string) (s : gset string) : bool :=
  bool_decide (sig ∈ s).

(** [(sig.blockTime || 0) > lastProcessedTime] *)
Definition newerThan (lastTime : JS.number) (info : SignatureInfo) : bool :=
  JS.gt (orZero (sigBlockTime info)) lastTime.

(** [tx?.blockTime], as a condition and as a value. *)
Definition blockTimeOf (tx : option Tx) : option JS.number :=
  match tx with
  | Some tx =>
      match blockTime tx with
      | Some time => if truthy time then Some time else None
      | None => None
      end
  | None => None
  end.

(** The body of the [for] loop of [monitorTrades], for one signature. *)
Definition monitorOne (rpc : Rpc) (mintAddress : string) (s : Session)
    (info : SignatureInfo) : Session * list Step :=
  let sig := signature info in
  if has sig (processedSignatures s) then (s, [])
  else
    match snd (fetchWithRetry (getTransaction rpc sig)
                              ("fetching transaction " ++ take 8 sig
                               ++ "...")) with
    | Rejected _ => (s, [FetchedTx sig])
    | Resolved tx =>
        let '(c, outcome) :=
          processTransaction (counters s) tx mintAddress in
        match outcome with
        | Raised =>
            ({| processedSignatures := processedSignatures s;
                pendingTrades := pendingTrades s;
                lastProcessedTime := lastProcessedTime s;
                isInitialFetch := isInitialFetch s;
                counters := c;
                files := files s |},
             [FetchedTx sig])
        | _ =>
            let pending :=
              match outcome with
              | Found trade => (pendingTrades s ++ [trade])%list
              | _ => pendingTrades s
              end in
            let found :=
              match outcome with
              | Found trade => [FoundTrade trade]
              | _ => []
              end in
            let flush :=
              match outcome with
              | Found _ => (BATCH_SIZE <=? length pending)%nat
              | _ => false
              end in
            ({| processedSignatures := {[ sig ]} ∪ processedSignatures s;
                pendingTrades := if flush then [] else pending;
                lastProcessedTime :=
                  match blockTimeOf tx with
                  | Some time => time
                  | None => lastProcessedTime s
                  end;
                isInitialFetch := isInitialFetch s;
                counters := if flush then resetTradeCounter c else c;
                files :=
                  if flush
                  then writeTradestoCSV (isInitialFetch s) (files s)
                                        mintAddress pending
                  else files s |},
             (FetchedTx sig :: found
                ++ (if flush then [WroteBatch pending] else []))%list)
        end
    end.

Fixpoint monitorLoop (rpc : Rpc) (mintAddress : string) (s : Session)
    (infos : list SignatureInfo) : Session * list Step :=
  match infos with
  | [] => (s, [])
  | info :: infos' =>
      let '(s1, steps1) := monitorOne rpc mintAddress s info in
      let '(s2, steps2) := monitorLoop rpc mintAddress s1 infos' in
      (s2, (steps1 ++ steps2)%list)
  end.

(** [monitorTrades()].  [mintAddress] is the text of [mint], the key
    that [new PublicKey(tokenAddress)] builds at the head of the [try]
    block.  When no key can be built the constructor throws into the
    same [catch] as a rejected listing, with the same effect (none): such
    a call is a run of this function in which the listing rejects. *)
Definition monitorTrades (rpc : Rpc) (mintAddress : string) (s : Session)
    : Session * list Step :=
  match snd (fetchWithRetry (listSignatures rpc)
                            "fetching recent signatures") with
  | Rejected _ => (s, [])
  | Resolved infos =>
      let newSignatures :=
        List.filter
          (fun info =>
             negb (has (signature info) (processedSignatures s))
             && newerThan (lastProcessedTime s) info)
          infos in
      monitorLoop rpc mintAddress s newSignatures
  end.

(** The [for] loop of [getInitialTrades]: it stops once [BATCH_SIZE]
    trades are found.  [processedSigs] counts the signatures seen so far
    and [total] is [signatures.length]. *)
Fixpoint initialLoop (rpc : Rpc) (mintAddress : string)
    (infos : list SignatureInfo) (processedSigs total : nat)
    (processed : gset string) (c : Counters)
    (validTrades : list TradeInfo)
    : gset string * Counters * list TradeInfo :=
  match infos with
  | [] => (processed, c, validTrades)
  | info :: infos' =>
      let sig := signature info in
      let processedSigs := S processedSigs in
      match snd (fetchWithRetry
                   (getTransaction rpc sig)
                   ("fetching transaction " ++ take 8 sig ++ "... ("
                    ++ pretty processedSigs ++ "/" ++ pretty total ++ ")"))
      with
      | Rejected _ =>
          initialLoop rpc mintAddress infos' processedSigs total
                      processed c validTrades
      | Resolved tx =>
          let '(c, outcome) := processTransaction c tx mintAddress in
          match outcome with
          | Found trade =>
              let validTrades := (validTrades ++ [trade])%list in
              let processed := {[ sig ]} ∪ processed in
              if (BATCH_SIZE <=? length validTrades)%nat
              then (processed, c, validTrades)
              else initialLoop rpc mintAddress infos' processedSigs total
                               processed c validTrades
          | _ =>
              initialLoop rpc mintAddress infos' processedSigs total
                          processed c validTrades
          end
      end
  end.

(** [getInitialTrades()].  [mintAddress] is the text of [mint].  The
    counters are reset before [new PublicKey(tokenAddress)]; when that
    constructor throws, the function ends in the same [catch] as for a
    rejected listing, leaving everything else as it was: such a call is
    a run of this function in which the listing rejects. *)
Definition getInitialTrades (rpc : Rpc) (mintAddress : string)
    (s : Session) : Session :=
  let zero :=
    {| processedCount := 0; skippedByAmount := 0; skippedByPump := 0;
       skippedByToken := 0; tradeCounter := 0 |} in
  match snd (fetchWithRetry (listSignatures rpc) "fetching signatures") with
  | Rejected _ =>
      {| processedSignatures := processedSignatures s;
         pendingTrades := pendingTrades s;
         lastProcessedTime := lastProcessedTime s;
         isInitialFetch := isInitialFetch s;
         counters := zero;
         files := files s |}
  | Resolved infos =>
      let '(processed, c, validTrades) :=
        initialLoop rpc mintAddress infos 0 (length infos)
                    (processedSignatures s) zero [] in
      let sorted := sortByTime validTrades in
      let kept :=
        if (BATCH_SIZE <? length sorted)%nat then lastN BATCH_SIZE sorted
        else sorted in
      match validTrades with
      | [] =>
          {| processedSignatures := processed;
             pendingTrades := pendingTrades s;
             lastProcessedTime := lastProcessedTime s;
             isInitialFetch := false;
             counters := resetTradeCounter c;
             files := files s |}
      | _ :: _ =>
          {| processedSignatures := processed;
             pendingTrades := pendingTrades s;
             lastProcessedTime :=
               (timeOf (match last kept with
                        | Some trade => timestamp trade
                        | None => None
                        end) / 1000)%float;
             isInitialFetch := false;
             counters := resetTradeCounter c;
             files :=
               writeTradestoCSV (isInitialFetch s) (files s)
                                mintAddress kept |}
      end
  end.

End WithHost.

(** *** Sample data *)

(** A purchase: the first account pays 1 SOL, of which the fee account
    receives 0.01, and its token balance goes from 0 to 1000. *)
Definition purchase (sig : string) : Tx :=
  {| meta :=
       Some {| preBalances := [5000000000; 0; 1000000000]%float;
               postBalances := [4000000000; 0; 1010000000]%float;
               preTokenBalances :=
                 Some [{| accountIndex := 0; mint := "MINT";
                          uiAmount := None |}];
               postTokenBalances :=
                 Some [{| accountIndex := 0; mint := "MINT";
                          uiAmount := Some 1000%float |}] |};
     blockTime := Some 1714557600%float;
     accountKeys := ["UserWallet"; PUMP_PROGRAM_ID; PUMP_FEE_ACCOUNT];
     signatures := [sig] |}.

(** Stand-ins for the host's conversions, for running examples. *)
Definition plainNumber (x : JS.number) : string := "n".
Definition plainStamp (time : JS.number) : option string := Some "t".
Definition plainTime (stamp : JSString.maybe) : JS.number := 0%float.
Definition plainSort (trades : list TradeInfo) : list TradeInfo := trades.

(** A node that knows six purchases, newest first, and never fails. *)
Definition sixSignatures : list SignatureInfo :=
  map (fun sig => {| signature := sig;
                     sigBlockTime := Some 1714557600%float |})
      ["s6"; "s5"; "s4"; "s3"; "s2"; "s1"].

Definition steadyNode : Rpc :=
  {| listSignatures := fun _ => Resolved sixSignatures;
     getTransaction := fun sig _ => Resolved (Some (purchase sig)) |}.

(** A node that is rate limited whenever signatures are listed. *)
Definition throttledNode : Rpc :=
  {| listSignatures := fun _ => Rejected rateLimit;
     getTransaction := fun sig _ => Resolved (Some (purchase sig)) |}.

End Watcher.

(* ===================================================================== *)
(** ** Notions used to describe the remaining behaviour *)
(* ===================================================================== *)

Module DetectLastNotions.

Import DetectLast.

(** Number of entries of [l] held by the pool authority for mint [m]. *)
Definition countPool (m : string) (l : list TokenBalance) : nat :=
  length (List.filter (poolEntry m) l).

(** One call of [handleTradeDetection]: what the gateway answers, the
    value of [Date.now()], and the two arguments. *)
Record Detection := {
  answers : GatewayCall -> bool;
  instant : Z;
  token : string;
  transaction : TxData
}.

(** A series of calls on one table, a rejected order being left to the
    caller: the table at the end and the orders placed, oldest first. *)
Fixpoint detections (calls : list Detection)
    (tradeStates : gmap string TradeState)
    : gmap string TradeState * list GatewayCall :=
  match calls with
  | [] => (tradeStates, [])
  | d :: rest =>
      let out :=
        handleTradeDetection (answers d) (instant d) tradeStates
                             (token d) (transaction d) in
      let '(final, later) := detections rest (states out) in
      (final, (placed out ++ later)%list)
  end.

(** The token an order is for. *)
Definition tokenOfCall (call : GatewayCall) : string :=
  match call with CallSell t _ _ | CallBuy t _ _ => t end.

End DetectLastNotions.

Module WatcherRuns.

Import OrderWatcher.

(** Time spent sleeping along a trace, in milliseconds. *)
Definition totalSleep (events : list Event) : Z :=
  fold_right Z.add 0 (sleeps events).

(** The first population of a ledger followed by a series of appends. *)
Definition populateThenAppend (fs : gmap string string) (mint : string)
    (initial : list TradeInfo) (batches : list (list TradeInfo))
    : gmap string string :=
  fold_left (fun fs batch => writeTradestoCSV false fs mint batch)
            batches (writeTradestoCSV true fs mint initial).

(** The first five of the pieces of a line, with the empty string for each
    piece that is missing. *)
Definition fiveFields (pieces : list string) : list string :=
  firstn 5 (pieces ++ [""; ""; ""; ""; ""]%string).

End WatcherRuns.

Module MakerNotions.

Import JSString MarketMaker.
Local Open Scope string_scope.

(** The SDK orders among the events of a step. *)
Definition ordersOf (events : list Event) : list SdkCall :=
  omap (fun e => match e with Order call => Some call | _ => None end) events.

Definition mintOf (call : SdkCall) : string :=
  match call with SdkBuy mint _ | SdkSell mint _ => mint end.

Definition lamportsOf (call : SdkCall) : Z :=
  match call with SdkBuy _ lamports | SdkSell _ lamports => lamports end.

(** A state in which an execution is in flight. *)
Definition busyState : State :=
  {| processedBatches := []; isProcessingTrade := true |}.

(** A ledger whose last line stops after the amount. *)
Definition truncatedLedger : string :=
  "TIMESTAMP,TYPE,SOL_AMOUNT,TOKEN_AMOUNT,TX_HASH
2024-05-01T10:00:00.000Z,BUY,1,35000,aaaaaaaa1
2024-05-01T10:00:01.000Z,SELL,0.5,17000,bbbbbbbb2
2024-05-01T10:00:02.000Z,BUY,0.5,17000,cccccccc3
2024-05-01T10:00:03.000Z,SELL,2,70000,dddddddd4
2024-05-01T10:00:04.000Z,BUY,1".

(** A ledger of five records stamped [n], which net to 0; ledgers of
    different stamps present windows of different identities. *)
Definition stampedLedger (n : nat) : string :=
  let record (side amount : string) : string :=
    join "," [pretty n; side; amount; "1000"; "stamp" ++ pretty n] in
  join (String newline "")
       [ "TIMESTAMP,TYPE,SOL_AMOUNT,TOKEN_AMOUNT,TX_HASH";
         record "BUY" "1"; record "SELL" "1"; record "BUY" "0.5";
         record "SELL" "0.5"; record "BUY" "0" ].

(** A hundred polls, each of a ledger with a stamp of its own. *)
Definition hundredWindows : list World :=
  map (fun n => calm (stampedLedger n)) (seq 0 100).

(** The state after the SDK rejected the sell placed against
    [buyingLedger]. *)
Definition afterRejection : State :=
  fst (watchTradeFile parseDecimal sampleConfig (stormy buyingLedger)
                      initialState).

(** A ledger with an amount that is not a number. *)
Definition garbledLedger : string :=
  "TIMESTAMP,TYPE,SOL_AMOUNT,TOKEN_AMOUNT,TX_HASH
2024-05-01T10:00:00.000Z,BUY,1,35000,aaaaaaaa1
2024-05-01T10:00:01.000Z,SELL,NaN,17000,bbbbbbbb2
2024-05-01T10:00:02.000Z,BUY,0.5,17000,cccccccc3
2024-05-01T10:00:03.000Z,SELL,2,70000,dddddddd4
2024-05-01T10:00:04.000Z,BUY,1,35000,eeeeeeee5".

End MakerNotions.

Module SessionNotions.

Import OrderWatcher Watcher.

(** The sum of the four counters of which a call moves at most one. *)
Definition outcomes (c : Counters) : nat :=
  (skippedByAmount c + skippedByPump c + skippedByToken c
   + tradeCounter c)%nat.

(** The ledger after a series of writes in the mode [initial]. *)
Definition afterWrites (initial : bool) (mintAddress : string)
    (batches : list (list TradeInfo)) (fs : gmap string string)
    : gmap string string :=
  fold_left (fun fs batch => writeTradestoCSV initial fs mintAddress batch)
            batches fs.

(** What holds between the session before and after some steps. *)
Definition passInvariant (mintAddress : string) (candidates : list string)
    (s s' : Session) (steps : list Step) : Prop :=
  isInitialFetch s' = isInitialFetch s
  /\ processedSignatures s ⊆ processedSignatures s'
  /\ (forall sg, In sg (fetchedOf steps) -> sg ∉ processedSignatures s)
  /\ sublist (fetchedOf steps) candidates
  /\ (concat (writtenOf steps) ++ pendingTrades s')%list
     = (pendingTrades s ++ foundOf steps)%list
  /\ files s'
     = afterWrites (isInitialFetch s) mintAddress (writtenOf steps) (files s)
  /\ ((length (pendingTrades s) < BATCH_SIZE)%nat ->
      (length (pendingTrades s') < BATCH_SIZE)%nat
      /\ Forall (fun batch => length batch = BATCH_SIZE) (writtenOf steps)).

(** Successive passes of [monitorTrades], each against the node as it
    is then. *)
Fixpoint monitorRun (numberToString : JS.number -> string)
    (isoTimestamp : JS.number -> option string) (rpcs : list Rpc)
    (mintAddress : string) (s : Session) : Session * list Step :=
  match rpcs with
  | [] => (s, [])
  | rpc :: rpcs' =>
      let '(s1, steps1) :=
        monitorTrades numberToString isoTimestamp rpc mintAddress s in
      let '(s2, steps2) :=
        monitorRun numberToString isoTimestamp rpcs' mintAddress s1 in
      (s2, (steps1 ++ steps2)%list)
  end.

(** A session in append mode over a ledger that holds one record. *)
Definition appendingSession : Session :=
  {| processedSignatures := ∅;
     pendingTrades := [];
     lastProcessedTime := 0%float;
     isInitialFetch := false;
     counters :=
       {| processedCount := 0; skippedByAmount := 0; skippedByPump := 0;
          skippedByToken := 0; tradeCounter := 0 |};
     files := {[ fileName "MINT" := csvContent [trade1] ]} |}.

End SessionNotions.
(* ===================================================================== *)
(** * Properties *)
(* ===================================================================== *)

(** Order facts about binary64 comparison, derived from the specification
    of the primitive comparison. *)
Section FloatOrder.

Lemma Pos_compare_cont_Eq_opp (p q : positive) :
  Pos.compare_cont Eq q p = CompOpp (Pos.compare_cont Eq p q).
Proof.
  change (Pos.compare_cont Eq q p) with (Pos.compare q p).
  change (Pos.compare_cont Eq p q) with (Pos.compare p q).
  apply Pos.compare_antisym.
Qed.

Lemma SFcompare_antisym (x y : spec_float) (c : comparison) :
  SFcompare x y = Some c -> SFcompare y x = Some (CompOpp c).
Proof.
  destruct x as [sx|sx| |sx mx ex], y as [sy|sy| |sy my ey]; simpl;
    try discriminate;
    try (intros [= <-]; repeat match goal with b : bool |- _ => destruct b end;
         reflexivity).
  intros [= <-]. f_equal.
  rewrite (Z.compare_antisym ex ey), (Pos_compare_cont_Eq_opp mx my).
  destruct sx, sy; simpl; try reflexivity;
    destruct (ex ?= ey); simpl; reflexivity.
Qed.

Lemma ltb_asym (x y : float) :
  PrimFloat.ltb x y = true -> PrimFloat.ltb y x = false.
Proof.
  rewrite !ltb_spec. unfold SFltb.
  destruct (SFcompare (Prim2SF x) (Prim2SF y)) as [c|] eqn:E; [|discriminate].
  rewrite (SFcompare_antisym _ _ _ E).
  destruct c; simpl; congruence.
Qed.

Lemma eqb_not_ltb (x y : float) :
  PrimFloat.eqb x y = true ->
  PrimFloat.ltb x y = false /\ PrimFloat.ltb y x = false.
Proof.
  rewrite (FloatAxioms.eqb_spec x y), !ltb_spec. unfold SFeqb, SFltb.
  destruct (SFcompare (Prim2SF x) (Prim2SF y)) as [c|] eqn:E; [|discriminate].
  rewrite (SFcompare_antisym _ _ _ E).
  destruct c; simpl; try discriminate. auto.
Qed.


End FloatOrder.

(** Two different floats are told apart by the primitive comparison. *)
Lemma float_eqb_false_neq (x y : float) :
  PrimFloat.eqb x y = false -> PrimFloat.eqb x x = true -> x <> y.
Proof. intros Hxy Hxx ->. congruence. Qed.


(* ===================================================================== *)
(** ** The pool-delta classifier *)
(* ===================================================================== *)

Module DetectLastProps.
Import DetectLast.

Lemma lastMatch_snoc (m : string) (l : list TokenBalance) (a : TokenBalance) :
  lastMatch m (l ++ [a]) =
  if poolEntry m a then uiAmount a else lastMatch m l.
Proof. unfold lastMatch. now rewrite fold_left_app. Qed.

(** The loop, resumed after the entries [seen], ends with the last matches
    of the prefix at which [stopPrefix] stops. *)
Lemma scanFrom_stopPrefix (target : string) (rest seen : list TokenBalance) :
  scanFrom target rest (lastMatch WSOL_ADDRESS seen) (lastMatch target seen) =
  (lastMatch WSOL_ADDRESS (stopPrefix target seen rest),
   lastMatch target (stopPrefix target seen rest)).
Proof.
  revert seen. induction rest as [|a rest IH]; intros seen; simpl.
  - reflexivity.
  - unfold bothFound.
    destruct (JS.ne_zero (lastMatch WSOL_ADDRESS seen)
              && JS.ne_zero (lastMatch target seen)); [reflexivity|].
    rewrite <- IH, !lastMatch_snoc. reflexivity.
Qed.

Lemma scanFrom_app_stop (target : string) (l rest : list TokenBalance)
    (sol tok : JS.nullable) :
  (let '(s, t) := scanFrom target l sol tok in JS.ne_zero s && JS.ne_zero t)
    = true ->
  scanFrom target (l ++ rest) sol tok = scanFrom target l sol tok.
Proof.
  revert sol tok. induction l as [|a l IH]; intros sol tok; simpl.
  - intros H. destruct rest; simpl; [reflexivity|]. now rewrite H.
  - destruct (JS.ne_zero sol && JS.ne_zero tok); [reflexivity|]. apply IH.
Qed.

Lemma stopPrefix_spec (target : string) (rest seen : list TokenBalance) :
  exists p q,
    rest = p ++ q /\
    stopPrefix target seen rest = seen ++ p /\
    (q <> [] -> bothFound target (seen ++ p) = true) /\
    (forall p1 p2, p = p1 ++ p2 -> p2 <> [] ->
                   bothFound target (seen ++ p1) = false).
Proof.
  revert seen. induction rest as [|a rest IH]; intros seen; simpl.
  - exists [], []. rewrite (app_nil_r seen).
    split; [reflexivity|]. split; [reflexivity|]. split; [congruence|].
    intros [|x p1] p2 E; simpl in E; [subst p2; congruence | discriminate].
  - destruct (bothFound target seen) eqn:Hb.
    + exists [], (a :: rest). rewrite (app_nil_r seen).
      split; [reflexivity|]. split; [reflexivity|]. split; [auto|].
      intros [|x p1] p2 E; simpl in E; [subst p2; congruence | discriminate].
    + destruct (IH (seen ++ [a])) as (p & q & -> & Hs & Hq & Hmin).
      exists (a :: p), q.
      replace (seen ++ a :: p) with ((seen ++ [a]) ++ p)
        by now rewrite <- app_assoc.
      split; [reflexivity|]. split; [assumption|]. split; [assumption|].
      intros [|x p1] p2 E Hne; simpl in E.
      * now rewrite app_nil_r.
      * injection E as <- ->.
        replace (seen ++ a :: p1) with ((seen ++ [a]) ++ p1)
          by now rewrite <- app_assoc.
        now apply (Hmin p1 p2).
Qed.

(** C5.  The classifier decides from the pool's native-currency amounts
    alone: post > pre gives a buy of magnitude post - pre, post < pre a sell
    of magnitude pre - post, equal amounts give no side and magnitude 0.
    Pool native 100 -> 101 is [{buy, 1}] and 100 -> 99 is [{sell, 1}]
    whatever the token amounts are; the two scenarios of
    test-detect-trade.ts evaluate accordingly. *)
Theorem pool_delta_decision (data : TxData) (targetTokenMint : string) :
  let prePoolNative :=
    JS.toNumber (fst (scanPool targetTokenMint (preTokenBalances data))) in
  let postPoolNative :=
    JS.toNumber (fst (scanPool targetTokenMint (postTokenBalances data))) in
  let result := detectLatestTrade data targetTokenMint in
  (JS.gt postPoolNative prePoolNative = true ->
     result = {| side := Some buy;
                 swappedSOLAmount := (postPoolNative - prePoolNative)%float |})
  /\ (JS.lt postPoolNative prePoolNative = true ->
     result = {| side := Some sell;
                 swappedSOLAmount := (prePoolNative - postPoolNative)%float |})
  /\ (JS.strict_eq postPoolNative prePoolNative = true ->
     result = {| side := None; swappedSOLAmount := 0%float |})
  /\ (forall prePoolToken postPoolToken,
        scanPool targetTokenMint (preTokenBalances data)
          = (Some 100%float, prePoolToken) ->
        scanPool targetTokenMint (postTokenBalances data)
          = (Some 101%float, postPoolToken) ->
        result = {| side := Some buy; swappedSOLAmount := 1%float |})
  /\ (forall prePoolToken postPoolToken,
        scanPool targetTokenMint (preTokenBalances data)
          = (Some 100%float, prePoolToken) ->
        scanPool targetTokenMint (postTokenBalances data)
          = (Some 99%float, postPoolToken) ->
        result = {| side := Some sell; swappedSOLAmount := 1%float |})
  /\ detectLatestTrade buyTransactionData TEST_TOKEN_ADDRESS
     = {| side := Some buy; swappedSOLAmount := 1%float |}
  /\ detectLatestTrade sellTransactionData TEST_TOKEN_ADDRESS
     = {| side := Some sell; swappedSOLAmount := 1%float |}.
Proof.
  unfold detectLatestTrade.
  destruct (scanPool targetTokenMint (preTokenBalances data)) as [preS preT].
  destruct (scanPool targetTokenMint (postTokenBalances data)) as [postS postT].
  cbn [fst]. unfold JS.gt_v, JS.lt_v, JS.sub_v, JS.gt, JS.lt, JS.strict_eq.
  repeat split.
  - intros ->. reflexivity.
  - intros H. rewrite (ltb_asym _ _ H), H. reflexivity.
  - intros H. apply eqb_not_ltb in H as [H1 H2]. now rewrite H1, H2.
  - intros ? ? [= -> _] [= -> _]. reflexivity.
  - intros ? ? [= -> _] [= -> _]. reflexivity.
Qed.

(** C2, as the code has it.  A scan stops as soon as both amounts found so
    far are non-zero: entries after such a point are never read.  Until then
    every matching entry overwrites the amount found before it, so each
    quantity is the amount of the LAST matching entry among the entries
    visited, the visited entries being the shortest prefix of the list on
    which both quantities are non-zero (the whole list when there is no
    such prefix). *)
Theorem scan_stops_on_both_nonzero_last_visited_match_wins
    (targetTokenMint : string) (balances : list TokenBalance) :
  (forall rest,
      (let '(s, t) := scanPool targetTokenMint balances in
       JS.ne_zero s && JS.ne_zero t) = true ->
      scanPool targetTokenMint (balances ++ rest)
      = scanPool targetTokenMint balances)
  /\ scanPool targetTokenMint balances
     = (lastMatch WSOL_ADDRESS (visited targetTokenMint balances),
        lastMatch targetTokenMint (visited targetTokenMint balances))
  /\ (exists unread,
        balances = visited targetTokenMint balances ++ unread
        /\ (unread <> [] ->
            bothFound targetTokenMint (visited targetTokenMint balances)
            = true))
  /\ (forall p q,
        visited targetTokenMint balances = p ++ q -> q <> [] ->
        bothFound targetTokenMint p = false).
Proof.
  repeat split.
  - intros rest H. now apply scanFrom_app_stop.
  - apply (scanFrom_stopPrefix targetTokenMint balances []).
  - destruct (stopPrefix_spec targetTokenMint balances [])
      as (p & q & E & Hs & Hq & _).
    exists q. unfold visited. rewrite Hs. simpl. auto.
  - intros p q E Hq.
    destruct (stopPrefix_spec targetTokenMint balances [])
      as (p' & q' & _ & Hs & _ & Hmin).
    unfold visited in E. rewrite Hs in E. simpl in E.
    now apply (Hmin p q).
Qed.

(** C2, as stated, fails: with two native-currency accounts of the pool
    authority ahead of its token account, the scan keeps the second amount
    (200), not the first (100). *)
Lemma first_match_does_not_win :
  fst (scanPool TEST_TOKEN_ADDRESS duplicateBalances) = Some 200%float
  /\ firstMatch WSOL_ADDRESS duplicateBalances = Some 100%float
  /\ fst (scanPool TEST_TOKEN_ADDRESS duplicateBalances)
     <> firstMatch WSOL_ADDRESS duplicateBalances.
Proof.
  split; [reflexivity|]. split; [reflexivity|].
  change (Some 200%float <> Some 100%float). intros E.
  assert (E' : 200%float = 100%float) by congruence.
  revert E'. now apply float_eqb_false_neq.
Qed.

End DetectLastProps.

(* ===================================================================== *)
(** ** The per-trade contrarian engine *)
(* ===================================================================== *)

Module EngineProps.
Import DetectLast.

(** A detection that passes the guard places exactly the counter order,
    and the table is overwritten iff the order resolves. *)
Lemma handle_processed (gateway : GatewayCall -> bool) (now : Z)
    (tradeStates : gmap string TradeState) (tokenAddress : string)
    (data : TxData) (d : Side) :
  side (detectLatestTrade data tokenAddress) = Some d ->
  cooledDown (lastStateOf tradeStates tokenAddress) now = true ->
  let m := swappedSOLAmount (detectLatestTrade data tokenAddress) in
  handleTradeDetection gateway now tradeStates tokenAddress data =
  if gateway (counterOrder d tokenAddress m) then
    {| states := <[tokenAddress := recorded d m now]> tradeStates;
       placed := [counterOrder d tokenAddress m];
       completion := Returned |}
  else
    {| states := tradeStates;
       placed := [counterOrder d tokenAddress m];
       completion := Threw |}.
Proof.
  intros Hd Hc. unfold handleTradeDetection. rewrite Hd, Hc.
  unfold counterOrder, recorded. destruct d; reflexivity.
Qed.

(** A detection that does not pass the guard does nothing. *)
Lemma handle_suppressed (gateway : GatewayCall -> bool) (now : Z)
    (tradeStates : gmap string TradeState) (tokenAddress : string)
    (data : TxData) :
  cooledDown (lastStateOf tradeStates tokenAddress) now = false ->
  handleTradeDetection gateway now tradeStates tokenAddress data =
  {| states := tradeStates; placed := []; completion := Returned |}.
Proof.
  intros Hc. unfold handleTradeDetection. rewrite Hc.
  now destruct (side (detectLatestTrade data tokenAddress)).
Qed.

(** Reading a key with no stored state gives [null] unless the key names
    a property of [Object.prototype]. *)
Lemma lastStateOf_null (tradeStates : gmap string TradeState)
    (tokenAddress : string) :
  tradeStates !! tokenAddress = None ->
  inherited tokenAddress = false ->
  lastStateOf tradeStates tokenAddress = Null.
Proof. intros H1 H2. unfold lastStateOf. now rewrite H1, H2. Qed.

(** The names of the properties of [Object.prototype] have at most 20
    characters: no longer key, a mint address for one, is inherited. *)
Lemma inherited_short (key : string) :
  inherited key = true -> (String.length key <= 20)%nat.
Proof.
  unfold inherited, objectPrototypeKeys. cbn [existsb].
  repeat match goal with
         | |- context [String.eqb key ?name] =>
             destruct (String.eqb_spec key name) as [-> | _];
             [intros _; cbn; lia | cbn [orb]]
         end.
  discriminate.
Qed.


(** C1, as the code has it.  For a token with no prior trade state, whose
    address is not the name of a property of [Object.prototype], a
    detected buy of magnitude m makes the engine place a sell order of size
    m * 0.10 (slippage argument 1); when the order resolves, the token's
    state is overwritten with the DETECTED direction (buy), the placed size
    m * 0.10 and the current timestamp; when the order rejects, the
    rejection propagates and the table is left as it was.  For magnitude 10
    the size is 1. *)
Theorem first_buy_places_sell_and_records_detected_side
    (gateway : GatewayCall -> bool) (now : Z)
    (tradeStates : gmap string TradeState) (tokenAddress : string)
    (data : TxData) (m : JS.number) :
  tradeStates !! tokenAddress = None ->
  inherited tokenAddress = false ->
  detectLatestTrade data tokenAddress
    = {| side := Some buy; swappedSOLAmount := m |} ->
  let size := (m * OPPOSITE_TRADE_PERCENTAGE)%float in
  let out := handleTradeDetection gateway now tradeStates tokenAddress data in
  placed out = [CallSell tokenAddress size 1]
  /\ (gateway (CallSell tokenAddress size 1) = true ->
      completion out = Returned
      /\ states out =
         <[tokenAddress := {| lastTradeDirection := Some buy;
                              lastTradeSizeInSOL := size;
                              lastTradeTimestamp := now |}]> tradeStates)
  /\ (gateway (CallSell tokenAddress size 1) = false ->
      completion out = Threw /\ states out = tradeStates)
  /\ (10 * OPPOSITE_TRADE_PERCENTAGE)%float = 1%float.
Proof.
  intros Hnone Hown Hdet size out. subst out.
  rewrite (handle_processed gateway now tradeStates tokenAddress data buy);
    [| now rewrite Hdet | now rewrite lastStateOf_null].
  rewrite Hdet. cbn [swappedSOLAmount counterOrder recorded]. fold size.
  destruct (gateway (CallSell tokenAddress size 1)); cbn;
    repeat split; try reflexivity; try discriminate.
Qed.

Lemma first_buy_places_sell_and_records_detected_side_witness :
  let out :=
    handleTradeDetection (fun _ => true) 1700000000000 ∅
                         TEST_TOKEN_ADDRESS buy10TransactionData in
  placed out = [CallSell TEST_TOKEN_ADDRESS 1%float 1]
  /\ completion out = Returned
  /\ states out =
     <[TEST_TOKEN_ADDRESS := {| lastTradeDirection := Some buy;
                                lastTradeSizeInSOL := 1%float;
                                lastTradeTimestamp := 1700000000000 |}]> ∅.
Proof.
  destruct (first_buy_places_sell_and_records_detected_side
              (fun _ => true) 1700000000000 ∅ TEST_TOKEN_ADDRESS
              buy10TransactionData 10%float)
    as (Hp & Hok & _ & _).
  - reflexivity.
  - reflexivity.
  - reflexivity.
  - split; [exact Hp|]. exact (Hok eq_refl).
Defined.

(** C1, as stated, fails: after a first detected buy of magnitude 10 the
    state holds direction buy, not sell. *)
Lemma first_buy_state_direction_is_not_sell :
  exists st,
    states (handleTradeDetection (fun _ => true) 1700000000000 ∅
                                 TEST_TOKEN_ADDRESS buy10TransactionData)
      !! TEST_TOKEN_ADDRESS = Some st
    /\ lastTradeDirection st = Some buy
    /\ lastTradeSizeInSOL st = 1%float
    /\ lastTradeDirection st <> Some sell.
Proof.
  eexists. split.
  - change (handleTradeDetection (fun _ => true) 1700000000000 ∅
              TEST_TOKEN_ADDRESS buy10TransactionData)
      with {| states := <[TEST_TOKEN_ADDRESS :=
                            recorded buy 10%float 1700000000000]> ∅;
              placed := [counterOrder buy TEST_TOKEN_ADDRESS 10%float];
              completion := Returned |}.
    cbn [states]. apply lookup_insert_eq.
  - repeat split; discriminate.
Qed.



End EngineProps.

(* ===================================================================== *)
(** ** The retry wrapper *)
(* ===================================================================== *)

Module RetryProps.
Import OrderWatcher.

Lemma rateLimitedFrom_S {T} (operation : nat -> Attempt T) (i k : nat) :
  rateLimitedFrom operation i (S k) ->
  (exists err, operation i = Rejected err /\ isRateLimited err = true)
  /\ rateLimitedFrom operation (S i) k.
Proof.
  intros H. split.
  - destruct (H 0%nat) as (err & E & R); [lia|].
    exists err. now rewrite Nat.add_0_r in E.
  - intros j Hj. destruct (H (S j)) as (err & E & R); [lia|].
    exists err. now rewrite Nat.add_succ_r in E.
Qed.

(** [k] rate-limited rounds are played one after the other, then the loop
    goes on with what is left of its budget. *)
Lemma retryLoop_rounds {T} (operation : nat -> Attempt T) (context : string)
    (k remaining i : nat) :
  rateLimitedFrom operation i k ->
  retryLoop operation context (k + remaining) i =
  let '(events, outcome) :=
    retryLoop operation context remaining (i + k) in
  (rounds context i k ++ events, outcome).
Proof.
  revert i. induction k as [|k IH]; intros i Hrl.
  - simpl. rewrite Nat.add_0_r.
    now destruct (retryLoop operation context remaining i).
  - apply rateLimitedFrom_S in Hrl as [(err & E & R) Hrl].
    simpl. rewrite E, R, (IH (S i) Hrl), (Nat.add_succ_r i k). simpl.
    destruct (retryLoop operation context remaining (S (i + k))).
    unfold rounds. simpl. reflexivity.
Qed.

Lemma sleeps_rounds (context : string) (i k : nat) :
  sleeps (rounds context i k) = map backoffDelay (seq i k).
Proof.
  revert i. induction k as [|k IH]; intros i; [reflexivity|].
  unfold sleeps, rounds in *. simpl. now rewrite IH.
Qed.

Lemma calls_rounds (context : string) (i k : nat) :
  calls (rounds context i k) = seq i k.
Proof.
  revert i. induction k as [|k IH]; intros i; [reflexivity|].
  unfold calls, rounds in *. simpl. now rewrite IH.
Qed.

Lemma sleeps_app (a b : list Event) : sleeps (a ++ b) = sleeps a ++ sleeps b.
Proof. apply omap_app. Qed.

Lemma calls_app (a b : list Event) : calls (a ++ b) = calls a ++ calls b.
Proof. apply omap_app. Qed.

(** C3.  (1) An operation that is rate limited exactly k times and then
    succeeds, with k below the attempt budget, yields its result after
    k + 1 calls and exactly k sleeps of BASE_DELAY * 2^0, ...,
    BASE_DELAY * 2^(k-1).  (2) A failure that is not a rate-limit error is
    rethrown as it is, with no sleep and no call after it.  (3) An operation
    that is always rate limited is called exactly MAX_RETRIES times and the
    wrapper then fails with the exhausted-retries error. *)
Theorem fetchWithRetry_contract {T : Type} (operation : nat -> Attempt T)
    (context : string) :
  (forall k value,
      (k < MAX_RETRIES)%nat ->
      rateLimitedFrom operation 0 k ->
      operation k = Resolved value ->
      let '(events, outcome) := fetchWithRetry operation context in
      outcome = Resolved value
      /\ events = rounds context 0 k ++ [Called k]
      /\ calls events = seq 0 (S k)
      /\ sleeps events
         = map (fun j => BASE_DELAY * 2 ^ Z.of_nat j) (seq 0 k))
  /\ (forall k err,
      (k < MAX_RETRIES)%nat ->
      rateLimitedFrom operation 0 k ->
      operation k = Rejected err ->
      isRateLimited err = false ->
      let '(events, outcome) := fetchWithRetry operation context in
      outcome = Rejected err
      /\ events = rounds context 0 k ++ [Called k]
      /\ calls events = seq 0 (S k))
  /\ (rateLimitedFrom operation 0 MAX_RETRIES ->
      let '(events, outcome) := fetchWithRetry operation context in
      outcome = Rejected (exhaustedRetries context)
      /\ calls events = seq 0 MAX_RETRIES
      /\ sleeps events
         = map (fun j => BASE_DELAY * 2 ^ Z.of_nat j) (seq 0 MAX_RETRIES)).
Proof.
  assert (Hstop : forall k,
             (k < MAX_RETRIES)%nat ->
             rateLimitedFrom operation 0 k ->
             (forall value, operation k = Resolved value ->
                fetchWithRetry operation context
                = (rounds context 0 k ++ [Called k], Resolved value))
             /\ (forall err, operation k = Rejected err ->
                 isRateLimited err = false ->
                 fetchWithRetry operation context
                 = (rounds context 0 k ++ [Called k], Rejected err))).
  { intros k Hk Hrl. unfold fetchWithRetry.
    replace MAX_RETRIES with (k + S (MAX_RETRIES - S k))%nat by lia.
    rewrite (retryLoop_rounds operation context k _ 0 Hrl). simpl.
    split; [intros value E | intros err E R]; rewrite E; [|rewrite R];
      reflexivity. }
  assert (Hcalls : forall k,
             calls (rounds context 0 k ++ [Called k]) = seq 0 (S k)).
  { intros k. rewrite calls_app, calls_rounds, seq_S. reflexivity. }
  split; [|split].
  - intros k value Hk Hrl E.
    rewrite (proj1 (Hstop k Hk Hrl) value E).
    split; [reflexivity|]. split; [reflexivity|]. split; [apply Hcalls|].
    rewrite sleeps_app, sleeps_rounds. simpl. now rewrite app_nil_r.
  - intros k err Hk Hrl E R.
    rewrite (proj2 (Hstop k Hk Hrl) err E R).
    split; [reflexivity|]. split; [reflexivity | apply Hcalls].
  - intros Hrl. unfold fetchWithRetry.
    change (retryLoop operation context MAX_RETRIES 0)
      with (retryLoop operation context (MAX_RETRIES + 0) 0).
    rewrite (retryLoop_rounds operation context MAX_RETRIES 0 0 Hrl).
    cbn [retryLoop]. rewrite app_nil_r.
    split; [reflexivity|].
    split; [apply calls_rounds | apply sleeps_rounds].
Qed.

(** An operation rate limited twice, then answering 7: two sleeps, of
    2000 and 4000 ms. *)
Lemma fetchWithRetry_contract_witness :
  let '(events, outcome) := fetchWithRetry flaky "fetching signatures" in
  outcome = Resolved 7
  /\ events = rounds "fetching signatures" 0 2 ++ [Called 2%nat]
  /\ calls events = [0; 1; 2]%nat
  /\ sleeps events = [2000; 4000].
Proof.
  apply (proj1 (fetchWithRetry_contract flaky "fetching signatures")
               2%nat 7).
  - unfold MAX_RETRIES. lia.
  - intros j Hj. exists rateLimit.
    destruct j as [|[|j]]; [split; reflexivity | split; reflexivity | lia].
  - reflexivity.
Defined.

End RetryProps.

(* ===================================================================== *)
(** ** Splitting and joining *)
(* ===================================================================== *)

Module JSStringProps.
Import JSString.
Local Open Scope string_scope.

Lemma split_free (sep : ascii) (s : string) :
  free_of sep s = true -> split sep s = [s].
Proof.
  induction s as [|c s IH]; simpl; [reflexivity|].
  intros [Hc Hs]%andb_prop. apply negb_true_iff in Hc.
  now rewrite Hc, (IH Hs).
Qed.

Lemma split_app_sep (sep : ascii) (x rest : string) :
  free_of sep x = true ->
  split sep (x ++ String sep rest) = x :: split sep rest.
Proof.
  induction x as [|c x IH]; simpl.
  - intros _. now rewrite Ascii.eqb_refl.
  - intros [Hc Hx]%andb_prop. apply negb_true_iff in Hc.
    now rewrite Hc, (IH Hx).
Qed.

(** Splitting undoes joining when no piece contains the separator. *)
Lemma split_join (sep : ascii) (x : string) (l : list string) :
  forallb (free_of sep) (x :: l) = true ->
  split sep (join (String sep "") (x :: l)) = x :: l.
Proof.
  revert x. induction l as [|y l IH]; intros x; simpl.
  - rewrite andb_true_r. apply split_free.
  - intros [Hx Hl]%andb_prop.
    change (split sep (x ++ String sep (join (String sep "") (y :: l)))
            = x :: y :: l).
    rewrite (split_app_sep sep x _ Hx). f_equal. now apply IH.
Qed.

Lemma free_of_app (c : ascii) (a b : string) :
  free_of c (a ++ b) = free_of c a && free_of c b.
Proof.
  induction a as [|x a IH]; simpl; [reflexivity|].
  now rewrite IH, andb_assoc.
Qed.

Lemma free_of_join (c : ascii) (sep : string) (l : list string) :
  free_of c sep = true ->
  forallb (free_of c) l = true ->
  free_of c (join sep l) = true.
Proof.
  intros Hsep. induction l as [|x l IH]; simpl; [reflexivity|].
  intros [Hx Hl]%andb_prop. destruct l as [|y l]; [assumption|].
  rewrite !free_of_app, Hx, Hsep. simpl. now apply IH.
Qed.

Lemma all_space_app (a b : string) :
  all_space (a ++ b) = all_space a && all_space b.
Proof.
  induction a as [|x a IH]; simpl; [reflexivity|].
  now rewrite IH, andb_assoc.
Qed.

End JSStringProps.

(* ===================================================================== *)
(** ** The trade ledger *)
(* ===================================================================== *)

Module LedgerProps.
Import OrderWatcher JSString JSStringProps.
Local Open Scope string_scope.

Lemma cleanField_inv (v : maybe) :
  cleanField v = true ->
  exists s, v = Some s /\ free_of comma s = true
            /\ free_of newline s = true.
Proof.
  destruct v as [s|]; simpl; [|discriminate].
  intros [H1 H2]%andb_prop. eauto.
Qed.

(** The fields of a well-formed record, as strings. *)
Lemma wellFormed_inv (trade : TradeInfo) :
  wellFormed trade = true ->
  exists f1 f2 f3 f4 f5,
    trade = {| timestamp := Some f1; type := Some f2; solAmount := Some f3;
               tokenAmount := Some f4; txHash := Some f5 |}
    /\ forallb (free_of comma) [f1; f2; f3; f4; f5] = true
    /\ forallb (free_of newline) [f1; f2; f3; f4; f5] = true.
Proof.
  unfold wellFormed. destruct trade as [t1 t2 t3 t4 t5]. cbn.
  intros [[[[H1 H2]%andb_prop H3]%andb_prop H4]%andb_prop H5]%andb_prop.
  apply cleanField_inv in H1 as (f1 & -> & C1 & N1).
  apply cleanField_inv in H2 as (f2 & -> & C2 & N2).
  apply cleanField_inv in H3 as (f3 & -> & C3 & N3).
  apply cleanField_inv in H4 as (f4 & -> & C4 & N4).
  apply cleanField_inv in H5 as (f5 & -> & C5 & N5).
  exists f1, f2, f3, f4, f5. cbn.
  rewrite C1, C2, C3, C4, C5, N1, N2, N3, N4, N5. auto.
Qed.

(** A well-formed record is read back from its line as it was. *)
Lemma parseLine_csvLine (trade : TradeInfo) :
  wellFormed trade = true -> parseLine (csvLine trade) = trade.
Proof.
  intros (f1 & f2 & f3 & f4 & f5 & -> & Hc & _)%wellFormed_inv.
  unfold parseLine, csvLine. cbn [map join_item timestamp type solAmount
                                   tokenAmount txHash].
  change "," with (String comma "").
  now rewrite (split_join comma f1 [f2; f3; f4; f5] Hc).
Qed.

Lemma csvLine_one_line (trade : TradeInfo) :
  wellFormed trade = true -> free_of newline (csvLine trade) = true.
Proof.
  intros (f1 & f2 & f3 & f4 & f5 & -> & _ & Hn)%wellFormed_inv.
  unfold csvLine. apply free_of_join; [reflexivity | exact Hn].
Qed.

(** A record line holds four commas, so it is never blank. *)
Lemma csvLine_not_blank (trade : TradeInfo) :
  not_blank (csvLine trade) = true.
Proof.
  unfold not_blank, csvLine. destruct trade as [t1 t2 t3 t4 t5].
  cbn [map timestamp type solAmount tokenAmount txHash].
  unfold join. cbn [String.concat].
  rewrite all_space_app, all_space_app.
  replace (all_space ",") with false by reflexivity.
  now rewrite andb_false_r.
Qed.

(** Reading back what the writer wrote. *)
Lemma readExisting_csvContent (trades : list TradeInfo) :
  forallb wellFormed trades = true ->
  readExisting (csvContent trades) = trades.
Proof.
  intros Hwf. unfold readExisting, csvContent.
  rewrite (split_join newline).
  - unfold shift. cbn [tl].
    induction trades as [|t trades IH]; [reflexivity|].
    simpl in Hwf. apply andb_prop in Hwf as [Ht Hts].
    cbn [map List.filter]. rewrite csvLine_not_blank. cbn [map].
    now rewrite (parseLine_csvLine t Ht), (IH Hts).
  - cbn [forallb]. apply andb_true_intro. split; [reflexivity|].
    induction trades as [|t trades IH]; [reflexivity|].
    simpl in Hwf. apply andb_prop in Hwf as [Ht Hts].
    cbn [map forallb]. now rewrite (csvLine_one_line t Ht), (IH Hts).
Qed.



End LedgerProps.

(* ===================================================================== *)
(** ** The batch aggregator *)
(* ===================================================================== *)

Module MakerProps.
Import MarketMaker JSString.
Local Open Scope string_scope.

(** *** The seen set *)

Lemma lastN_length {A} (n : nat) (l : list A) :
  length (lastN n l) = Nat.min n (length l).
Proof. unfold lastN. rewrite length_skipn. lia. Qed.

Lemma lastN_all {A} (n : nat) (l : list A) :
  (length l <= n)%nat -> lastN n l = l.
Proof.
  intros H. unfold lastN. now replace (length l - n)%nat with 0%nat by lia.
Qed.

Lemma lastN_snoc {A} (n : nat) (l : list A) (x : A) :
  lastN (S n) (l ++ [x]) = (lastN n l ++ [x])%list.
Proof.
  unfold lastN. rewrite length_app. simpl.
  replace (length l + 1 - S n)%nat with (length l - n)%nat by lia.
  rewrite skipn_app.
  replace (length l - n - length l)%nat with 0%nat by lia. reflexivity.
Qed.

Lemma Set_has_app (x : string) (a b : list string) :
  Set_has x (a ++ b) = Set_has x a || Set_has x b.
Proof. apply existsb_app. Qed.

Lemma Set_has_last (x : string) (l : list string) :
  Set_has x (l ++ [x]) = true.
Proof.
  rewrite Set_has_app. unfold Set_has at 2. simpl.
  rewrite String.eqb_refl. apply orb_true_r.
Qed.

(** Recording an identity that is not in the set appends it and, past 100
    elements, keeps the 50 most recent ones. *)
Lemma recordBatch_fresh (id : string) (batches : list string) :
  Set_has id batches = false ->
  recordBatch id batches =
  if (100 <? length batches + 1)%nat then (lastN 49 batches ++ [id])%list
  else (batches ++ [id])%list.
Proof.
  intros H. unfold recordBatch, Set_add. rewrite H, length_app. simpl.
  destruct (100 <? length batches + 1)%nat; [|reflexivity].
  apply (lastN_snoc 49).
Qed.

Lemma recordBatch_has (id : string) (batches : list string) :
  Set_has id batches = false ->
  Set_has id (recordBatch id batches) = true.
Proof.
  intros H. rewrite (recordBatch_fresh id batches H).
  destruct (100 <? length batches + 1)%nat; apply Set_has_last.
Qed.

Lemma recordBatch_bounded (id : string) (batches : list string) :
  (length batches <= 100)%nat ->
  (length (recordBatch id batches) <= 100)%nat.
Proof.
  intros H. unfold recordBatch, Set_add.
  destruct (Set_has id batches).
  - destruct (100 <? length batches)%nat eqn:E; [|assumption].
    apply Nat.ltb_lt in E. lia.
  - destruct (100 <? length (batches ++ [id]))%nat eqn:E.
    + rewrite lastN_length. lia.
    + apply Nat.ltb_ge in E. assumption.
Qed.

(** *** executeTrade *)

(** Taken alone (no call in flight), [executeTrade] leaves the variables
    as they were, and it always returns. *)
Lemma executeTrade_returns (cfg : Config) (w : World) (st : State)
    (isBuy : bool) (amount : JS.number) :
  exists events,
    executeTrade cfg w st isBuy amount
    = (st, ExecuteTrade isBuy amount :: events, Returned).
Proof.
  unfold executeTrade. destruct st as [batches [|]]; cbn.
  - now exists [].
  - destruct (executeTradeBody cfg w isBuy amount) as [events body].
    eexists. reflexivity.
Qed.



(** *** One polling step *)

Section Step.

Variable parseFloat : maybe -> JS.number.
Variable cfg : Config.

Lemma execution_returns (w : World) (st : State) (netVolume : JS.number) :
  exists events, execution cfg w st netVolume = (st, events, Returned).
Proof.
  unfold execution.
  destruct (JS.strict_ne netVolume 0%float); [|now exists []].
  destruct (JS.gt netVolume 0%float);
    edestruct executeTrade_returns as [events ->]; eauto.
Qed.

Lemma identity_needs_five (window : list Trade) (id : string) :
  batchIdentity window = Some id -> (5 <= length window)%nat.
Proof.
  unfold batchIdentity.
  destruct window as [|? [|? [|? [|? [|? ?]]]]]; cbn; try discriminate.
  intros _. lia.
Qed.



(** A window already seen: nothing happens. *)
Lemma watch_seen (w : World) (st : State) (content id : string) :
  fileContent w = Some content ->
  batchIdentity (windowOf parseFloat content) = Some id ->
  Set_has id (processedBatches st) = true ->
  watchTradeFile parseFloat cfg w st = (st, []).
Proof.
  intros Hc Hid Hseen. unfold watchTradeFile. rewrite Hc.
  fold (windowOf parseFloat content). rewrite Hid, Hseen.
  now destruct (length (windowOf parseFloat content) <? 5)%nat.
Qed.

(** A window not seen before: the execution, then the identity is
    recorded. *)
Lemma watch_new (w : World) (st : State) (content id : string) :
  fileContent w = Some content ->
  batchIdentity (windowOf parseFloat content) = Some id ->
  Set_has id (processedBatches st) = false ->
  watchTradeFile parseFloat cfg w st
  = ({| processedBatches := recordBatch id (processedBatches st);
        isProcessingTrade := isProcessingTrade st |},
     snd (fst (execution cfg w st (netVolumeOf (windowOf parseFloat content))))).
Proof.
  intros Hc Hid Hnew. unfold watchTradeFile. rewrite Hc.
  fold (windowOf parseFloat content). rewrite Hid, Hnew.
  apply identity_needs_five in Hid. apply Nat.ltb_ge in Hid. rewrite Hid.
  fold (execution cfg w st (netVolumeOf (windowOf parseFloat content))).
  destruct (execution_returns w st (netVolumeOf (windowOf parseFloat content)))
    as [events ->].
  reflexivity.
Qed.

(** A step either leaves the seen set alone or records one fresh
    identity. *)
Lemma watch_batches (w : World) (st : State) :
  let st' := fst (watchTradeFile parseFloat cfg w st) in
  isProcessingTrade st' = isProcessingTrade st
  /\ (processedBatches st' = processedBatches st
      \/ exists id,
           Set_has id (processedBatches st) = false
           /\ processedBatches st'
              = recordBatch id (processedBatches st)).
Proof.
  destruct (fileContent w) as [content|] eqn:Hc.
  2:{ unfold watchTradeFile. rewrite Hc. cbn. auto. }
  destruct (batchIdentity (windowOf parseFloat content)) as [id|] eqn:Hid.
  2:{ unfold watchTradeFile. rewrite Hc. fold (windowOf parseFloat content).
      rewrite Hid. destruct (length (windowOf parseFloat content) <? 5)%nat; cbn; auto. }
  destruct (Set_has id (processedBatches st)) eqn:Hseen.
  - rewrite (watch_seen w st content id Hc Hid Hseen). cbn. auto.
  - rewrite (watch_new w st content id Hc Hid Hseen). cbn. eauto.
Qed.

End Step.

(** *** Successive polls *)

Section Polls.

Variable parseFloat : maybe -> JS.number.
Variable cfg : Config.

Lemma poll_cons (w : World) (worlds : list World) (st : State) :
  poll parseFloat cfg (w :: worlds) st =
  (fst (poll parseFloat cfg worlds
             (fst (watchTradeFile parseFloat cfg w st))),
   (snd (watchTradeFile parseFloat cfg w st)
      ++ snd (poll parseFloat cfg worlds
                   (fst (watchTradeFile parseFloat cfg w st))))%list).
Proof.
  cbn [poll]. destruct (watchTradeFile parseFloat cfg w st) as [st1 e1].
  cbn [fst snd]. now destruct (poll parseFloat cfg worlds st1).
Qed.

Lemma Set_has_skipn (x : string) (n : nat) (l : list string) :
  Set_has x (skipn n l) = true -> Set_has x l = true.
Proof.
  intros H. rewrite <- (firstn_skipn n l), Set_has_app, H.
  apply orb_true_r.
Qed.

Lemma retained_has (k : nat) (id : string) (batches : list string) :
  retained k id batches -> Set_has id batches = true.
Proof. apply Set_has_skipn. Qed.

Lemma lastN_lastN {A} (k n : nat) (l : list A) :
  (k <= n)%nat -> lastN k (lastN n l) = lastN k l.
Proof.
  intros H. unfold lastN. rewrite length_skipn, skipn_skipn.
  f_equal. lia.
Qed.

Lemma retained_S (k : nat) (id : string) (batches : list string) :
  retained k id batches -> retained (S k) id batches.
Proof.
  unfold retained. intros H. rewrite <- (lastN_lastN k (S k)) in H by lia.
  revert H. apply Set_has_skipn.
Qed.

Lemma retained_record (k : nat) (id other : string)
    (batches : list string) :
  (k < 50)%nat ->
  Set_has other batches = false ->
  retained k id batches ->
  retained (S k) id (recordBatch other batches).
Proof.
  intros Hk Hfresh H. unfold retained in *.
  rewrite (recordBatch_fresh other batches Hfresh).
  destruct (100 <? length batches + 1)%nat; rewrite lastN_snoc, Set_has_app.
  - rewrite lastN_lastN by lia. now rewrite H.
  - now rewrite H.
Qed.

(** A step pushes a retained identity back by one place at most. *)
Lemma watch_retained (k : nat) (id : string) (w : World) (st : State) :
  (k < 50)%nat ->
  retained k id (processedBatches st) ->
  retained (S k) id
    (processedBatches (fst (watchTradeFile parseFloat cfg w st))).
Proof.
  intros Hk H.
  destruct (watch_batches parseFloat cfg w st)
    as [_ [-> | (other & Hfresh & ->)]].
  - now apply retained_S.
  - now apply retained_record.
Qed.

Lemma poll_retained (worlds : list World) (k : nat) (id : string)
    (st : State) :
  (k + length worlds <= 50)%nat ->
  retained k id (processedBatches st) ->
  retained (k + length worlds) id
    (processedBatches (fst (poll parseFloat cfg worlds st))).
Proof.
  revert k st. induction worlds as [|w worlds IH]; intros k st Hk H.
  - cbn. now rewrite Nat.add_0_r.
  - rewrite poll_cons. cbn [fst length] in *.
    replace (k + S (length worlds))%nat with (S k + length worlds)%nat
      by lia.
    apply IH; [lia|]. apply watch_retained; [lia | assumption].
Qed.

Lemma poll_bounded (worlds : list World) (st : State) :
  (length (processedBatches st) <= 100)%nat ->
  (length (processedBatches (fst (poll parseFloat cfg worlds st)))
   <= 100)%nat.
Proof.
  revert st. induction worlds as [|w worlds IH]; intros st H; [exact H|].
  rewrite poll_cons. cbn [fst]. apply IH.
  destruct (watch_batches parseFloat cfg w st) as [_ [-> | (id & _ & ->)]];
    [assumption | now apply recordBatch_bounded].
Qed.

(** Polls that all present a seen identity do nothing at all. *)
Lemma poll_seen (id : string) (worlds : list World) (st : State) :
  Set_has id (processedBatches st) = true ->
  Forall (presents parseFloat id) worlds ->
  poll parseFloat cfg worlds st = (st, []).
Proof.
  intros Hseen Hall. induction Hall as [|w worlds (c & Hc & Hid) _ IH].
  - reflexivity.
  - rewrite poll_cons, (watch_seen parseFloat cfg w st c id Hc Hid Hseen).
    cbn [fst snd]. now rewrite IH.
Qed.

End Polls.



(** C7.  Two windows whose boundary records agree on the first and last
    timestamps and on the first eight characters of the first and last
    signatures have the same batch identity; a poll that presents a window
    whose identity is in the seen set changes nothing and executes nothing;
    so, of two such windows polled one after the other, the second is
    suppressed. *)
Theorem same_boundaries_same_identity_second_suppressed
    (parseFloat : maybe -> JS.number) (cfg : Config) :
  (forall first1 last1 first2 last2,
      timestamp first1 = timestamp first2 ->
      timestamp last1 = timestamp last2 ->
      take 8 <$> txHash first1 = take 8 <$> txHash first2 ->
      take 8 <$> txHash last1 = take 8 <$> txHash last2 ->
      batchIdOf first1 last1 = batchIdOf first2 last2)
  /\ (forall w st content id,
        fileContent w = Some content ->
        batchIdentity (lastN 5 (readTrades parseFloat content)) = Some id ->
        Set_has id (processedBatches st) = true ->
        watchTradeFile parseFloat cfg w st = (st, []))
  /\ (forall w1 w2 st id,
        presents parseFloat id w1 ->
        presents parseFloat id w2 ->
        let st1 := fst (watchTradeFile parseFloat cfg w1 st) in
        watchTradeFile parseFloat cfg w2 st1 = (st1, []))
  /\ poll parseDecimal sampleConfig
          [calm buyingLedger; calm lookalikeLedger] initialState
     = ({| processedBatches :=
             ["2024-05-01T10:00:00.000Z-2024-05-01T10:00:04.000Z-aaaaaaaa-eeeeeeee"];
           isProcessingTrade := false |},
        [ExecuteTrade false 2%float; Order (SdkSell "MINT" 500000000)]).
Proof.
  split; [|split; [|split]].
  - intros f1 l1 f2 l2 Hf Hl Hfh Hlh. unfold batchIdOf. rewrite Hf, Hl.
    unfold fmap, option_fmap, option_map in Hfh, Hlh.
    destruct (txHash f1) as [a1|], (txHash f2) as [a2|]; try discriminate;
      destruct (txHash l1) as [b1|], (txHash l2) as [b2|];
      try discriminate; try reflexivity.
    assert (Ea : take 8 a1 = take 8 a2) by congruence.
    assert (Eb : take 8 b1 = take 8 b2) by congruence.
    now rewrite Ea, Eb.
  - intros w st content id. apply watch_seen.
  - intros w1 w2 st id (c1 & Hc1 & Hid1) (c2 & Hc2 & Hid2) st1.
    apply (watch_seen parseFloat cfg w2 st1 c2 id Hc2 Hid2). subst st1.
    destruct (Set_has id (processedBatches st)) eqn:Hseen.
    + now rewrite (watch_seen parseFloat cfg w1 st c1 id Hc1 Hid1 Hseen).
    + rewrite (watch_new parseFloat cfg w1 st c1 id Hc1 Hid1 Hseen).
      cbn [fst processedBatches]. now apply recordBatch_has.
  - reflexivity.
Qed.

(** C8.  A step leaves the seen set as it is or inserts one identity; an
    insertion that takes the set past 100 elements keeps the 50 most
    recently inserted ones (the new one last); hence a set of at most 100
    elements stays so, and after any number of polls from the initial state
    the set holds at most 100 identities. *)
Theorem seen_set_bounded (parseFloat : maybe -> JS.number) (cfg : Config) :
  (forall w st,
      let st' := fst (watchTradeFile parseFloat cfg w st) in
      (processedBatches st' = processedBatches st
       \/ exists id,
            Set_has id (processedBatches st) = false
            /\ processedBatches st' = recordBatch id (processedBatches st))
      /\ ((length (processedBatches st) <= 100)%nat ->
          (length (processedBatches st') <= 100)%nat))
  /\ (forall id batches,
        Set_has id batches = false ->
        recordBatch id batches =
        if (100 <? length (batches ++ [id]))%nat
        then lastN 50 (batches ++ [id])
        else (batches ++ [id])%list)
  /\ (forall id batches,
        Set_has id batches = false ->
        length batches = 100%nat ->
        recordBatch id batches = (skipn 51 batches ++ [id])%list
        /\ length (recordBatch id batches) = 50%nat)
  /\ (forall worlds,
        (length (processedBatches
                   (fst (poll parseFloat cfg worlds initialState)))
         <= 100)%nat).
Proof.
  split; [|split; [|split]].
  - intros w st st'. subst st'.
    destruct (watch_batches parseFloat cfg w st) as [_ H]. split; [exact H|].
    intros Hlen. destruct H as [-> | (id & _ & ->)];
      [assumption | now apply recordBatch_bounded].
  - intros id batches H. unfold recordBatch, Set_add. now rewrite H.
  - intros id batches H Hlen. rewrite (recordBatch_fresh id batches H).
    rewrite Hlen. cbn [Nat.ltb Nat.leb Nat.add]. unfold lastN. rewrite Hlen.
    cbn [Nat.sub]. split; [reflexivity|].
    rewrite length_app, length_skipn, Hlen. reflexivity.
  - intros worlds. apply poll_bounded. cbn. lia.
Qed.

(** C10.  Take a window, not seen before, whose net volume is not 0, so
    that [executeTrade] is called, and let the counter-order fail: the body
    of [executeTrade] throws (the SDK rejects the order, or any earlier
    step throws) or the bonding-curve account is absent.  Then
    [executeTrade] returns normally, the step records the window's identity
    and leaves the in-flight flag down.  From then on a poll that presents
    a window of that identity executes nothing as long as the identity is
    in the seen set: immediately, after any number of polls of such
    windows, and across up to 49 polls of anything else, through which the
    identity is sure to stay in the set. *)
Theorem failed_counter_order_is_swallowed_and_recorded
    (parseFloat : maybe -> JS.number) (cfg : Config) (w : World) (st : State)
    (content id : string) :
  fileContent w = Some content ->
  batchIdentity (lastN 5 (readTrades parseFloat content)) = Some id ->
  Set_has id (processedBatches st) = false ->
  isProcessingTrade st = false ->
  let netVolume := netVolumeOf (lastN 5 (readTrades parseFloat content)) in
  JS.strict_ne netVolume 0%float = true ->
  let isBuy := negb (JS.gt netVolume 0%float) in
  let amount := if isBuy then JS.Math_abs netVolume else netVolume in
  snd (executeTradeBody cfg w isBuy amount) = Threw
  \/ bondingCurve w = CurveAbsent ->
  let st' := fst (watchTradeFile parseFloat cfg w st) in
  snd (executeTrade cfg w st isBuy amount) = Returned
  /\ hd_error (snd (watchTradeFile parseFloat cfg w st))
     = Some (ExecuteTrade isBuy amount)
  /\ processedBatches st' = recordBatch id (processedBatches st)
  /\ Set_has id (processedBatches st') = true
  /\ isProcessingTrade st' = false
  /\ (forall later,
        Forall (presents parseFloat id) later ->
        poll parseFloat cfg later st' = (st', []))
  /\ (forall between w2,
        Set_has id (processedBatches (fst (poll parseFloat cfg between st')))
        = true ->
        presents parseFloat id w2 ->
        snd (watchTradeFile parseFloat cfg w2
               (fst (poll parseFloat cfg between st'))) = [])
  /\ (forall between,
        (length between <= 49)%nat ->
        Set_has id (processedBatches (fst (poll parseFloat cfg between st')))
        = true)
  /\ (forall between w2,
        (length between <= 49)%nat ->
        presents parseFloat id w2 ->
        snd (watchTradeFile parseFloat cfg w2
               (fst (poll parseFloat cfg between st'))) = []).
Proof.
  intros Hc Hid Hnew Hidle netVolume Hne isBuy amount _ st'.
  assert (Hst' : st' = {| processedBatches :=
                            recordBatch id (processedBatches st);
                          isProcessingTrade := false |}).
  { subst st'. rewrite (watch_new parseFloat cfg w st content id Hc Hid Hnew).
    cbn [fst]. now rewrite Hidle. }
  assert (Hhas : Set_has id (processedBatches st') = true).
  { rewrite Hst'. cbn [processedBatches]. now apply recordBatch_has. }
  assert (Hkept : forall between,
             (length between <= 49)%nat ->
             Set_has id (processedBatches
                           (fst (poll parseFloat cfg between st'))) = true).
  { intros between Hlen.
    apply (retained_has (1 + length between)).
    apply poll_retained; [lia|].
    unfold retained. rewrite Hst'. cbn [processedBatches].
    rewrite (recordBatch_fresh id _ Hnew).
    destruct (100 <? length (processedBatches st) + 1)%nat;
      rewrite (lastN_snoc 0); apply Set_has_last. }
  split; [|split; [|split; [|split; [|split; [|split; [|split; [|split]]]]]]].
  - now destruct (executeTrade_returns cfg w st isBuy amount) as [ev ->].
  - rewrite (watch_new parseFloat cfg w st content id Hc Hid Hnew).
    cbn [snd]. unfold execution.
    change (netVolumeOf (windowOf parseFloat content)) with netVolume.
    rewrite Hne. subst isBuy amount.
    destruct (JS.gt netVolume 0%float); cbn [negb];
      edestruct executeTrade_returns as [ev ->]; reflexivity.
  - now rewrite Hst'.
  - exact Hhas.
  - now rewrite Hst'.
  - intros later Hall. now apply (poll_seen parseFloat cfg id).
  - intros between w2 Hin (c2 & Hc2 & Hid2).
    now rewrite (watch_seen parseFloat cfg w2 _ c2 id Hc2 Hid2).
  - exact Hkept.
  - intros between w2 Hlen (c2 & Hc2 & Hid2).
    rewrite (watch_seen parseFloat cfg w2 _ c2 id Hc2 Hid2); [reflexivity|].
    now apply Hkept.
Qed.

(** The SDK rejects the sell placed against [buyingLedger]: the rejection
    is logged, the identity is recorded, and polling the same ledger again,
    now with a working SDK, executes nothing. *)
Lemma failed_counter_order_is_swallowed_and_recorded_witness :
  let first :=
    watchTradeFile parseDecimal sampleConfig (stormy buyingLedger)
                   initialState in
  snd first = [ExecuteTrade false 2%float;
               Order (SdkSell "MINT" 500000000);
               LogError "Error executing sell trade:"]
  /\ Set_has
       "2024-05-01T10:00:00.000Z-2024-05-01T10:00:04.000Z-aaaaaaaa-eeeeeeee"
       (processedBatches (fst first)) = true
  /\ poll parseDecimal sampleConfig
          [calm buyingLedger; calm lookalikeLedger; calm buyingLedger]
          (fst first)
     = (fst first, []).
Proof.
  destruct (failed_counter_order_is_swallowed_and_recorded
              parseDecimal sampleConfig (stormy buyingLedger) initialState
              buyingLedger
              "2024-05-01T10:00:00.000Z-2024-05-01T10:00:04.000Z-aaaaaaaa-eeeeeeee"
              eq_refl eq_refl eq_refl eq_refl eq_refl
              (or_introl eq_refl))
    as (_ & _ & _ & Hhas & _ & Hlater & _).
  split; [reflexivity|]. split; [exact Hhas|].
  apply Hlater. repeat constructor.
  - exists buyingLedger. split; reflexivity.
  - exists lookalikeLedger. split; reflexivity.
  - exists buyingLedger. split; reflexivity.
Defined.

(** C10, as stated, fails: the identity of a window whose counter-order
    failed does not stay in the seen set for ever.  After the SDK rejected
    the sell placed against [buyingLedger], a hundred polls of other
    windows trim the identity away, and the next poll of [buyingLedger]
    calls [executeTrade] and places the sell again. *)
Lemma evicted_failed_window_is_executed_again :
  snd (watchTradeFile parseDecimal sampleConfig (stormy buyingLedger)
                      initialState)
  = [ExecuteTrade false 2%float;
     Order (SdkSell "MINT" 500000000);
     LogError "Error executing sell trade:"]
  /\ Set_has
       "2024-05-01T10:00:00.000Z-2024-05-01T10:00:04.000Z-aaaaaaaa-eeeeeeee"
       (processedBatches MakerNotions.afterRejection) = true
  /\ Set_has
       "2024-05-01T10:00:00.000Z-2024-05-01T10:00:04.000Z-aaaaaaaa-eeeeeeee"
       (processedBatches
          (fst (poll parseDecimal sampleConfig
                     MakerNotions.hundredWindows
                     MakerNotions.afterRejection))) = false
  /\ length (processedBatches
               (fst (poll parseDecimal sampleConfig
                          MakerNotions.hundredWindows
                          MakerNotions.afterRejection))) = 50%nat
  /\ firstn 2
       (snd (watchTradeFile parseDecimal sampleConfig (calm buyingLedger)
               (fst (poll parseDecimal sampleConfig
                          MakerNotions.hundredWindows
                          MakerNotions.afterRejection))))
     = [ExecuteTrade false 2%float; Order (SdkSell "MINT" 500000000)].
Proof.
  vm_compute. repeat split.
Qed.

End MakerProps.

(* ===================================================================== *)
(** ** More on the retry wrapper *)
(* ===================================================================== *)

Module RetryBounds.
Import OrderWatcher WatcherRuns RetryProps.

(** The loop, whatever the operation does: some number [k] of rate-limited
    rounds, then either a last call whose outcome is returned as it is, or
    the end of the budget. *)
Lemma retryLoop_shape {T} (operation : nat -> Attempt T) (context : string)
    (remaining i : nat) :
  exists k,
    (k <= remaining)%nat
    /\ rateLimitedFrom operation i k
    /\ ((k < remaining)%nat
        /\ retryLoop operation context remaining i
           = (rounds context i k ++ [Called (i + k)], operation (i + k)%nat)
        /\ (forall err, operation (i + k)%nat = Rejected err ->
                        isRateLimited err = false)
        \/ k = remaining
           /\ retryLoop operation context remaining i
              = (rounds context i k, Rejected (exhaustedRetries context))).
Proof.
  revert i. induction remaining as [|remaining IH]; intros i.
  - exists 0%nat. split; [lia|]. split; [intros j Hj; lia|].
    right. split; reflexivity.
  - destruct (operation i) as [value|err] eqn:E.
    + exists 0%nat. split; [lia|]. split; [intros j Hj; lia|].
      left. split; [lia|]. rewrite Nat.add_0_r. cbn [retryLoop]. rewrite E.
      split; [reflexivity | discriminate].
    + destruct (isRateLimited err) eqn:R.
      * destruct (IH (S i)) as (k & Hk & Hrl & Hcase).
        exists (S k). split; [lia|]. split.
        { intros [|j] Hj.
          - exists err. now rewrite Nat.add_0_r.
          - destruct (Hrl j) as (err' & E' & R'); [lia|].
            exists err'. now rewrite Nat.add_succ_r. }
        rewrite (Nat.add_succ_r i k). cbn [retryLoop]. rewrite E, R.
        destruct Hcase as [(Hlt & -> & Hnot) | (-> & ->)].
        { left. split; [lia|]. split; [reflexivity | exact Hnot]. }
        { right. split; reflexivity. }
      * exists 0%nat. split; [lia|]. split; [intros j Hj; lia|].
        left. split; [lia|]. rewrite Nat.add_0_r. cbn [retryLoop].
        rewrite E, R. split; [reflexivity|]. intros err' [= <-]. exact R.
Qed.

Lemma totalSleep_rounds (context : string) (k : nat) :
  totalSleep (rounds context 0 k) = BASE_DELAY * (2 ^ Z.of_nat k - 1).
Proof.
  unfold totalSleep. rewrite sleeps_rounds.
  induction k as [|k IH]; [reflexivity|].
  rewrite seq_S, map_app, fold_right_app. cbn [map fold_right Nat.add].
  replace (fold_right Z.add (backoffDelay k + 0) (map backoffDelay (seq 0 k)))
    with (fold_right Z.add 0 (map backoffDelay (seq 0 k)) + backoffDelay k).
  - rewrite IH. unfold backoffDelay. rewrite Nat2Z.inj_succ, Z.pow_succ_r by lia.
    lia.
  - generalize (map backoffDelay (seq 0 k)). intros l.
    induction l as [|x l IHl]; cbn [fold_right]; lia.
Qed.

(** X1.  Whatever the operation does, the wrapper calls it at most
    MAX_RETRIES times, numbering the calls 0, 1, 2, ...; it sleeps once
    after each rate-limited call and never otherwise; and its outcome is
    either the outcome of the last call (a result, or an error that is not
    a rate-limit error) or, after MAX_RETRIES rate-limited calls, the
    exhausted-retries error. *)
Theorem fetchWithRetry_shape {T : Type} (operation : nat -> Attempt T)
    (context : string) :
  let events := fst (fetchWithRetry operation context) in
  let outcome := snd (fetchWithRetry operation context) in
  exists k,
    (k <= MAX_RETRIES)%nat
    /\ rateLimitedFrom operation 0 k
    /\ sleeps events = map backoffDelay (seq 0 k)
    /\ ((k < MAX_RETRIES)%nat
        /\ calls events = seq 0 (S k)
        /\ outcome = operation k
        /\ (forall err, operation k = Rejected err ->
                        isRateLimited err = false)
        \/ k = MAX_RETRIES
           /\ calls events = seq 0 MAX_RETRIES
           /\ outcome = Rejected (exhaustedRetries context)).
Proof.
  unfold fetchWithRetry.
  destruct (retryLoop_shape operation context MAX_RETRIES 0)
    as (k & Hk & Hrl & [(Hlt & -> & Hnot) | (-> & ->)]).
  - exists k. cbn [fst snd]. split; [exact Hk|]. split; [exact Hrl|].
    rewrite sleeps_app, sleeps_rounds, calls_app, calls_rounds, seq_S.
    split; [apply app_nil_r|]. left. auto.
  - exists MAX_RETRIES. cbn [fst snd]. split; [lia|]. split; [exact Hrl|].
    rewrite sleeps_rounds, calls_rounds. split; [reflexivity|]. right. auto.
Qed.

(** X2.  The time a call of the wrapper spends sleeping is
    BASE_DELAY * (2^k - 1) for the k sleeps it makes, hence never more than
    62000 ms, whatever the operation does. *)
Theorem fetchWithRetry_total_sleep {T : Type} (operation : nat -> Attempt T)
    (context : string) :
  let events := fst (fetchWithRetry operation context) in
  totalSleep events
  = BASE_DELAY * (2 ^ Z.of_nat (length (sleeps events)) - 1)
  /\ 0 <= totalSleep events <= 62000.
Proof.
  intros events. subst events. unfold fetchWithRetry.
  assert (Hk : exists k,
             (k <= MAX_RETRIES)%nat
             /\ sleeps (fst (retryLoop operation context MAX_RETRIES 0))
                = sleeps (rounds context 0 k)).
  { destruct (retryLoop_shape operation context MAX_RETRIES 0)
      as (k & Hk & _ & [(_ & -> & _) | (-> & ->)]).
    - exists k. cbn [fst]. split; [exact Hk|].
      rewrite sleeps_app. apply app_nil_r.
    - exists MAX_RETRIES. cbn [fst]. split; [lia | reflexivity]. }
  destruct Hk as (k & Hk & Hs).
  assert (Ht : totalSleep (fst (retryLoop operation context MAX_RETRIES 0))
               = BASE_DELAY * (2 ^ Z.of_nat k - 1)).
  { unfold totalSleep at 1. rewrite Hs. apply totalSleep_rounds. }
  rewrite Ht, Hs, sleeps_rounds, length_map, length_seq.
  split; [reflexivity|].
  unfold MAX_RETRIES in Hk. unfold BASE_DELAY.
  assert (1 <= 2 ^ Z.of_nat k <= 2 ^ 5).
  { split; [|apply Z.pow_le_mono_r; lia].
    assert (0 < 2 ^ Z.of_nat k) by (apply Z.pow_pos_nonneg; lia). lia. }
  change (2 ^ 5) with 32 in *. lia.
Qed.

End RetryBounds.

(* ===================================================================== *)
(** ** More on the trade ledger *)
(* ===================================================================== *)

Module LedgerRuns.
Import OrderWatcher WatcherRuns JSString JSStringProps LedgerProps.
Local Open Scope string_scope.

(** One append to a ledger the writer wrote. *)
Lemma append_step (fs : gmap string string) (mint : string)
    (existing batch : list TradeInfo) :
  forallb wellFormed existing = true ->
  fs !! fileName mint = Some (csvContent existing) ->
  writeTradestoCSV false fs mint batch !! fileName mint
  = Some (csvContent (existing ++ batch)).
Proof.
  intros Hwf Hfile. unfold writeTradestoCSV.
  rewrite Hfile, (readExisting_csvContent existing Hwf).
  apply lookup_insert_eq.
Qed.

Lemma append_series (mint : string) (batches : list (list TradeInfo))
    (fs : gmap string string) (existing : list TradeInfo) :
  forallb wellFormed existing = true ->
  forallb (forallb wellFormed) batches = true ->
  fs !! fileName mint = Some (csvContent existing) ->
  fold_left (fun fs batch => writeTradestoCSV false fs mint batch) batches fs
    !! fileName mint
  = Some (csvContent (existing ++ concat batches)).
Proof.
  revert fs existing.
  induction batches as [|batch batches IH]; intros fs existing Hwf Hall Hfile.
  - cbn. now rewrite app_nil_r.
  - cbn [forallb] in Hall. apply andb_prop in Hall as [Hb Hbs].
    cbn [fold_left concat]. rewrite app_assoc. apply IH.
    + now rewrite forallb_app, Hwf, Hb.
    + exact Hbs.
    + now apply append_step.
Qed.

Lemma write_other_file (initial : bool) (fs : gmap string string)
    (mint other : string) (trades : list TradeInfo) :
  other <> fileName mint ->
  writeTradestoCSV initial fs mint trades !! other = fs !! other.
Proof.
  intros Hne. unfold writeTradestoCSV.
  destruct initial; now apply lookup_insert_ne.
Qed.

(** X3.  A first population followed by any series of appends leaves in
    the ledger file the header and then the records of the population and
    of every append, oldest first; whatever the file held before the
    population is gone; reading the file back yields exactly these records;
    no other file is touched. *)
Theorem populate_then_append_concatenates (fs : gmap string string)
    (mint : string) (initial : list TradeInfo)
    (batches : list (list TradeInfo)) :
  forallb wellFormed initial = true ->
  forallb (forallb wellFormed) batches = true ->
  let fs' := populateThenAppend fs mint initial batches in
  fs' !! fileName mint = Some (csvContent (initial ++ concat batches))
  /\ readExisting (csvContent (initial ++ concat batches))
     = (initial ++ concat batches)%list
  /\ (forall other, other <> fileName mint -> fs' !! other = fs !! other).
Proof.
  intros Hwf Hall fs'. subst fs'. unfold populateThenAppend.
  split; [|split].
  - apply append_series; [exact Hwf | exact Hall |].
    unfold writeTradestoCSV. apply lookup_insert_eq.
  - apply readExisting_csvContent. rewrite forallb_app, Hwf. cbn [andb].
    clear Hwf. induction batches as [|b batches IH]; [reflexivity|].
    cbn [forallb] in Hall. apply andb_prop in Hall as [Hb Hbs].
    cbn [concat]. now rewrite forallb_app, Hb, (IH Hbs).
  - intros other Hne.
    assert (H : forall batches fs0,
               fold_left (fun fs batch => writeTradestoCSV false fs mint batch)
                         batches fs0 !! other
               = fs0 !! other).
    { clear -Hne. induction batches as [|b batches IH]; intros fs0;
        [reflexivity|].
      cbn [fold_left]. rewrite IH. now apply write_other_file. }
    rewrite H. now apply write_other_file.
Qed.

Lemma populate_then_append_concatenates_witness :
  let fs := {[ fileName "MINT" := "stale" ]} : gmap string string in
  populateThenAppend fs "MINT" [trade1] [[trade2]; []; [trade3]]
    !! fileName "MINT"
  = Some (csvContent [trade1; trade2; trade3]).
Proof.
  intros fs.
  exact (proj1 (populate_then_append_concatenates
                  fs "MINT" [trade1] [[trade2]; []; [trade3]]
                  eq_refl eq_refl)).
Defined.

(** X4.  Reading a line and writing it back keeps exactly five fields: the
    first five pieces of the line, with an empty field for each piece the
    line lacks; pieces beyond the fifth are lost. *)
Theorem rewritten_line_has_five_fields (piece : string)
    (pieces : list string) :
  forallb (free_of comma) (piece :: pieces) = true ->
  csvLine (parseLine (join "," (piece :: pieces)))
  = join "," (fiveFields (piece :: pieces)).
Proof.
  intros Hfree. unfold parseLine. change "," with (String comma "").
  rewrite (split_join comma piece pieces Hfree).
  destruct pieces as [|p2 [|p3 [|p4 [|p5 rest]]]]; reflexivity.
Qed.

Lemma rewritten_line_has_five_fields_witness :
  csvLine (parseLine "2024-05-01T10:00:00.000Z,BUY")
  = "2024-05-01T10:00:00.000Z,BUY,,,"
  /\ csvLine (parseLine "t,BUY,1,2,hash,extra,more") = "t,BUY,1,2,hash".
Proof.
  split.
  - exact (rewritten_line_has_five_fields
             "2024-05-01T10:00:00.000Z" ["BUY"] eq_refl).
  - exact (rewritten_line_has_five_fields
             "t" ["BUY"; "1"; "2"; "hash"; "extra"; "more"] eq_refl).
Defined.

Lemma split_lines (first : string) (lines : list string) :
  forallb (free_of newline) (first :: lines) = true ->
  split newline (join (String newline "") (first :: lines)) = first :: lines.
Proof. apply split_join. Qed.

(** X5.  An append takes the first line of the existing file for the
    header whatever it holds, and drops every blank line: the file is
    rewritten as the header, the remaining non-blank lines each read and
    written back, and the new records. *)
Theorem append_drops_first_line_and_blank_lines (fs : gmap string string)
    (mint first : string) (lines : list string) (trades : list TradeInfo) :
  forallb (free_of newline) (first :: lines) = true ->
  fs !! fileName mint
  = Some (join (String newline "") (first :: lines)) ->
  writeTradestoCSV false fs mint trades !! fileName mint
  = Some (csvContent
            (map parseLine (List.filter not_blank lines) ++ trades)).
Proof.
  intros Hfree Hfile. unfold writeTradestoCSV, readExisting.
  rewrite Hfile, (split_lines first lines Hfree). apply lookup_insert_eq.
Qed.

(** A ledger without its header loses its first record; a blank line in
    the middle disappears. *)
Lemma append_drops_first_line_and_blank_lines_witness :
  let content :=
    join (String newline "") ["a,BUY,1,2,h1"; "   "; "b,SELL,3,4,h2"] in
  writeTradestoCSV false {[ fileName "MINT" := content ]} "MINT" []
    !! fileName "MINT"
  = Some "TIMESTAMP,TYPE,SOL_AMOUNT,TOKEN_AMOUNT,TX_HASH
b,SELL,3,4,h2".
Proof.
  intros content.
  exact (append_drops_first_line_and_blank_lines
           {[ fileName "MINT" := content ]} "MINT"
           "a,BUY,1,2,h1" ["   "; "b,SELL,3,4,h2"] [] eq_refl
           (lookup_singleton_eq _ _)).
Defined.

End LedgerRuns.

(* ===================================================================== *)
(** ** More on the pool-delta classifier and the per-trade engine *)
(* ===================================================================== *)

Module DetectLastMore.
Import DetectLast DetectLastNotions EngineProps.

Lemma zero_is_not_found : JS.ne_zero (Some 0%float) = false.
Proof. reflexivity. Qed.

(** Without a native-currency entry of the pool the native accumulator
    comes out as it went in. *)
Lemma scanFrom_no_native (target : string) (l : list TokenBalance)
    (sol tok : JS.nullable) :
  countPool WSOL_ADDRESS l = 0%nat ->
  fst (scanFrom target l sol tok) = sol.
Proof.
  unfold countPool. revert tok.
  induction l as [|a l IH]; intros tok H; cbn [scanFrom]; [reflexivity|].
  destruct (JS.ne_zero sol && JS.ne_zero tok); [reflexivity|].
  cbn [List.filter] in H.
  destruct (poolEntry WSOL_ADDRESS a); [discriminate|]. now apply IH.
Qed.

Lemma scanFrom_unique_native (target : string) (l : list TokenBalance)
    (tok : JS.nullable) :
  (countPool WSOL_ADDRESS l <= 1)%nat ->
  fst (scanFrom target l (Some 0%float) tok) = firstMatch WSOL_ADDRESS l.
Proof.
  unfold countPool, firstMatch. revert tok.
  induction l as [|a l IH]; intros tok H; cbn [scanFrom find];
    [reflexivity|].
  rewrite zero_is_not_found. cbn [andb]. cbn [List.filter] in H.
  destruct (poolEntry WSOL_ADDRESS a).
  - apply scanFrom_no_native. cbn [length] in H. unfold countPool. lia.
  - now apply IH.
Qed.

(** X6.  When the pool authority holds at most one native-currency
    account in each balance list, the amount the scan keeps is the amount
    of that account (first match), and the classification does not depend
    on the target mint nor on any other entry. *)
Theorem unique_native_account_first_match (data : TxData)
    (targetTokenMint : string) :
  (countPool WSOL_ADDRESS (preTokenBalances data) <= 1)%nat ->
  (countPool WSOL_ADDRESS (postTokenBalances data) <= 1)%nat ->
  fst (scanPool targetTokenMint (preTokenBalances data))
  = firstMatch WSOL_ADDRESS (preTokenBalances data)
  /\ fst (scanPool targetTokenMint (postTokenBalances data))
     = firstMatch WSOL_ADDRESS (postTokenBalances data)
  /\ (forall otherMint,
        detectLatestTrade data otherMint
        = detectLatestTrade data targetTokenMint).
Proof.
  intros Hpre Hpost.
  assert (H : forall t,
             fst (scanPool t (preTokenBalances data))
             = firstMatch WSOL_ADDRESS (preTokenBalances data)
             /\ fst (scanPool t (postTokenBalances data))
                = firstMatch WSOL_ADDRESS (postTokenBalances data)).
  { intros t. split; now apply scanFrom_unique_native. }
  split; [apply H|]. split; [apply H|].
  intros otherMint. unfold detectLatestTrade.
  destruct (H otherMint) as [E1 E2]. destruct (H targetTokenMint) as [E3 E4].
  destruct (scanPool otherMint (preTokenBalances data)) as [a1 b1].
  destruct (scanPool otherMint (postTokenBalances data)) as [a2 b2].
  destruct (scanPool targetTokenMint (preTokenBalances data)) as [a3 b3].
  destruct (scanPool targetTokenMint (postTokenBalances data)) as [a4 b4].
  cbn [fst] in *. subst a1 a2 a3 a4. reflexivity.
Qed.

Lemma unique_native_account_first_match_witness :
  detectLatestTrade buyTransactionData "ANOTHER_MINT"
  = detectLatestTrade buyTransactionData TEST_TOKEN_ADDRESS.
Proof.
  apply (unique_native_account_first_match
           buyTransactionData TEST_TOKEN_ADDRESS);
    cbn; lia.
Defined.

(** X7.  A transaction whose balance lists hold no native-currency
    account of the pool authority (empty lists, for one) is classified as
    no trade of magnitude 0, and the engine then places no order and leaves
    every state as it is. *)
Theorem no_native_account_no_trade (gateway : GatewayCall -> bool)
    (now : Z) (tradeStates : gmap string TradeState) (tokenAddress : string)
    (data : TxData) :
  countPool WSOL_ADDRESS (preTokenBalances data) = 0%nat ->
  countPool WSOL_ADDRESS (postTokenBalances data) = 0%nat ->
  detectLatestTrade data tokenAddress
  = {| side := None; swappedSOLAmount := 0%float |}
  /\ handleTradeDetection gateway now tradeStates tokenAddress data
     = {| states := tradeStates; placed := []; completion := Returned |}.
Proof.
  intros Hpre Hpost.
  assert (E : detectLatestTrade data tokenAddress
              = {| side := None; swappedSOLAmount := 0%float |}).
  { unfold detectLatestTrade.
    pose proof (scanFrom_no_native tokenAddress _ (Some 0%float)
                                   (Some 0%float) Hpre) as E1.
    pose proof (scanFrom_no_native tokenAddress _ (Some 0%float)
                                   (Some 0%float) Hpost) as E2.
    fold (scanPool tokenAddress (preTokenBalances data)) in E1.
    fold (scanPool tokenAddress (postTokenBalances data)) in E2.
    destruct (scanPool tokenAddress (preTokenBalances data)) as [a1 b1].
    destruct (scanPool tokenAddress (postTokenBalances data)) as [a2 b2].
    cbn [fst] in *. subst a1 a2. reflexivity. }
  split; [exact E|]. unfold handleTradeDetection. now rewrite E.
Qed.

Lemma no_native_account_no_trade_witness :
  handleTradeDetection (fun _ => true) 1700000000000 ∅ TEST_TOKEN_ADDRESS
    {| preTokenBalances := [];
       postTokenBalances :=
         [entry "SomeoneElse" WSOL_ADDRESS 5%float;
          entry RAYDIUM_AUTHORITY TEST_TOKEN_ADDRESS 990%float] |}
  = {| states := ∅; placed := []; completion := Returned |}.
Proof.
  apply no_native_account_no_trade; reflexivity.
Defined.

(** X8.  One run of the engine places at most one order, never touches the
    state of another token, and changes the table only by recording, for
    its own token, an order that was placed and resolved. *)
Theorem engine_touches_only_its_token (gateway : GatewayCall -> bool)
    (now : Z) (tradeStates : gmap string TradeState) (tokenAddress : string)
    (data : TxData) :
  let out := handleTradeDetection gateway now tradeStates tokenAddress data in
  (length (placed out) <= 1)%nat
  /\ (forall other, other <> tokenAddress ->
                    states out !! other = tradeStates !! other)
  /\ (states out = tradeStates
      \/ exists call st,
           placed out = [call] /\ gateway call = true
           /\ completion out = Returned
           /\ lastTradeTimestamp st = now
           /\ states out = <[tokenAddress := st]> tradeStates).
Proof.
  unfold handleTradeDetection.
  destruct (side (detectLatestTrade data tokenAddress)) as [d|];
    [|cbn; auto].
  destruct (cooledDown (lastStateOf tradeStates tokenAddress) now);
    [|cbn; auto].
  match goal with |- context [gateway ?c] => destruct (gateway c) eqn:G end;
    cbn [placed states completion length]; [|auto].
  split; [lia|]. split.
  - intros other Hne. now apply lookup_insert_ne.
  - right. eexists _, _. repeat split; [exact G|reflexivity].
Qed.

(** X9.  A rejected order starts no cooldown: the table is left as it was,
    so the next detection of the same trade, however soon after, places the
    same order again. *)
Theorem rejected_order_is_placed_again (gateway gateway' : GatewayCall -> bool)
    (now now' : Z) (tradeStates : gmap string TradeState)
    (tokenAddress : string) (data : TxData) :
  let out := handleTradeDetection gateway now tradeStates tokenAddress data in
  completion out = Threw ->
  now <= now' ->
  states out = tradeStates
  /\ placed out <> []
  /\ placed (handleTradeDetection gateway' now' (states out)
                                  tokenAddress data)
     = placed out.
Proof.
  intros out. subst out. unfold handleTradeDetection.
  destruct (side (detectLatestTrade data tokenAddress)) as [d|];
    [|discriminate].
  destruct (cooledDown (lastStateOf tradeStates tokenAddress) now) eqn:Hc;
    [|discriminate].
  match goal with |- context [gateway ?c] => destruct (gateway c) eqn:G end;
    [discriminate|].
  cbn [placed states completion]. intros _ Hle.
  split; [reflexivity|]. split; [discriminate|].
  assert (Hc' : cooledDown (lastStateOf tradeStates tokenAddress) now'
                = true).
  { unfold cooledDown in *.
    destruct (lastStateOf tradeStates tokenAddress); [|easy|easy].
    apply Z.ltb_lt in Hc. apply Z.ltb_lt. lia. }
  rewrite Hc'. now destruct (gateway' _).
Qed.

Lemma rejected_order_is_placed_again_witness :
  let out :=
    handleTradeDetection (fun _ => false) 1700000000000 ∅
                         TEST_TOKEN_ADDRESS buy10TransactionData in
  placed (handleTradeDetection (fun _ => true) 1700000000001 (states out)
                               TEST_TOKEN_ADDRESS buy10TransactionData)
  = [CallSell TEST_TOKEN_ADDRESS 1%float 1].
Proof.
  intros out.
  destruct (rejected_order_is_placed_again
              (fun _ => false) (fun _ => true) 1700000000000 1700000000001
              ∅ TEST_TOKEN_ADDRESS buy10TransactionData)
    as (_ & _ & H); [reflexivity | lia |].
  exact H.
Defined.

(** A run places orders for its own token only and leaves the states of
    the other tokens alone. *)
Lemma handle_frame (gateway : GatewayCall -> bool) (now : Z)
    (tradeStates : gmap string TradeState) (tokenAddress : string)
    (data : TxData) :
  let out := handleTradeDetection gateway now tradeStates tokenAddress data in
  Forall (fun call => tokenOfCall call = tokenAddress) (placed out)
  /\ (forall other, other <> tokenAddress ->
                    states out !! other = tradeStates !! other).
Proof.
  unfold handleTradeDetection.
  destruct (side (detectLatestTrade data tokenAddress)) as [d|];
    [|cbn; auto].
  destruct (cooledDown (lastStateOf tradeStates tokenAddress) now);
    [|cbn; auto].
  match goal with |- context [gateway ?c] => destruct (gateway c) end;
    cbn [placed states]; (split; [destruct d; repeat constructor|]); auto.
  intros other Hne. now apply lookup_insert_ne.
Qed.

(** X24.  The table is a plain object, so a key that names a property of
    [Object.prototype] and has no stored state reads as the inherited
    property: every detection for it is suppressed.  Through any series
    of detections, for any tokens, at any times and whatever the gateway
    answers, no order is placed for such a key and it never gets a
    state. *)
Theorem inherited_key_is_never_traded (calls : list Detection)
    (tradeStates : gmap string TradeState) (key : string) :
  inherited key = true ->
  tradeStates !! key = None ->
  fst (detections calls tradeStates) !! key = None
  /\ Forall (fun call => tokenOfCall call <> key)
            (snd (detections calls tradeStates)).
Proof.
  intros Hkey. revert tradeStates.
  induction calls as [|d calls IH]; intros tradeStates Hnone.
  - cbn. split; [exact Hnone | constructor].
  - cbn [detections].
    pose proof (handle_frame (answers d) (instant d) tradeStates (token d)
                             (transaction d)) as [Hplaced Hframe].
    assert (Hout : states (handleTradeDetection (answers d) (instant d)
                             tradeStates (token d) (transaction d)) !! key
                   = None
                   /\ Forall (fun call => tokenOfCall call <> key)
                             (placed (handleTradeDetection
                                        (answers d) (instant d) tradeStates
                                        (token d) (transaction d)))).
    { destruct (String.eqb_spec (token d) key) as [E | Hne].
      - rewrite (handle_suppressed (answers d) (instant d) tradeStates
                                   (token d) (transaction d)).
        + cbn. rewrite E in *. split; [exact Hnone | constructor].
        + unfold lastStateOf. rewrite E, Hnone, Hkey. reflexivity.
      - split.
        + rewrite Hframe by congruence. exact Hnone.
        + eapply Forall_impl; [exact Hplaced|].
          cbn. intros call ->. exact Hne. }
    destruct Hout as [Hstate Hcalls].
    destruct (IH _ Hstate) as [IH1 IH2].
    destruct (detections calls _) as [final later]. cbn [fst snd] in *.
    split; [exact IH1|]. apply Forall_app. now split.
Qed.

(** A buy detected for the key [constructor] is not answered, the same
    buy detected for another token is. *)
Lemma inherited_key_is_never_traded_witness :
  fst (detections
         [ {| answers := fun _ => true; instant := 1700000000000;
              token := "constructor";
              transaction := buy10TransactionData |};
           {| answers := fun _ => true; instant := 1700000000000;
              token := TEST_TOKEN_ADDRESS;
              transaction := buy10TransactionData |} ] ∅)
    !! "constructor" = None
  /\ snd (detections
            [ {| answers := fun _ => true; instant := 1700000000000;
                 token := "constructor";
                 transaction := buy10TransactionData |};
              {| answers := fun _ => true; instant := 1700000000000;
                 token := TEST_TOKEN_ADDRESS;
                 transaction := buy10TransactionData |} ] ∅)
     = [CallSell TEST_TOKEN_ADDRESS 1%float 1].
Proof.
  split; [|reflexivity].
  now apply inherited_key_is_never_traded.
Defined.

End DetectLastMore.

(* ===================================================================== *)
(** ** NaN and signs in binary64 arithmetic *)
(* ===================================================================== *)

Module FloatFacts.

Lemma SFcompare_refl (s : spec_float) :
  s <> S754_nan -> SFcompare s s = Some Eq.
Proof.
  destruct s as [b|b| |b m e]; cbn; try congruence.
  - now destruct b.
  - intros _. rewrite Z.compare_refl.
    change (Pos.compare_cont Eq m m) with (Pos.compare m m).
    rewrite Pos.compare_refl. now destruct b.
Qed.

(** [x !== x] holds of NaN only. *)
Lemma self_unequal_is_nan (x : float) :
  JS.strict_ne x x = true -> Prim2SF x = S754_nan.
Proof.
  unfold JS.strict_ne. rewrite (FloatAxioms.eqb_spec x x). unfold SFeqb.
  destruct (Prim2SF x) as [b|b| |b m e] eqn:E; [| |reflexivity|];
    rewrite SFcompare_refl by discriminate; discriminate.
Qed.

Lemma nan_add_l (x y : float) :
  Prim2SF x = S754_nan -> Prim2SF (x + y)%float = S754_nan.
Proof. intros H. rewrite add_spec, H. reflexivity. Qed.

Lemma nan_add_r (x y : float) :
  Prim2SF y = S754_nan -> Prim2SF (x + y)%float = S754_nan.
Proof.
  intros H. rewrite add_spec, H. now destruct (Prim2SF x).
Qed.

Lemma nan_opp (x : float) :
  Prim2SF x = S754_nan -> Prim2SF (- x)%float = S754_nan.
Proof. intros H. rewrite opp_spec, H. reflexivity. Qed.

Lemma nan_abs (x : float) :
  Prim2SF x = S754_nan -> Prim2SF (abs x) = S754_nan.
Proof. intros H. rewrite abs_spec, H. reflexivity. Qed.

Lemma nan_mul_l (x y : float) :
  Prim2SF x = S754_nan -> Prim2SF (x * y)%float = S754_nan.
Proof. intros H. rewrite mul_spec, H. reflexivity. Qed.

Lemma nan_floor (x : float) :
  Prim2SF x = S754_nan -> JS.floorToBigInt x = None.
Proof. intros H. unfold JS.floorToBigInt. now rewrite H. Qed.

(** NaN is neither equal to, nor above, nor below anything. *)
Lemma nan_compare (x y : float) :
  Prim2SF x = S754_nan ->
  JS.strict_ne x y = true /\ JS.gt x y = false /\ JS.lt x y = false.
Proof.
  intros H. unfold JS.strict_ne, JS.gt, JS.lt.
  rewrite (FloatAxioms.eqb_spec x y), !ltb_spec, H.
  unfold SFeqb, SFltb. cbn. now destruct (Prim2SF y).
Qed.

(** Rounding keeps the sign it is given. *)
Lemma binary_round_aux_sign (prec emax : Z) (s : bool) (m e : Z)
    (l : location) :
  match binary_round_aux prec emax s m e l with
  | S754_zero s' | S754_infinity s' | S754_finite s' _ _ => s' = s
  | S754_nan => True
  end.
Proof.
  unfold binary_round_aux.
  destruct (shr_fexp prec emax m e l) as [mrs' e'].
  destruct (shr_fexp prec emax _ e' loc_Exact) as [mrs'' e''].
  destruct (shr_m mrs''); [reflexivity | | exact I].
  now destruct (e'' <=? emax - prec).
Qed.

(** A product of an absolute value and a positive finite number is NaN,
    an infinity, or not below zero: its integer part is not negative. *)
Lemma floor_abs_mul_nonneg (x y : float) (n : Z) :
  (exists m e, Prim2SF y = S754_finite false m e) ->
  JS.floorToBigInt (abs x * y)%float = Some n -> 0 <= n.
Proof.
  intros (m & e & Hy). unfold JS.floorToBigInt.
  rewrite mul_spec, abs_spec, Hy. unfold SF64mul.
  destruct (Prim2SF x) as [b|b| |b mx ex]; cbn [SFabs SFmul xorb];
    try discriminate.
  - intros [= <-]. lia.
  - pose proof (binary_round_aux_sign prec emax false
                  (Z.pos (mx * m)) (ex + e) loc_Exact) as Hs.
    destruct (binary_round_aux prec emax false (Z.pos (mx * m)) (ex + e)
                               loc_Exact) as [s'|s'| |s' m' e'];
      try discriminate.
    + intros [= <-]. lia.
    + subst s'. intros [= <-]. apply Z.shiftl_nonneg. lia.
Qed.

End FloatFacts.

(* ===================================================================== *)
(** ** More on the batch aggregator *)
(* ===================================================================== *)

Module MakerMore.
Import MarketMaker MakerNotions JSString MakerProps FloatFacts.
Local Open Scope string_scope.

Lemma lamports_is_positive_finite :
  exists m e, Prim2SF LAMPORTS_PER_SOL = S754_finite false m e.
Proof. eexists _, _. vm_compute. reflexivity. Qed.

(** The body of [executeTrade] places no order or one, for the configured
    mint and for a number of lamports that is not negative. *)
Lemma executeTradeBody_orders (cfg : Config) (w : World) (isBuy : bool)
    (amount : JS.number) :
  ordersOf (fst (executeTradeBody cfg w isBuy amount)) = []
  \/ exists call,
       ordersOf (fst (executeTradeBody cfg w isBuy amount)) = [call]
       /\ mintOf call = tokenAddress cfg
       /\ 0 <= lamportsOf call.
Proof.
  unfold executeTradeBody.
  destruct (sdkSetup w); cbn [negb]; [|now left].
  destruct (bondingCurve w); try (now left).
  match goal with
  | |- context [JS.floorToBigInt ?v] =>
      destruct (JS.floorToBigInt v) as [lamports|] eqn:E
  end; [|now left].
  right. apply floor_abs_mul_nonneg in E; [|apply lamports_is_positive_finite].
  eexists. split; [reflexivity|]. now destruct isBuy.
Qed.

Lemma ordersOf_app (a b : list Event) :
  ordersOf (a ++ b) = (ordersOf a ++ ordersOf b)%list.
Proof. apply omap_app. Qed.

Lemma ordersOf_call (isBuy : bool) (amount : JS.number)
    (events : list Event) :
  ordersOf (ExecuteTrade isBuy amount :: events) = ordersOf events.
Proof. reflexivity. Qed.

Lemma executeTrade_orders (cfg : Config) (w : World) (st : State)
    (isBuy : bool) (amount : JS.number) :
  let events := snd (fst (executeTrade cfg w st isBuy amount)) in
  ordersOf events = []
  \/ exists call,
       ordersOf events = [call]
       /\ mintOf call = tokenAddress cfg
       /\ 0 <= lamportsOf call
       /\ isProcessingTrade st = false.
Proof.
  unfold executeTrade. destruct (isProcessingTrade st) eqn:Hflag;
    [now left|].
  destruct (executeTradeBody_orders cfg w isBuy amount)
    as [H | (call & H & Hm & Hl)];
    destruct (executeTradeBody cfg w isBuy amount) as [events body];
    cbn [fst snd] in *.
  - left. rewrite ordersOf_call, ordersOf_app, H. now destruct body.
  - right. exists call. rewrite ordersOf_call, ordersOf_app, H.
    split; [now destruct body | auto].
Qed.

Section Step.

Variable parseFloat : maybe -> JS.number.
Variable cfg : Config.

(** What a step emits: nothing, one error line, or the events of the
    execution for the net volume of an unseen window. *)
Lemma watch_events (w : World) (st : State) :
  ordersOf (snd (watchTradeFile parseFloat cfg w st)) = []
  \/ exists content id,
       fileContent w = Some content
       /\ batchIdentity (windowOf parseFloat content) = Some id
       /\ Set_has id (processedBatches st) = false.
Proof.
  destruct (fileContent w) as [content|] eqn:Hc.
  2:{ left. unfold watchTradeFile. now rewrite Hc. }
  destruct (batchIdentity (windowOf parseFloat content)) as [id|] eqn:Hid.
  2:{ left. unfold watchTradeFile. rewrite Hc. fold (windowOf parseFloat content).
      rewrite Hid. now destruct (length (windowOf parseFloat content) <? 5)%nat. }
  destruct (Set_has id (processedBatches st)) eqn:Hseen.
  - left. now rewrite (watch_seen parseFloat cfg w st content id Hc Hid Hseen).
  - right. eauto.
Qed.

Lemma execution_orders (w : World) (st : State) (netVolume : JS.number) :
  let events := snd (fst (execution cfg w st netVolume)) in
  ordersOf events = []
  \/ exists call,
       ordersOf events = [call]
       /\ mintOf call = tokenAddress cfg
       /\ 0 <= lamportsOf call
       /\ isProcessingTrade st = false.
Proof.
  unfold execution. destruct (JS.strict_ne netVolume 0%float);
    [|now left].
  destruct (JS.gt netVolume 0%float); apply executeTrade_orders.
Qed.

End Step.

(** X10.  One poll places at most one order, and an order it places is for
    the configured mint, for a number of lamports that is not negative,
    and placed only when no execution was in flight. *)
Theorem poll_places_at_most_one_order (parseFloat : maybe -> JS.number)
    (cfg : Config) (w : World) (st : State) :
  let orders := ordersOf (snd (watchTradeFile parseFloat cfg w st)) in
  (length orders <= 1)%nat
  /\ (forall call,
        In call orders ->
        mintOf call = tokenAddress cfg
        /\ 0 <= lamportsOf call
        /\ isProcessingTrade st = false).
Proof.
  intros orders. subst orders.
  destruct (watch_events parseFloat cfg w st)
    as [-> | (content & id & Hc & Hid & Hnew)].
  - split; [cbn; lia | intros call []].
  - rewrite (watch_new parseFloat cfg w st content id Hc Hid Hnew).
    cbn [snd].
    destruct (execution_orders cfg w st
                (netVolumeOf (windowOf parseFloat content)))
      as [-> | (call & -> & Hm & Hl & Hidle)].
    + split; [cbn; lia | intros call []].
    + split; [cbn; lia|]. intros call' [<- | []]. auto.
Qed.

(** X11.  A window polled while an execution is in flight is marked as
    seen without any order being placed for it: [executeTrade] returns at
    once and the identity is recorded all the same.  The poll that follows
    does nothing if it presents that window, and so does every later poll
    that presents it while the identity is still in the seen set, where it
    is sure to stay across up to 49 polls of anything else. *)
Theorem window_polled_in_flight_is_consumed
    (parseFloat : maybe -> JS.number) (cfg : Config) (w : World) (st : State)
    (content id : string) :
  isProcessingTrade st = true ->
  fileContent w = Some content ->
  batchIdentity (lastN 5 (readTrades parseFloat content)) = Some id ->
  Set_has id (processedBatches st) = false ->
  let st' := fst (watchTradeFile parseFloat cfg w st) in
  ordersOf (snd (watchTradeFile parseFloat cfg w st)) = []
  /\ processedBatches st' = recordBatch id (processedBatches st)
  /\ isProcessingTrade st' = true
  /\ (forall w', presents parseFloat id w' ->
                 watchTradeFile parseFloat cfg w' st' = (st', []))
  /\ (forall between w',
        Set_has id (processedBatches (fst (poll parseFloat cfg between st')))
        = true ->
        presents parseFloat id w' ->
        watchTradeFile parseFloat cfg w'
                       (fst (poll parseFloat cfg between st'))
        = (fst (poll parseFloat cfg between st'), []))
  /\ (forall between,
        (length between <= 49)%nat ->
        Set_has id (processedBatches (fst (poll parseFloat cfg between st')))
        = true).
Proof.
  intros Hbusy Hc Hid Hnew st'. subst st'.
  rewrite (watch_new parseFloat cfg w st content id Hc Hid Hnew).
  cbn [fst snd processedBatches isProcessingTrade].
  split; [|split; [reflexivity|split; [exact Hbusy|split; [|split]]]].
  - destruct (execution_orders cfg w st
                (netVolumeOf (windowOf parseFloat content)))
      as [H | (call & _ & _ & _ & Hidle)]; [exact H | congruence].
  - intros w' (c' & Hc' & Hid').
    apply (watch_seen parseFloat cfg w' _ c' id Hc' Hid').
    cbn [processedBatches]. now apply recordBatch_has.
  - intros between w' Hin (c' & Hc' & Hid').
    now apply (watch_seen parseFloat cfg w' _ c' id Hc' Hid').
  - intros between Hlen.
    apply (MakerProps.retained_has (1 + length between)).
    apply MakerProps.poll_retained; [lia|].
    unfold retained. cbn [processedBatches].
    rewrite (MakerProps.recordBatch_fresh id _ Hnew).
    destruct (100 <? length (processedBatches st) + 1)%nat;
      rewrite (MakerProps.lastN_snoc 0); apply MakerProps.Set_has_last.
Qed.

Lemma window_polled_in_flight_is_consumed_witness :
  let step :=
    watchTradeFile parseDecimal sampleConfig (calm buyingLedger) busyState in
  ordersOf (snd step) = []
  /\ processedBatches (fst step)
     = ["2024-05-01T10:00:00.000Z-2024-05-01T10:00:04.000Z-aaaaaaaa-eeeeeeee"].
Proof.
  destruct (window_polled_in_flight_is_consumed
              parseDecimal sampleConfig (calm buyingLedger) busyState
              buyingLedger
              "2024-05-01T10:00:00.000Z-2024-05-01T10:00:04.000Z-aaaaaaaa-eeeeeeee"
              eq_refl eq_refl eq_refl eq_refl) as (H1 & H2 & _).
  split; [exact H1 | exact H2].
Defined.

(** NaN, once in the sum, stays. *)
Lemma netVolume_nan_from (window : list Trade) (acc : JS.number) :
  Prim2SF acc = S754_nan ->
  Prim2SF (fold_left
             (fun netVolume trade => (netVolume + signedAmount trade)%float)
             window acc) = S754_nan.
Proof.
  revert acc. induction window as [|t window IH]; intros acc H; [exact H|].
  cbn [fold_left]. apply IH. now apply nan_add_l.
Qed.

Lemma signedAmount_nan (trade : Trade) :
  Prim2SF (solAmount trade) = S754_nan ->
  Prim2SF (signedAmount trade) = S754_nan.
Proof.
  intros H. unfold signedAmount.
  destruct (type trade) as [t|]; [|exact H].
  destruct (String.eqb t "SELL"); [now apply nan_opp | exact H].
Qed.

Lemma netVolume_nan (window : list Trade) (trade : Trade) :
  In trade window ->
  Prim2SF (solAmount trade) = S754_nan ->
  Prim2SF (netVolumeOf window) = S754_nan.
Proof.
  unfold netVolumeOf. generalize 0%float.
  induction window as [|t window IH]; intros acc Hin H; [destruct Hin|].
  cbn [fold_left]. destruct Hin as [-> | Hin].
  - apply netVolume_nan_from. apply nan_add_r. now apply signedAmount_nan.
  - now apply IH.
Qed.

(** X12.  When the amount of one of the last five records is not a number
    (NaN), so is the net volume: the step calls
    [executeTrade(true, NaN)], no order can be placed whatever the SDK
    answers, and the window is marked as seen. *)
Theorem window_with_nan_amount_is_consumed
    (parseFloat : maybe -> JS.number) (cfg : Config) (w : World) (st : State)
    (content id : string) (trade : Trade) :
  fileContent w = Some content ->
  batchIdentity (lastN 5 (readTrades parseFloat content)) = Some id ->
  Set_has id (processedBatches st) = false ->
  In trade (lastN 5 (readTrades parseFloat content)) ->
  JS.strict_ne (solAmount trade) (solAmount trade) = true ->
  let netVolume := netVolumeOf (lastN 5 (readTrades parseFloat content)) in
  let st' := fst (watchTradeFile parseFloat cfg w st) in
  let events := snd (watchTradeFile parseFloat cfg w st) in
  JS.strict_ne netVolume netVolume = true
  /\ hd_error events = Some (ExecuteTrade true (JS.Math_abs netVolume))
  /\ ordersOf events = []
  /\ processedBatches st' = recordBatch id (processedBatches st).
Proof.
  intros Hc Hid Hnew Hin Hnan netVolume st' events. subst st' events.
  apply self_unequal_is_nan in Hnan.
  pose proof (netVolume_nan _ trade Hin Hnan) as Hnv. fold netVolume in Hnv.
  rewrite (watch_new parseFloat cfg w st content id Hc Hid Hnew).
  cbn [fst snd processedBatches].
  change (netVolumeOf (windowOf parseFloat content)) with netVolume.
  destruct (nan_compare netVolume netVolume Hnv) as (Hne & _ & _).
  split; [exact Hne|]. split; [|split; [|reflexivity]].
  - unfold execution.
    destruct (nan_compare netVolume 0%float Hnv) as (-> & _ & Hlt).
    unfold JS.gt. unfold JS.lt in Hlt.
    assert (Hgt : PrimFloat.ltb 0 netVolume = false).
    { rewrite ltb_spec, Hnv. unfold SFltb. now destruct (Prim2SF 0). }
    rewrite Hgt.
    now destruct (executeTrade_returns cfg w st true (JS.Math_abs netVolume))
      as [ev ->].
  - unfold execution.
    destruct (nan_compare netVolume 0%float Hnv) as (-> & _ & _).
    assert (Hgt : JS.gt netVolume 0%float = false).
    { unfold JS.gt. rewrite ltb_spec, Hnv. unfold SFltb.
      now destruct (Prim2SF 0). }
    rewrite Hgt. unfold executeTrade.
    destruct (isProcessingTrade st); [reflexivity|].
    assert (Hbody : ordersOf (fst (executeTradeBody cfg w true
                                     (JS.Math_abs netVolume))) = []).
    { unfold executeTradeBody. destruct (sdkSetup w); [|reflexivity].
      cbn [negb]. destruct (bondingCurve w); try reflexivity.
      rewrite nan_floor; [reflexivity|].
      apply nan_mul_l, nan_abs, nan_mul_l, nan_abs. exact Hnv. }
    destruct (executeTradeBody cfg w true (JS.Math_abs netVolume))
      as [ev body].
    cbn [fst snd] in *. rewrite ordersOf_call, ordersOf_app, Hbody.
    now destruct body.
Qed.

Lemma window_with_nan_amount_is_consumed_witness :
  let step :=
    watchTradeFile parseDecimal sampleConfig (calm garbledLedger)
                   initialState in
  ordersOf (snd step) = []
  /\ processedBatches (fst step)
     = ["2024-05-01T10:00:00.000Z-2024-05-01T10:00:04.000Z-aaaaaaaa-eeeeeeee"].
Proof.
  destruct (window_with_nan_amount_is_consumed
                parseDecimal sampleConfig (calm garbledLedger) initialState
                garbledLedger
                "2024-05-01T10:00:00.000Z-2024-05-01T10:00:04.000Z-aaaaaaaa-eeeeeeee"
                {| timestamp := Some "2024-05-01T10:00:01.000Z";
                   type := Some "SELL"; solAmount := PrimFloat.nan;
                   tokenAmount := Some "17000";
                   txHash := Some "bbbbbbbb2" |}
                eq_refl eq_refl eq_refl
                (or_intror (or_introl eq_refl)) eq_refl)
    as (_ & _ & H1 & H2).
  split; [exact H1 | exact H2].
Defined.

(** X13.  When the first or the last of the last five records has no
    signature (its line has fewer than five fields), building the batch
    identity throws: the step logs the error, executes nothing and records
    nothing, so the next poll of the same ledger does the same again. *)
Theorem window_without_signature_is_not_recorded
    (parseFloat : maybe -> JS.number) (cfg : Config) (w : World) (st : State)
    (content : string) (t1 t2 t3 t4 t5 : Trade) :
  fileContent w = Some content ->
  lastN 5 (readTrades parseFloat content) = [t1; t2; t3; t4; t5] ->
  txHash t1 = None \/ txHash t5 = None ->
  watchTradeFile parseFloat cfg w st
  = (st, [LogError "Error watching trade file:"])
  /\ watchTradeFile parseFloat cfg w
       (fst (watchTradeFile parseFloat cfg w st))
     = (st, [LogError "Error watching trade file:"]).
Proof.
  intros Hc Hw Hmiss.
  assert (H : watchTradeFile parseFloat cfg w st
              = (st, [LogError "Error watching trade file:"])).
  { unfold watchTradeFile. rewrite Hc, Hw. cbn [length Nat.ltb Nat.leb].
    unfold batchIdentity, batchIdOf. cbn [lookup list_lookup].
    destruct Hmiss as [-> | ->]; [reflexivity|].
    now destruct (txHash t1). }
  split; [exact H|]. now rewrite H.
Qed.

Lemma window_without_signature_is_not_recorded_witness :
  watchTradeFile parseDecimal sampleConfig (calm truncatedLedger)
                 initialState
  = (initialState, [LogError "Error watching trade file:"]).
Proof.
  refine (proj1 (window_without_signature_is_not_recorded
                   parseDecimal sampleConfig (calm truncatedLedger)
                   initialState truncatedLedger _ _ _ _ _
                   eq_refl eq_refl _)).
  right. reflexivity.
Defined.

End MakerMore.

(* ===================================================================== *)
(** ** Classifying a transaction *)
(* ===================================================================== *)

Module ClassifyProps.
Import OrderWatcher Watcher SessionNotions JSString.
Local Open Scope string_scope.

(** An index, once picked, stays picked or is replaced. *)
Lemma findUserFrom_picked (m : Meta) (remaining i : nat) (x : JS.number)
    (p : nat) :
  snd (findUserFrom m remaining i x (Some p)) <> None.
Proof.
  revert i x p. induction remaining as [|r IH]; intros i x p;
    cbn [findUserFrom]; [discriminate|].
  destruct (JS.gt (solChangeAt m i) x); apply IH.
Qed.

(** While no index has been picked the running maximum is still 0. *)
Lemma findUserFrom_none (m : Meta) (remaining i : nat) :
  snd (findUserFrom m remaining i 0%float None) = None <->
  (forall k, (k < remaining)%nat ->
             JS.gt (solChangeAt m (i + k)) 0%float = false).
Proof.
  revert i. induction remaining as [|remaining IH]; intros i.
  - cbn. split; [intros _ k Hk; lia | reflexivity].
  - cbn [findUserFrom].
    destruct (JS.gt (solChangeAt m i) 0%float) eqn:E.
    + split.
      * intros H. now apply findUserFrom_picked in H.
      * intros H. specialize (H 0%nat ltac:(lia)).
        rewrite Nat.add_0_r in H. congruence.
    + rewrite IH. split.
      * intros H [|k] Hk; [now rewrite Nat.add_0_r|].
        rewrite Nat.add_succ_r. apply (H k). lia.
      * intros H k Hk. specialize (H (S k) ltac:(lia)).
        now rewrite Nat.add_succ_r in H.
Qed.

Lemma findUserFrom_bound (m : Meta) (remaining i : nat) (x : JS.number)
    (picked : option nat) (u : nat) :
  (forall p, picked = Some p -> (p < i)%nat) ->
  snd (findUserFrom m remaining i x picked) = Some u ->
  (u < i + remaining)%nat.
Proof.
  revert i x picked. induction remaining as [|remaining IH];
    intros i x picked Hp; cbn [findUserFrom snd].
  - intros H. specialize (Hp u H). lia.
  - destruct (JS.gt (solChangeAt m i) x); intros H;
      apply IH in H; try lia.
    + intros p [= <-]. lia.
    + intros p Hpick. specialize (Hp p Hpick). lia.
Qed.

(** X14.  The search for the user's account finds none exactly when no
    account's balance changed by more than 0 (a change that is NaN counts
    as none), and an account it finds is one of those listed in
    [preBalances]. *)
Theorem findUser_none_iff_no_change (m : Meta) :
  (findUser m = None <->
   forall i, (i < length (preBalances m))%nat ->
             JS.gt (solChangeAt m i) 0%float = false)
  /\ (forall u, findUser m = Some u -> (u < length (preBalances m))%nat).
Proof.
  unfold findUser. split.
  - apply (findUserFrom_none m (length (preBalances m)) 0).
  - intros u H. apply findUserFrom_bound in H; [exact H|]. discriminate.
Qed.

Section Host.

Variable numberToString : JS.number -> string.
Variable isoTimestamp : JS.number -> option string.

(** X15.  A call counts its transaction at most once.  Without
    metadata or block time (a block time of 0 included) nothing is
    counted.  Otherwise [processedCount] goes up by one and at most one
    of [skippedByPump], [skippedByToken], [skippedByAmount] and
    [tradeCounter] goes up by one, none of them going down; a record is
    returned, or the time stamp throws, only with [tradeCounter] going
    up and the three skip counters unchanged. *)
Theorem processTransaction_counts_once (c : Counters) (tx : option Tx)
    (mintAddress : string) :
  let c' := fst (processTransaction numberToString isoTimestamp
                                    c tx mintAddress) in
  let outcome := snd (processTransaction numberToString isoTimestamp
                                         c tx mintAddress) in
  (blockTimeOf tx = None \/ (exists t, tx = Some t /\ meta t = None) ->
   c' = c /\ outcome = Skip)
  /\ (processedCount c' = processedCount c
      \/ processedCount c' = S (processedCount c))
  /\ (skippedByAmount c <= skippedByAmount c')%nat
  /\ (skippedByPump c <= skippedByPump c')%nat
  /\ (skippedByToken c <= skippedByToken c')%nat
  /\ (tradeCounter c <= tradeCounter c')%nat
  /\ (outcomes c' <= S (outcomes c))%nat
  /\ (outcome <> Skip -> c' = countTrade (countProcessed c)).
Proof.
  unfold processTransaction, outcomes.
  destruct tx as [tx|];
    [|cbn; repeat split; auto; try lia; congruence].
  destruct (meta tx) as [m|] eqn:Hmeta;
    [|cbn; repeat split; auto; try lia; congruence].
  destruct (blockTime tx) as [time|] eqn:Htime;
    [|cbn; repeat split; auto; try lia; congruence].
  destruct (truthy time) eqn:Htruthy; cbn [negb];
    [|cbn; repeat split; auto; try lia; congruence].
  assert (Hbt : blockTimeOf (Some tx) = Some time)
    by (unfold blockTimeOf; now rewrite Htime, Htruthy).
  assert (Hno : blockTimeOf (Some tx) = None
                \/ (exists t, Some tx = Some t /\ meta t = None) ->
                False)
    by (intros [H | (t & [= <-] & H)]; congruence).
  destruct (existsb _ (accountKeys tx)); cbn [negb];
    [|cbn; repeat split; auto; try lia; try congruence; tauto].
  destruct (findUser m) as [u|];
    [|cbn; repeat split; auto; try lia; try congruence; tauto].
  destruct (userTokenAccounts m mintAddress) as [|post ?];
    [cbn; repeat split; auto; try lia; try congruence; tauto|].
  destruct (preTokenBalanceOf m (accountIndex post)) as [pre|];
    [|cbn; repeat split; auto; try lia; try congruence; tauto].
  destruct (JS.strict_eq _ 0%float);
    [cbn; repeat split; auto; try lia; try congruence; tauto|].
  destruct (JS.lt _ MIN_SOL_AMOUNT);
    [cbn; repeat split; auto; try lia; try congruence; tauto|].
  destruct (isoTimestamp time);
    cbn; repeat split; auto; try lia; try congruence; tauto.
Qed.

(** X16.  A record is returned only for a transaction that names the
    pump program, in which some balance changed and in which the target
    token's balance of the located account changed.  The record is
    labelled SELL when that token balance rose and BUY when it fell, its
    amounts are the text of a native amount that is not below
    MIN_SOL_AMOUNT and of a token change that is not 0, and its hash is
    the first signature of the transaction. *)
Theorem returned_trade_is_significant (c : Counters) (tx : Tx)
    (mintAddress : string) (trade : TradeInfo) :
  snd (processTransaction numberToString isoTimestamp c (Some tx)
                          mintAddress) = Found trade ->
  exists m time user post pre,
    meta tx = Some m /\ blockTime tx = Some time
    /\ In PUMP_PROGRAM_ID (accountKeys tx)
    /\ findUser m = Some user
    /\ head (userTokenAccounts m mintAddress) = Some post
    /\ preTokenBalanceOf m (accountIndex post) = Some pre
    /\ let preAmount := orZero (uiAmount pre) in
       let postAmount := orZero (uiAmount post) in
       let tokenChange := abs (postAmount - preAmount)%float in
       let isBuy := JS.gt postAmount preAmount in
       let actual :=
         actualSolChangeOf m user isBuy
           (findIndex (fun key => String.eqb key PUMP_FEE_ACCOUNT)
                      (accountKeys tx)) in
       JS.strict_eq tokenChange 0%float = false
       /\ JS.lt actual MIN_SOL_AMOUNT = false
       /\ isoTimestamp time = timestamp trade
       /\ type trade = Some (if isBuy then "SELL" else "BUY")
       /\ solAmount trade = Some (numberToString actual)
       /\ tokenAmount trade = Some (numberToString tokenChange)
       /\ txHash trade = head (signatures tx).
Proof.
  unfold processTransaction.
  destruct (meta tx) as [m|]; [|discriminate].
  destruct (blockTime tx) as [time|]; [|discriminate].
  destruct (truthy time); cbn [negb]; [|discriminate].
  destruct (existsb _ (accountKeys tx)) eqn:Hpump; cbn [negb];
    [|discriminate].
  destruct (findUser m) as [u|] eqn:Huser; [|discriminate].
  destruct (userTokenAccounts m mintAddress) as [|post rest] eqn:Hpost;
    [discriminate|].
  destruct (preTokenBalanceOf m (accountIndex post)) as [pre|] eqn:Hpre;
    [|discriminate].
  destruct (JS.strict_eq _ 0%float) eqn:Hzero; [discriminate|].
  destruct (JS.lt _ MIN_SOL_AMOUNT) eqn:Hmin; [discriminate|].
  destruct (isoTimestamp time) as [stamp|] eqn:Hstamp; [|discriminate].
  cbn [snd]. intros [= <-].
  exists m, time, u, post, pre. cbn [timestamp type solAmount tokenAmount txHash].
  rewrite Hpost.
  repeat split; try reflexivity; try assumption.
  apply existsb_exists in Hpump as (key & Hin & Heq).
  apply String.eqb_eq in Heq. now subst key.
Qed.

End Host.

Lemma returned_trade_is_significant_witness :
  exists m time user post pre,
    meta (purchase "sig1") = Some m
    /\ blockTime (purchase "sig1") = Some time
    /\ In PUMP_PROGRAM_ID (accountKeys (purchase "sig1"))
    /\ findUser m = Some user
    /\ head (userTokenAccounts m "MINT") = Some post
    /\ preTokenBalanceOf m (accountIndex post) = Some pre.
Proof.
  destruct (returned_trade_is_significant
              plainNumber plainStamp
              {| processedCount := 0; skippedByAmount := 0;
                 skippedByPump := 0; skippedByToken := 0;
                 tradeCounter := 0 |}
              (purchase "sig1") "MINT"
              {| timestamp := Some "t"; type := Some "SELL";
                 solAmount := Some "n"; tokenAmount := Some "n";
                 txHash := Some "sig1" |} eq_refl)
    as (m & time & user & post & pre & H1 & H2 & H3 & H4 & H5 & H6 & _).
  exists m, time, user, post, pre.
  repeat (split; [assumption|]). assumption.
Defined.

End ClassifyProps.

(* ===================================================================== *)
(** ** Collecting trades *)
(* ===================================================================== *)

Module SessionProps.
Import OrderWatcher WatcherRuns Watcher SessionNotions JSString.
Import LedgerProps LedgerRuns.
Local Open Scope string_scope.

Lemma fetchedOf_app (a b : list Step) :
  fetchedOf (a ++ b) = (fetchedOf a ++ fetchedOf b)%list.
Proof. apply omap_app. Qed.
Lemma foundOf_app (a b : list Step) :
  foundOf (a ++ b) = (foundOf a ++ foundOf b)%list.
Proof. apply omap_app. Qed.
Lemma writtenOf_app (a b : list Step) :
  writtenOf (a ++ b) = (writtenOf a ++ writtenOf b)%list.
Proof. apply omap_app. Qed.

Lemma sublist_map {A B} (f : A -> B) (l k : list A) :
  sublist l k -> sublist (map f l) (map f k).
Proof. induction 1; cbn; now constructor. Qed.

Lemma passInvariant_refl (mintAddress : string) (candidates : list string)
    (s : Session) :
  passInvariant mintAddress candidates s s [].
Proof.
  unfold passInvariant. cbn. rewrite app_nil_r.
  split; [reflexivity|]. split; [reflexivity|]. split; [intros sg []|].
  split; [apply sublist_nil_l|].
  split; [reflexivity|]. split; [reflexivity|]. intros H.
  split; [exact H | constructor].
Qed.

Lemma passInvariant_trans (mintAddress : string) (c1 c2 : list string)
    (s s1 s2 : Session) (steps1 steps2 : list Step) :
  passInvariant mintAddress c1 s s1 steps1 ->
  passInvariant mintAddress c2 s1 s2 steps2 ->
  passInvariant mintAddress (c1 ++ c2) s s2 (steps1 ++ steps2).
Proof.
  intros (I1 & P1 & F1 & S1 & C1 & W1 & B1) (I2 & P2 & F2 & S2 & C2 & W2 & B2).
  unfold passInvariant.
  rewrite fetchedOf_app, foundOf_app, writtenOf_app, concat_app.
  split; [congruence|]. split; [etrans; [exact P1 | exact P2]|].
  split; [|split; [|split; [|split]]].
  - intros sg [H | H]%in_app_iff; [now apply F1|].
    intros Hin. apply (F2 sg H), P1, Hin.
  - now apply sublist_app.
  - rewrite <- app_assoc, C2, !app_assoc. now rewrite C1.
  - unfold afterWrites in *. rewrite fold_left_app, <- W1, <- I1. exact W2.
  - intros Hlen. destruct (B1 Hlen) as [Hlen1 Hall1].
    destruct (B2 Hlen1) as [Hlen2 Hall2].
    split; [exact Hlen2 | now apply Forall_app].
Qed.

Section Host.

Variable numberToString : JS.number -> string.
Variable isoTimestamp : JS.number -> option string.

Lemma monitorOne_invariant (rpc : Rpc) (mintAddress : string)
    (s : Session) (info : SignatureInfo) :
  passInvariant mintAddress [signature info] s
    (fst (monitorOne numberToString isoTimestamp rpc mintAddress s info))
    (snd (monitorOne numberToString isoTimestamp rpc mintAddress s info)).
Proof.
  unfold monitorOne, has.
  destruct (bool_decide (signature info ∈ processedSignatures s))
    eqn:Hhas; [apply passInvariant_refl|].
  apply bool_decide_eq_false in Hhas.
  assert (Hfetch : forall sg,
             In sg [signature info] -> sg ∉ processedSignatures s)
    by (intros sg [<- | []]; exact Hhas).
  destruct (snd (fetchWithRetry _ _)) as [tx|err].
  2:{ unfold passInvariant. cbn. rewrite app_nil_r.
      split; [reflexivity|]. split; [reflexivity|]. split; [exact Hfetch|].
      split; [reflexivity|].
      split; [reflexivity|]. split; [reflexivity|]. intros H.
      split; [exact H | constructor]. }
  destruct (processTransaction numberToString isoTimestamp (counters s)
                               tx mintAddress) as [c [trade| |]];
    unfold passInvariant; cbn [fst snd isInitialFetch processedSignatures
                                   pendingTrades files].
  - destruct (BATCH_SIZE <=? length (pendingTrades s ++ [trade]))%nat
      eqn:Hflush; cbn; rewrite ?app_nil_r;
      (split; [reflexivity|]); (split; [apply union_subseteq_r|]);
      (split; [exact Hfetch|]); (split; [reflexivity|]); (split; [reflexivity|]);
      (split; [reflexivity|]); intros Hlen;
      rewrite length_app in Hflush; cbn [length] in Hflush.
    + apply Nat.leb_le in Hflush. split; [unfold BATCH_SIZE; lia|].
      constructor; [|constructor]. rewrite length_app. cbn.
      unfold BATCH_SIZE in *. lia.
    + apply Nat.leb_gt in Hflush. rewrite length_app. cbn.
      split; [lia | constructor].
  - cbn. rewrite app_nil_r.
    split; [reflexivity|]. split; [apply union_subseteq_r|]. split; [exact Hfetch|]. split; [reflexivity|].
    split; [reflexivity|]. split; [reflexivity|]. intros H.
    split; [exact H | constructor].
  - cbn. rewrite app_nil_r.
    split; [reflexivity|]. split; [reflexivity|]. split; [exact Hfetch|]. split; [reflexivity|].
    split; [reflexivity|]. split; [reflexivity|]. intros H.
    split; [exact H | constructor].
Qed.

Lemma monitorLoop_cons (rpc : Rpc) (mintAddress : string) (s : Session)
    (info : SignatureInfo) (infos : list SignatureInfo) :
  monitorLoop numberToString isoTimestamp rpc mintAddress s (info :: infos)
  = (fst (monitorLoop numberToString isoTimestamp rpc mintAddress
            (fst (monitorOne numberToString isoTimestamp rpc mintAddress
                             s info))
            infos),
     (snd (monitorOne numberToString isoTimestamp rpc mintAddress s info)
        ++ snd (monitorLoop numberToString isoTimestamp rpc mintAddress
                  (fst (monitorOne numberToString isoTimestamp rpc
                                   mintAddress s info))
                  infos))%list).
Proof.
  cbn [monitorLoop].
  destruct (monitorOne numberToString isoTimestamp rpc mintAddress s info)
    as [s1 steps1].
  cbn [fst snd].
  now destruct (monitorLoop numberToString isoTimestamp rpc mintAddress
                            s1 infos).
Qed.

Lemma monitorLoop_invariant (rpc : Rpc) (mintAddress : string)
    (infos : list SignatureInfo) (s : Session) :
  passInvariant mintAddress (map signature infos) s
    (fst (monitorLoop numberToString isoTimestamp rpc mintAddress s infos))
    (snd (monitorLoop numberToString isoTimestamp rpc mintAddress s infos)).
Proof.
  revert s. induction infos as [|info infos IH]; intros s.
  - apply passInvariant_refl.
  - rewrite monitorLoop_cons. cbn [fst snd map].
    eapply (passInvariant_trans mintAddress [signature info]
                                (map signature infos)).
    + apply monitorOne_invariant.
    + apply IH.
Qed.

(** A pass, whatever the node answers. *)
Lemma monitorTrades_invariant (rpc : Rpc) (mintAddress : string)
    (s : Session) :
  passInvariant mintAddress
    (match snd (fetchWithRetry (listSignatures rpc)
                               "fetching recent signatures") with
     | Resolved infos =>
         map signature
             (List.filter (newerThan (lastProcessedTime s)) infos)
     | Rejected _ => []
     end)
    s
    (fst (monitorTrades numberToString isoTimestamp rpc mintAddress s))
    (snd (monitorTrades numberToString isoTimestamp rpc mintAddress s)).
Proof.
  unfold monitorTrades.
  destruct (snd (fetchWithRetry (listSignatures rpc) _)) as [infos|err];
    [|apply passInvariant_refl].
  pose proof (monitorLoop_invariant rpc mintAddress
                (List.filter
                   (fun info =>
                      negb (has (signature info) (processedSignatures s))
                      && newerThan (lastProcessedTime s) info)
                   infos) s)
    as (I & P & F & S & rest).
  split; [exact I|]. split; [exact P|]. split; [exact F|].
  split; [|exact rest].
  etrans; [exact S|]. apply sublist_map. clear.
  induction infos as [|info infos IH]; cbn [List.filter]; [constructor|].
  destruct (newerThan (lastProcessedTime s) info);
    rewrite ?andb_true_r, ?andb_false_r.
  - destruct (negb _); [now apply sublist_skip | now apply sublist_cons].
  - exact IH.
Qed.

End Host.

(** In initial mode every write replaces the file: after a series of
    writes it holds the last batch. *)
Lemma afterWrites_initial (mintAddress : string)
    (batches : list (list TradeInfo)) (fs : gmap string string) :
  afterWrites true mintAddress batches fs !! fileName mintAddress
  = match last batches with
    | Some batch => Some (csvContent batch)
    | None => fs !! fileName mintAddress
    end.
Proof.
  revert fs. induction batches as [|batch batches IH]; intros fs;
    [reflexivity|].
  unfold afterWrites in *. cbn [fold_left]. rewrite IH.
  destruct batches as [|batch' batches];
    [cbn; apply lookup_insert_eq|].
  change (last (batch :: batch' :: batches)) with (last (batch' :: batches)).
  destruct (last (batch' :: batches)) eqn:E; [reflexivity|].
  now apply last_None in E.
Qed.

Section Runs.

Variable numberToString : JS.number -> string.
Variable isoTimestamp : JS.number -> option string.

Lemma monitorRun_invariant (mintAddress : string) (rpcs : list Rpc)
    (s : Session) :
  exists candidates,
    passInvariant mintAddress candidates s
      (fst (monitorRun numberToString isoTimestamp rpcs mintAddress s))
      (snd (monitorRun numberToString isoTimestamp rpcs mintAddress s)).
Proof.
  revert s. induction rpcs as [|rpc rpcs IH]; intros s.
  - exists []. apply passInvariant_refl.
  - cbn [monitorRun].
    pose proof (monitorTrades_invariant numberToString isoTimestamp
                                        rpc mintAddress s) as H1.
    destruct (monitorTrades numberToString isoTimestamp rpc mintAddress s)
      as [s1 steps1].
    destruct (IH s1) as [c2 H2].
    destruct (monitorRun numberToString isoTimestamp rpcs mintAddress s1)
      as [s2 steps2].
    cbn [fst snd] in *. eexists.
    eapply passInvariant_trans; [exact H1 | exact H2].
Qed.

End Runs.

(** X17.  A pass that starts with fewer than BATCH_SIZE pending trades
    ends with fewer than BATCH_SIZE pending trades, and every batch it
    writes to the ledger holds exactly BATCH_SIZE records. *)
Theorem pass_keeps_pending_below_batch_size
    (numberToString : JS.number -> string)
    (isoTimestamp : JS.number -> option string)
    (rpc : Rpc) (mintAddress : string) (s : Session) :
  (length (pendingTrades s) < BATCH_SIZE)%nat ->
  let s' := fst (monitorTrades numberToString isoTimestamp rpc mintAddress s) in
  let steps :=
    snd (monitorTrades numberToString isoTimestamp rpc mintAddress s) in
  (length (pendingTrades s') < BATCH_SIZE)%nat
  /\ Forall (fun batch => length batch = BATCH_SIZE) (writtenOf steps).
Proof.
  intros Hlen s' steps.
  destruct (monitorTrades_invariant numberToString isoTimestamp
                                    rpc mintAddress s)
    as (_ & _ & _ & _ & _ & _ & H).
  exact (H Hlen).
Qed.

Lemma pass_keeps_pending_below_batch_size_witness :
  let pass :=
    monitorTrades plainNumber plainStamp steadyNode "MINT"
                  appendingSession in
  (length (pendingTrades (fst pass)) < BATCH_SIZE)%nat
  /\ Forall (fun batch => length batch = BATCH_SIZE) (writtenOf (snd pass)).
Proof.
  apply (pass_keeps_pending_below_batch_size
           plainNumber plainStamp steadyNode "MINT" appendingSession).
  cbn. unfold BATCH_SIZE. lia.
Defined.

(** X18.  A pass neither loses nor repeats a trade it finds: the batches
    it writes, in order, followed by the trades left pending, are the
    trades that were pending followed by the trades found, in the order
    they were found. *)
Theorem pass_loses_no_trade
    (numberToString : JS.number -> string)
    (isoTimestamp : JS.number -> option string)
    (rpc : Rpc) (mintAddress : string) (s : Session) :
  let s' := fst (monitorTrades numberToString isoTimestamp rpc mintAddress s) in
  let steps :=
    snd (monitorTrades numberToString isoTimestamp rpc mintAddress s) in
  (concat (writtenOf steps) ++ pendingTrades s')%list
  = (pendingTrades s ++ foundOf steps)%list.
Proof.
  intros s' steps.
  now destruct (monitorTrades_invariant numberToString isoTimestamp
                                        rpc mintAddress s)
    as (_ & _ & _ & _ & H & _).
Qed.

(** X19.  A pass asks only for transactions of signatures that are not
    processed yet, that the listing returned with a block time later than
    [lastProcessedTime], and in the order of the listing; it never removes
    a signature from the processed set; and when the listing fails it does
    nothing at all. *)
Theorem pass_fetches_only_new_listed_signatures
    (numberToString : JS.number -> string)
    (isoTimestamp : JS.number -> option string)
    (rpc : Rpc) (mintAddress : string) (s : Session) :
  let listing :=
    snd (fetchWithRetry (listSignatures rpc) "fetching recent signatures") in
  let s' := fst (monitorTrades numberToString isoTimestamp rpc mintAddress s) in
  let steps :=
    snd (monitorTrades numberToString isoTimestamp rpc mintAddress s) in
  processedSignatures s ⊆ processedSignatures s'
  /\ (forall sg, In sg (fetchedOf steps) -> sg ∉ processedSignatures s)
  /\ sublist (fetchedOf steps)
             (match listing with
              | Resolved infos =>
                  map signature
                      (List.filter (newerThan (lastProcessedTime s)) infos)
              | Rejected _ => []
              end)
  /\ (forall err, listing = Rejected err -> s' = s /\ steps = []).
Proof.
  intros listing s' steps.
  destruct (monitorTrades_invariant numberToString isoTimestamp
                                    rpc mintAddress s)
    as (_ & P & F & S & _).
  split; [exact P|]. split; [exact F|]. split; [exact S|].
  intros err Hrej. subst s' steps. unfold monitorTrades.
  fold listing. now rewrite Hrej.
Qed.

(** X20.  While the session is in initial mode, a pass that writes leaves
    in the ledger only the last batch it wrote: whatever the file held
    before, and every batch written earlier in the pass, is gone.  The
    pass does not leave initial mode. *)
Theorem pass_in_initial_mode_keeps_last_batch_only
    (numberToString : JS.number -> string)
    (isoTimestamp : JS.number -> option string)
    (rpc : Rpc) (mintAddress : string) (s : Session) :
  isInitialFetch s = true ->
  let s' := fst (monitorTrades numberToString isoTimestamp rpc mintAddress s) in
  let steps :=
    snd (monitorTrades numberToString isoTimestamp rpc mintAddress s) in
  isInitialFetch s' = true
  /\ files s' !! fileName mintAddress
     = match last (writtenOf steps) with
       | Some batch => Some (csvContent batch)
       | None => files s !! fileName mintAddress
       end.
Proof.
  intros Hinit s' steps.
  destruct (monitorTrades_invariant numberToString isoTimestamp
                                    rpc mintAddress s)
    as (I & _ & _ & _ & _ & W & _).
  subst s' steps. split; [now rewrite I|]. rewrite W, Hinit.
  apply afterWrites_initial.
Qed.

Lemma pass_in_initial_mode_keeps_last_batch_only_witness :
  let s := freshSession {[ fileName "MINT" := csvContent [trade1] ]} in
  let pass := monitorTrades plainNumber plainStamp steadyNode "MINT" s in
  files (fst pass) !! fileName "MINT"
  = match last (writtenOf (snd pass)) with
    | Some batch => Some (csvContent batch)
    | None => Some (csvContent [trade1])
    end.
Proof.
  intros s pass.
  exact (proj2 (pass_in_initial_mode_keeps_last_batch_only
                  plainNumber plainStamp steadyNode "MINT" s eq_refl)).
Defined.

(** X21.  In append mode, over a ledger the writer wrote, a pass extends
    the ledger by the batches it writes and by nothing else: the records
    of the ledger followed by the pending trades are, after the pass, what
    they were before followed by the trades found. *)
Theorem pass_in_append_mode_extends_ledger
    (numberToString : JS.number -> string)
    (isoTimestamp : JS.number -> option string)
    (rpc : Rpc) (mintAddress : string) (s : Session)
    (existing : list TradeInfo) :
  isInitialFetch s = false ->
  files s !! fileName mintAddress = Some (csvContent existing) ->
  forallb wellFormed existing = true ->
  let s' := fst (monitorTrades numberToString isoTimestamp rpc mintAddress s) in
  let steps :=
    snd (monitorTrades numberToString isoTimestamp rpc mintAddress s) in
  forallb (forallb wellFormed) (writtenOf steps) = true ->
  exists records,
    files s' !! fileName mintAddress = Some (csvContent records)
    /\ readExisting (csvContent records) = records
    /\ (records ++ pendingTrades s')%list
       = (existing ++ pendingTrades s ++ foundOf steps)%list.
Proof.
  intros Happend Hfile Hwf s' steps Hall.
  destruct (monitorTrades_invariant numberToString isoTimestamp
                                    rpc mintAddress s)
    as (_ & _ & _ & _ & C & W & _).
  subst s'. fold steps in C, W. fold steps.
  exists (existing ++ concat (writtenOf steps))%list. split; [|split].
  - rewrite W, Happend. now apply append_series.
  - apply readExisting_csvContent. rewrite forallb_app, Hwf. cbn [andb].
    clear -Hall. induction (writtenOf steps) as [|b bs IH]; [reflexivity|].
    cbn [forallb] in Hall. apply andb_prop in Hall as [Hb Hbs].
    cbn [concat]. now rewrite forallb_app, Hb, (IH Hbs).
  - rewrite <- app_assoc. now rewrite C.
Qed.

Lemma pass_in_append_mode_extends_ledger_witness :
  let pass :=
    monitorTrades plainNumber plainStamp steadyNode "MINT"
                  appendingSession in
  exists records,
    files (fst pass) !! fileName "MINT" = Some (csvContent records)
    /\ readExisting (csvContent records) = records
    /\ (records ++ pendingTrades (fst pass))%list
       = ([trade1] ++ [] ++ foundOf (snd pass))%list.
Proof.
  apply (pass_in_append_mode_extends_ledger
           plainNumber plainStamp steadyNode "MINT" appendingSession
           [trade1]).
  - reflexivity.
  - apply lookup_singleton_eq.
  - reflexivity.
  - vm_compute. reflexivity.
Defined.

(** X22.  When the first listing of signatures fails, [getInitialTrades]
    writes nothing and leaves the session in initial mode; every pass after
    it stays in initial mode, so that whatever number of passes follows,
    the ledger holds at most the last batch written. *)
Theorem failed_first_listing_keeps_initial_mode
    (numberToString : JS.number -> string)
    (isoTimestamp : JS.number -> option string)
    (timeOf : maybe -> JS.number)
    (sortByTime : list TradeInfo -> list TradeInfo)
    (rpc : Rpc) (mintAddress : string) (fs : gmap string string)
    (err : RpcError) :
  snd (fetchWithRetry (listSignatures rpc) "fetching signatures")
  = Rejected err ->
  let s :=
    getInitialTrades numberToString isoTimestamp timeOf sortByTime
                     rpc mintAddress (freshSession fs) in
  isInitialFetch s = true
  /\ files s = fs
  /\ (forall rpcs,
        let s' :=
          fst (monitorRun numberToString isoTimestamp rpcs mintAddress s) in
        let steps :=
          snd (monitorRun numberToString isoTimestamp rpcs mintAddress s) in
        isInitialFetch s' = true
        /\ files s' !! fileName mintAddress
           = match last (writtenOf steps) with
             | Some batch => Some (csvContent batch)
             | None => fs !! fileName mintAddress
             end).
Proof.
  intros Hrej s.
  assert (Hs : isInitialFetch s = true /\ files s = fs).
  { subst s. unfold getInitialTrades. rewrite Hrej. split; reflexivity. }
  destruct Hs as [Hinit Hfiles].
  split; [exact Hinit|]. split; [exact Hfiles|].
  intros rpcs s' steps.
  destruct (monitorRun_invariant numberToString isoTimestamp
                                 mintAddress rpcs s)
    as (candidates & I & _ & _ & _ & _ & W & _).
  subst s' steps. split; [now rewrite I|]. rewrite W, Hinit, <- Hfiles.
  apply afterWrites_initial.
Qed.

Lemma failed_first_listing_keeps_initial_mode_witness :
  let s :=
    getInitialTrades plainNumber plainStamp plainTime plainSort
                     throttledNode "MINT" (freshSession ∅) in
  isInitialFetch s = true /\ files s = ∅.
Proof.
  intros s.
  destruct (failed_first_listing_keeps_initial_mode
              plainNumber plainStamp plainTime plainSort throttledNode
              "MINT" ∅ (exhaustedRetries "fetching signatures") eq_refl)
    as (H1 & H2 & _).
  split; [exact H1 | exact H2].
Defined.

(** The initial scan only adds to the processed signatures, and it
    collects at most BATCH_SIZE trades when it starts below that number. *)
Lemma initialLoop_grows
    (numberToString : JS.number -> string)
    (isoTimestamp : JS.number -> option string)
    (rpc : Rpc) (mintAddress : string) (infos : list SignatureInfo) :
  forall (processedSigs total : nat) (processed : gset string)
         (c : Counters) (validTrades : list TradeInfo),
    let out :=
      initialLoop numberToString isoTimestamp rpc mintAddress infos
                  processedSigs total processed c validTrades in
    processed ⊆ out.1.1
    /\ ((length validTrades < BATCH_SIZE)%nat ->
        (length out.2 <= BATCH_SIZE)%nat).
Proof.
  induction infos as [|info infos IH]; intros n total processed c valid.
  - cbn. split; [reflexivity | lia].
  - cbn [initialLoop].
    destruct (snd (fetchWithRetry _ _)) as [tx|err]; [|apply IH].
    destruct (processTransaction _ _ c tx mintAddress) as [c' outcome].
    destruct outcome as [trade| |]; try apply IH.
    destruct (BATCH_SIZE <=? length (valid ++ [trade]))%nat eqn:E.
    + cbn. split; [apply union_subseteq_r|].
      rewrite length_app. cbn. lia.
    + apply Nat.leb_gt in E.
      destruct (IH (S n) total ({[ signature info ]} ∪ processed) c'
                   (valid ++ [trade])%list) as [I1 I2].
      split; [|intros _; now apply I2].
      etrans; [apply union_subseteq_r | exact I1].
Qed.

(** X23.  When the first listing succeeds, [getInitialTrades] leaves
    initial mode, keeps the pending trades it was given, removes no
    signature from the processed set, resets the trade counter, and
    either leaves the files alone (no trade found) or writes the records
    of at most BATCH_SIZE trades to the ledger, in the mode the session
    was in. *)
Theorem initial_population_writes_at_most_a_batch
    (numberToString : JS.number -> string)
    (isoTimestamp : JS.number -> option string)
    (timeOf : maybe -> JS.number)
    (sortByTime : list TradeInfo -> list TradeInfo)
    (rpc : Rpc) (mintAddress : string) (s : Session)
    (infos : list SignatureInfo) :
  snd (fetchWithRetry (listSignatures rpc) "fetching signatures")
  = Resolved infos ->
  let s' :=
    getInitialTrades numberToString isoTimestamp timeOf sortByTime
                     rpc mintAddress s in
  isInitialFetch s' = false
  /\ pendingTrades s' = pendingTrades s
  /\ processedSignatures s ⊆ processedSignatures s'
  /\ tradeCounter (counters s') = 0%nat
  /\ (files s' = files s
      \/ exists kept,
           (length kept <= BATCH_SIZE)%nat
           /\ files s'
              = writeTradestoCSV (isInitialFetch s) (files s)
                                 mintAddress kept).
Proof.
  intros Hres s'. subst s'. unfold getInitialTrades. rewrite Hres.
  pose proof (initialLoop_grows numberToString isoTimestamp rpc mintAddress
                infos 0 (length infos) (processedSignatures s)
                {| processedCount := 0; skippedByAmount := 0;
                   skippedByPump := 0; skippedByToken := 0;
                   tradeCounter := 0 |} []) as [Hsub _].
  destruct (initialLoop _ _ _ _ _ _ _ _ _ _) as [[processed c] valid].
  cbn in Hsub.
  destruct valid as [|t valid]; cbn [isInitialFetch pendingTrades counters
                                      processedSignatures
                                      tradeCounter resetTradeCounter files].
  - split; [reflexivity|]. split; [reflexivity|]. split; [exact Hsub|].
    split; [reflexivity|]. now left.
  - split; [reflexivity|]. split; [reflexivity|]. split; [exact Hsub|].
    split; [reflexivity|].
    right. eexists. split; [|reflexivity].
    destruct (BATCH_SIZE <? length (sortByTime (t :: valid)))%nat eqn:E.
    + unfold lastN. rewrite length_skipn. lia.
    + now apply Nat.ltb_ge in E.
Qed.

Lemma initial_population_writes_at_most_a_batch_witness :
  let s' :=
    getInitialTrades plainNumber plainStamp plainTime plainSort
                     steadyNode "MINT" (freshSession ∅) in
  isInitialFetch s' = false /\ pendingTrades s' = [].
Proof.
  intros s'.
  destruct (initial_population_writes_at_most_a_batch
              plainNumber plainStamp plainTime plainSort steadyNode
              "MINT" (freshSession ∅) sixSignatures eq_refl)
    as (H1 & H2 & _).
  split; [exact H1 | exact H2].
Defined.

End SessionProps.
